(** * A shallow embedding of [scraper.py] (class [BlogScraper])

    The development follows the layout of the program: Python strings and
    the few string methods the scraper calls, the regular expressions of
    [find_blog_links] and [save_post], the URL library, the parsed HTML tree
    with the CSS selectors the scraper passes to BeautifulSoup, then the
    methods of [BlogScraper] themselves, and finally the properties proved
    about them. *)

From Stdlib Require Import ZArith NArith String Ascii List Lia.
From stdpp Require Import base tactics option list gmap sets.

Set Warnings "-register-all".

(** ** Python strings *)

(** A Python [str] is a sequence of Unicode code points. *)
Definition char := N.
Definition str := list char.

(** [py "..."] is the [str] of an ASCII literal of the source. *)
Definition py (s : string) : str :=
  map N_of_ascii (list_ascii_of_string s).

Module Str.

(** [not s] for a string: the empty string is the only falsy one. *)
Definition falsy (s : str) : bool :=
  match s with [] => true | _ => false end.

(** [a or b] on strings. *)
Definition or (a b : str) : str := if falsy a then b else a.

(** [s.startswith(prefix)] *)
Fixpoint startswith (s prefix : str) : bool :=
  match prefix, s with
  | [], _ => true
  | p :: prefix', c :: s' => (c =? p)%N && startswith s' prefix'
  | _ :: _, [] => false
  end.

(** [s.endswith(suffix)] *)
Definition endswith (s suffix : str) : bool :=
  startswith (rev s) (rev suffix).

(** [s.split(sep)] for a one-character separator: never the empty list. *)
Fixpoint split (sep : char) (s : str) : list str :=
  match s with
  | [] => [[]]
  | c :: s' =>
      if (c =? sep)%N then [] :: split sep s'
      else match split sep s' with
           | w :: ws => (c :: w) :: ws
           | [] => [[c]]
           end
  end.

(** [sep.join(parts)] *)
Fixpoint join (sep : str) (parts : list str) : str :=
  match parts with
  | [] => []
  | [p] => p
  | p :: ps => p ++ sep ++ join sep ps
  end.

(** [parts[-1]] on the result of [split], which is never empty. *)
Definition last_item (parts : list str) : str := default [] (last parts).

(** [c in s] *)
Definition contains (c : char) (s : str) : bool := existsb (N.eqb c) s.

(** [str.isspace] of one character: the code points Python's
    [Py_UNICODE_ISSPACE] accepts. *)
Definition isspace (c : char) : bool :=
  ((9 <=? c) && (c <=? 13) || (28 <=? c) && (c <=? 32)
   || (c =? 133) || (c =? 160) || (c =? 5760)
   || (8192 <=? c) && (c <=? 8202)
   || (c =? 8232) || (c =? 8233) || (c =? 8239) || (c =? 8287)
   || (c =? 12288))%N.

Fixpoint lstrip_with (p : char -> bool) (s : str) : str :=
  match s with
  | c :: s' => if p c then lstrip_with p s' else s
  | [] => []
  end.

Definition rstrip_with (p : char -> bool) (s : str) : str :=
  rev (lstrip_with p (rev s)).

(** [s.strip()] *)
Definition strip (s : str) : str := rstrip_with isspace (lstrip_with isspace s).

(** [s.split()] with no argument: the maximal runs of non-blank characters. *)
Fixpoint words_aux (cur : str) (s : str) : list str :=
  match s with
  | [] => match cur with [] => [] | _ => [rev cur] end
  | c :: s' =>
      if isspace c
      then match cur with [] => words_aux [] s' | _ => rev cur :: words_aux [] s' end
      else words_aux (c :: cur) s'
  end.
Definition words (s : str) : list str := words_aux [] s.

(** [s[:n]]: a negative bound counts from the end. *)
Definition slice_to {A} (l : list A) (n : Z) : list A :=
  if (0 <=? n)%Z then take (Z.to_nat n) l
  else take (length l - Z.to_nat (- n)) l.

Definition eqb (a b : str) : bool := bool_decide (a = b).

End Str.

(** ** Character classes of [re] *)

(** On a [str] pattern, [\w] and [\d] follow the Unicode database.  Their
    value on ASCII is fixed below; the tables beyond ASCII belong to the
    interpreter and are taken as given. *)
Class UnicodeData := {
  unicode_isalnum : char -> bool;
  unicode_isdecimal : char -> bool
}.

Definition in_range (lo hi : string) (c : char) : bool :=
  match py lo, py hi with
  | [l], [h] => ((l <=? c) && (c <=? h))%N
  | _, _ => false
  end.

Definition ascii_digit (c : char) : bool := in_range "0" "9" c.
Definition ascii_alpha (c : char) : bool := in_range "a" "z" c || in_range "A" "Z" c.
Definition is_char (s : string) (c : char) : bool :=
  match py s with [x] => (c =? x)%N | _ => false end.

Section Classes.
Context `{UnicodeData}.

(** [\d] *)
Definition re_digit (c : char) : bool :=
  if (c <? 128)%N then ascii_digit c else unicode_isdecimal c.

(** [\w] *)
Definition re_word (c : char) : bool :=
  if (c <? 128)%N then ascii_alpha c || ascii_digit c || is_char "_" c
  else unicode_isalnum c.

(** [[^\w\-]], the class [save_post] replaces. *)
Definition unsafe_char (c : char) : bool := negb (re_word c || is_char "-" c).

(** [re.sub(r'[^\w\-]', repl, s)]: the pattern matches single characters,
    so each matching character is replaced on its own. *)
Definition re_sub_unsafe (repl : str) (s : str) : str :=
  flat_map (fun c => if unsafe_char c then repl else [c]) s.
End Classes.

(** [[a-zA-Z0-9\-]], the slug class of the three URL patterns. *)
Definition slug_char (c : char) : bool :=
  ascii_alpha c || ascii_digit c || is_char "-" c.

(** ** Regular expressions

    The patterns of the program are written as syntax trees and run by a
    derivative matcher. *)
Module Re.

Inductive regex :=
| Void
| Eps
| Chr (c : char)
| Class (p : char -> bool)
| Cat (r1 r2 : regex)
| Alt (r1 r2 : regex)
| Star (r : regex).

(** [r+], [r?], [r{n}] and a literal string. *)
Definition Plus (r : regex) : regex := Cat r (Star r).
Definition Opt (r : regex) : regex := Alt r Eps.
Fixpoint Times (n : nat) (r : regex) : regex :=
  match n with O => Eps | S n' => Cat r (Times n' r) end.
Fixpoint Lit (s : str) : regex :=
  match s with [] => Eps | c :: s' => Cat (Chr c) (Lit s') end.

Fixpoint nullable (r : regex) : bool :=
  match r with
  | Void | Chr _ | Class _ => false
  | Eps | Star _ => true
  | Cat r1 r2 => nullable r1 && nullable r2
  | Alt r1 r2 => nullable r1 || nullable r2
  end.

Fixpoint deriv (c : char) (r : regex) : regex :=
  match r with
  | Void | Eps => Void
  | Chr c' => if (c =? c')%N then Eps else Void
  | Class p => if p c then Eps else Void
  | Cat r1 r2 =>
      if nullable r1 then Alt (Cat (deriv c r1) r2) (deriv c r2)
      else Cat (deriv c r1) r2
  | Alt r1 r2 => Alt (deriv c r1) (deriv c r2)
  | Star r1 => Cat (deriv c r1) (Star r1)
  end.

(** [re.fullmatch(r, s)] as a truth value. *)
Fixpoint fullmatch (r : regex) (s : str) : bool :=
  match s with
  | [] => nullable r
  | c :: s' => fullmatch (deriv c r) s'
  end.

(** The strings a pattern denotes, against which the matcher is checked
    below. *)
Inductive matches : regex -> str -> Prop :=
| matches_eps : matches Eps []
| matches_chr (c : char) : matches (Chr c) [c]
| matches_class (p : char -> bool) (c : char) : p c = true -> matches (Class p) [c]
| matches_cat (r1 r2 : regex) (s1 s2 : str) :
    matches r1 s1 -> matches r2 s2 -> matches (Cat r1 r2) (s1 ++ s2)
| matches_alt_l (r1 r2 : regex) (s : str) : matches r1 s -> matches (Alt r1 r2) s
| matches_alt_r (r1 r2 : regex) (s : str) : matches r2 s -> matches (Alt r1 r2) s
| matches_star_nil (r : regex) : matches (Star r) []
| matches_star_app (r : regex) (s1 s2 : str) :
    matches r s1 -> matches (Star r) s2 -> matches (Star r) (s1 ++ s2).

(** The suffixes of a string, longest first: each is where a match may start. *)
Fixpoint tails (s : str) : list str :=
  match s with
  | [] => [[]]
  | _ :: s' => s :: tails s'
  end.

(** Without [re.MULTILINE], [$] holds at the end of the string and also
    just before a newline that is its last character: the texts a match
    of [r$] may have to cover. *)
Definition dollar_ends (s : str) : list str :=
  s :: (if Str.endswith s [10%N] then [removelast s] else []).

(** [re.search(r$, s)] as a truth value: some substring that runs up to
    the end matches [r]. *)
Definition search_dollar (r : regex) (s : str) : bool :=
  existsb (fun e => existsb (fullmatch r) (tails e)) (dollar_ends s).

End Re.

(** ** The URL library

    [urljoin] and [urlparse(...).netloc] of [urllib.parse] are library
    code; the scraper is written against this interface, and what is proved
    about the link classifiers holds for every implementation of it.  Either
    call can raise [ValueError] (on a host whose bracket is not closed, for
    one); [None] is a call that raises. *)
Class UrlLib := {
  urljoin : str -> str -> option str;
  netloc : str -> option str
}.

(** A loop that appends to a list what its body gives for each item; an
    exception raised by the body ends it. *)
Fixpoint collect {A B} (body : A -> option (list B)) (items : list A)
    : option (list B) :=
  match items with
  | [] => Some []
  | item :: rest =>
      found ← body item;
      more ← collect body rest;
      Some (found ++ more)
  end.

(** ** The parsed document *)

(** What BeautifulSoup builds from markup.  A string is a
    [NavigableString], which stands for that class itself and for [CData];
    or a [Comment], which stands for the comments, declarations and
    processing instructions; or, inside a tag that is a string container,
    a string of the class of that container ([Script] in [script],
    [Stylesheet] in [style], [TemplateString] in [template], the ruby
    classes in [rt] and [rp]), given here by the container's name.
    Attributes are kept as written in the markup. *)
Inductive node :=
| NavigableString (s : str)
| Comment (s : str)
| ContainerString (container : str) (s : str)
| Tag (name : str) (attrs : list (str * str)) (contents : list node).

Definition soup := list node.

(** The HTML library: the parser behind [BeautifulSoup(html, 'html.parser')]
    and the serializer behind [str(tag)]. *)
Class HtmlLib := {
  BeautifulSoup : str -> soup;
  tag_str : node -> str
}.

Module Bs4.

(** [attrs.get(key)] *)
Fixpoint attr_get (attrs : list (str * str)) (key : str) : option str :=
  match attrs with
  | [] => None
  | (k, v) :: rest => if Str.eqb k key then Some v else attr_get rest key
  end.

(** [tag.get(key)] and [tag.get(key, default)] *)
Definition get (n : node) (key : str) : option str :=
  match n with
  | Tag _ attrs _ => attr_get attrs key
  | _ => None
  end.
Definition get_default (n : node) (key : str) (d : str) : str :=
  default d (get n key).

(** The tags whose strings have a class of their own
    ([DEFAULT_STRING_CONTAINERS] of the HTML tree builder). *)
Definition string_containers : list str :=
  map py ["rt"; "rp"; "style"; "script"; "template"]%string.

(** [_all_strings(types=...)]: the strings at or below a node whose class is
    the one asked for, in document order: [None] asks for the plain classes,
    [Some container] for the class of that container. *)
Fixpoint all_strings (types : option str) (n : node) : str :=
  match n with
  | NavigableString s => if types is None then s else []
  | Comment _ => []
  | ContainerString container s =>
      match types with
      | Some wanted => if Str.eqb container wanted then s else []
      | None => []
      end
  | Tag _ _ contents => flat_map (all_strings types) contents
  end.

(** [interesting_string_types] of a tag: its own class of strings for a
    string container, the plain classes for any other tag. *)
Definition interesting_string_types (name : str) : option str :=
  if bool_decide (name ∈ string_containers) then Some name else None.

(** [tag.get_text()]: the strings below the tag that are of the tag's
    [interesting_string_types], joined, so that the text of scripts and
    style sheets below an ordinary tag is passed over (Beautiful Soup 4.11
    and later).  On a string, it is the string when its class is plain. *)
Definition get_text (n : node) : str :=
  match n with
  | Tag name _ _ => all_strings (interesting_string_types name) n
  | _ => all_strings None n
  end.

(** [soup.find_all(name, href=True)]: the tags of that name carrying the
    attribute, in document order. *)
Fixpoint find_all_with (name key : str) (n : node) : list node :=
  match n with
  | Tag nm attrs contents =>
      (if Str.eqb nm name && bool_decide (is_Some (attr_get attrs key))
       then [n] else [])
      ++ flat_map (find_all_with name key) contents
  | _ => []
  end.
Definition find_all (doc : soup) (name key : str) : list node :=
  flat_map (find_all_with name key) doc.

(** Every tag at or below a node, in document order, and every tag of a
    document. *)
Fixpoint tags_of (n : node) : list node :=
  match n with
  | Tag _ _ contents => n :: flat_map tags_of contents
  | _ => []
  end.
Definition tags (doc : soup) : list node := flat_map tags_of doc.

End Bs4.

(** ** CSS selectors

    The fragment of CSS the scraper hands to [select] and [select_one]: type,
    class and [[attr='value']] tests, combined by descendance and by commas.
    The selectors stay the strings of the source and are parsed here. *)
Module Css.

Record compound := {
  c_tag : option str;
  c_classes : list str;
  c_attribs : list (str * str)
}.

(** A complex selector is a chain of compounds under the descendant
    combinator, the subject last; a selector is a comma-separated list. *)
Definition complex := list compound.
Definition selector := list complex.

Definition ident_char (c : char) : bool :=
  ascii_alpha c || ascii_digit c || is_char "-" c || is_char "_" c.

Fixpoint span (p : char -> bool) (s : str) : str * str :=
  match s with
  | c :: s' => if p c then let '(a, b) := span p s' in (c :: a, b) else ([], s)
  | [] => ([], [])
  end.

(** The [.class] and [[attr='value']] parts that follow the type name. *)
Fixpoint parse_parts (fuel : nat) (s : str) (acc : compound) : option compound :=
  match fuel with
  | O => None
  | S fuel' =>
      match s with
      | [] => Some acc
      | c :: rest =>
          if is_char "." c then
            let '(id, rest') := span ident_char rest in
            if Str.falsy id then None
            else parse_parts fuel' rest'
                   {| c_tag := c_tag acc;
                      c_classes := c_classes acc ++ [id];
                      c_attribs := c_attribs acc |}
          else if is_char "[" c then
            let '(key, r1) := span ident_char rest in
            match r1 with
            | e :: q :: r2 =>
                let '(value, r3) := span (fun x => negb (is_char "'" x)) r2 in
                match r3 with
                | q' :: b :: r4 =>
                    if is_char "=" e && is_char "'" q && is_char "'" q'
                       && is_char "]" b && negb (Str.falsy key)
                    then parse_parts fuel' r4
                           {| c_tag := c_tag acc;
                              c_classes := c_classes acc;
                              c_attribs := c_attribs acc ++ [(key, value)] |}
                    else None
                | _ => None
                end
            | _ => None
            end
          else None
      end
  end.

Definition parse_compound (s : str) : option compound :=
  let '(tag, rest) := span ident_char s in
  if Str.falsy s then None
  else parse_parts (S (length rest)) rest
         {| c_tag := if Str.falsy tag then None else Some tag;
            c_classes := [];
            c_attribs := [] |}.

Definition parse_complex (s : str) : option complex :=
  match filter (fun w => negb (Str.falsy w)) (Str.split 32%N s) with
  | [] => None
  | ws => mapM parse_compound ws
  end.

Definition parse (s : string) : option selector :=
  mapM parse_complex (Str.split 44%N (py s)).

(** [class] and [rel] hold whitespace-separated lists: BeautifulSoup
    stores them split, and an attribute test sees the items joined by
    single spaces. *)
Definition attr_value (key raw : str) : str :=
  if Str.eqb key (py "rel") || Str.eqb key (py "class")
  then Str.join (py " ") (Str.words raw) else raw.

Definition classes_of (attrs : list (str * str)) : list str :=
  Str.words (default [] (Bs4.attr_get attrs (py "class"))).

Definition matches_compound (c : compound) (el : str * list (str * str)) : bool :=
  match c_tag c with None => true | Some t => Str.eqb t el.1 end
  && forallb (fun cl => bool_decide (cl ∈ classes_of el.2)) (c_classes c)
  && forallb (fun kv => match Bs4.attr_get el.2 kv.1 with
                        | Some raw => Str.eqb (attr_value kv.1 raw) kv.2
                        | None => false
                        end) (c_attribs c).

(** [match_chain rcs anc]: the compounds [rcs], innermost first, are each
    matched by some ancestor of [anc] (nearest first), in nesting order. *)
Fixpoint match_chain (rcs : list compound) (anc : list (str * list (str * str))) : bool :=
  match rcs with
  | [] => true
  | c :: rcs' =>
      match anc with
      | [] => false
      | a :: above =>
          matches_compound c a && match_chain rcs' above || match_chain rcs above
      end
  end.

Definition matches_complex (cx : complex) (anc : list (str * list (str * str)))
    (el : str * list (str * str)) : bool :=
  match rev cx with
  | [] => false
  | subject :: outer => matches_compound subject el && match_chain outer anc
  end.

Definition matches (sel : selector) (anc : list (str * list (str * str)))
    (el : str * list (str * str)) : bool :=
  existsb (fun cx => matches_complex cx anc el) sel.

(** The tags below (and including) a node that match, in document order;
    [anc] are the tags around the node, nearest first. *)
Fixpoint select_node (sel : selector) (anc : list (str * list (str * str)))
    (n : node) : list node :=
  match n with
  | Tag name attrs contents =>
      (if matches sel anc (name, attrs) then [n] else [])
      ++ flat_map (select_node sel ((name, attrs) :: anc)) contents
  | _ => []
  end.

Definition select_in (sel : selector) (anc : list (str * list (str * str)))
    (nodes : list node) : list node :=
  flat_map (select_node sel anc) nodes.

(** A node matched on its own, as when the selector has no combinator. *)
Definition node_matches (sel : selector) (n : node) : bool :=
  match n with
  | Tag name attrs _ => matches sel [] (name, attrs)
  | _ => false
  end.

(** The node once every tag below it that matches has been taken out of
    the tree ([decompose]). *)
Fixpoint without (sel : selector) (n : node) : node :=
  match n with
  | Tag name attrs contents =>
      Tag name attrs
        ((fix go (l : list node) : list node :=
            match l with
            | [] => []
            | c :: l' => if node_matches sel c then go l' else without sel c :: go l'
            end) contents)
  | _ => n
  end.

End Css.

(** [soup.select(selector)], [soup.select_one(selector)] on the document. *)
Definition select (doc : soup) (selector : string) : list node :=
  match Css.parse selector with
  | Some sel => Css.select_in sel [] doc
  | None => []
  end.

Definition select_one (doc : soup) (selector : string) : option node :=
  head (select doc selector).

(** [for element in tag.select(selector): element.decompose()], for a
    selector without combinators: the tag afterwards. *)
Definition decompose_all (tag : node) (selector : string) : node :=
  match Css.parse selector with
  | Some sel => Css.without sel tag
  | None => tag
  end.

(** ** [BlogScraper]: the link classifiers *)

(** The attributes [__init__] sets, [scraped_urls] apart, which changes
    during a run and lives in the run's state below. *)
Record BlogScraper := {
  base_url : str;
  domain : str;
  output_folder : str;
  delay : Z
}.

(** [BlogScraper(base_url, output_folder, delay)]; the [ValueError] of
    [urlparse(base_url)] leaves no scraper. *)
Definition new_BlogScraper `{UrlLib} (base output : str) (seconds : Z)
    : option BlogScraper :=
  loc ← netloc base;
  Some {| base_url := base; domain := loc;
          output_folder := output; delay := seconds |}.

(** The [selectors] of [find_blog_links]. *)
Definition post_selectors : list string :=
  [ "article a"; ".post a"; ".blog-post a"; ".entry a";
    ".post-title a"; ".blog-entry a"; ".post-link"; ".blog-title a";
    "a.post-link"; "a.read-more"; "a.more-link"; "h2 a"; "h1 a"; "h3 a" ]%string.

(** The [selectors] of [find_pagination_links]. *)
Definition pagination_selectors : list string :=
  [ ".pagination a"; ".nav-links a"; ".page-numbers";
    "a.page-link"; ".pager a"; ".pages a";
    "a[rel='next']"; "a.next" ]%string.

Module Patterns.
Import Re.

Definition seq (rs : list regex) : regex := foldr Cat Eps rs.
Definition alts (rs : list regex) : regex := foldr Alt Void rs.
Definition slash : regex := Lit (py "/").
Definition slug : regex := Plus (Class slug_char).

(** [/(post|blog|article|entry)/[a-zA-Z0-9\-]+/?] *)
Definition section_slug : regex :=
  seq [ slash;
        alts [Lit (py "post"); Lit (py "blog"); Lit (py "article"); Lit (py "entry")];
        slash; slug; Opt slash ].

(** [/\d{4}/\d{2}/\d{2}/[a-zA-Z0-9\-]+/?] *)
Definition dated_slug `{UnicodeData} : regex :=
  seq [ slash; Times 4 (Class re_digit);
        slash; Times 2 (Class re_digit);
        slash; Times 2 (Class re_digit);
        slash; slug; Opt slash ].

(** [/blog/[a-zA-Z0-9\-]+/?] *)
Definition blog_slug : regex :=
  seq [ slash; Lit (py "blog"); slash; slug; Opt slash ].

(** The three [re.search] calls of the fallback, joined by [or]. *)
Definition looks_like_post `{UnicodeData} (absolute_url : str) : bool :=
  search_dollar section_slug absolute_url
  || search_dollar dated_slug absolute_url
  || search_dollar blog_slug absolute_url.
End Patterns.

Section LinkClassifier.
Context `{UnicodeData} `{UrlLib} `{HtmlLib}.
Variable self : BlogScraper.

(** The body of the inner loop of the selector phase, for one [link]:
    what it appends to [links].  Nothing catches the [ValueError] of
    [urljoin] or [urlparse], here or in the two loops further down. *)
Definition post_link_of (link : node) : option (list str) :=
  match Bs4.get link (py "href") with
  | Some href =>
      if negb (Str.falsy href)
         && negb (Str.startswith href (py "#"))
         && negb (Str.startswith href (py "javascript:"))
      then
        absolute_url ← urljoin (base_url self) href;
        loc ← netloc absolute_url;
        Some (if Str.eqb loc (domain self) then [absolute_url] else [])
      else Some []
  | None => Some []
  end.

(** The selector phase: [links] after the loop over [selectors]. *)
Definition selector_links (doc : soup) : option (list str) :=
  collect
    (fun selector =>
       match select doc selector with
       | [] => Some []
       | found_links => collect post_link_of found_links
       end)
    post_selectors.

(** The body of the fallback loop, for one anchor that carries [href]. *)
Definition fallback_link_of (link : node) : option (list str) :=
  let href := default [] (Bs4.get link (py "href")) in
  absolute_url ← urljoin (base_url self) href;
  loc ← netloc absolute_url;
  Some (if Str.eqb loc (domain self) then
          if Patterns.looks_like_post absolute_url then [absolute_url] else []
        else []).

Definition fallback_links (doc : soup) : option (list str) :=
  collect fallback_link_of (Bs4.find_all doc (py "a") (py "href")).

(** [list(set(links))] *)
Definition list_set (links : list str) : list str :=
  elements (list_to_set links : gset str).

Definition find_blog_links (html_content : str) : option (list str) :=
  let doc := BeautifulSoup html_content in
  links ← selector_links doc;
  links ← match links with
          | [] => more ← fallback_links doc; Some (links ++ more)
          | _ => Some links
          end;
  Some (list_set links).

(** The body of the inner loop of [find_pagination_links]. *)
Definition pagination_link_of (link : node) : option (list str) :=
  match Bs4.get link (py "href") with
  | Some href =>
      if negb (Str.falsy href) && negb (Str.startswith href (py "#")) then
        absolute_url ← urljoin (base_url self) href;
        loc ← netloc absolute_url;
        Some (if Str.eqb loc (domain self) then [absolute_url] else [])
      else Some []
  | None => Some []
  end.

Definition pagination_links_of (doc : soup) : option (list str) :=
  collect (fun selector => collect pagination_link_of (select doc selector))
    pagination_selectors.

Definition find_pagination_links (html_content : str) : option (list str) :=
  links ← pagination_links_of (BeautifulSoup html_content);
  Some (list_set links).

End LinkClassifier.

(** ** [BlogScraper]: the content extractor *)

(** The [data] dictionary of [extract_blog_content], by key. *)
Record post_data := {
  url : str;
  title : str;
  date : str;
  author : str;
  content : str;
  raw_html : str;
  categories : list str
}.

Definition title_selectors : list string :=
  [ "h1"; "h1.post-title"; "h1.entry-title"; ".post-title"; ".entry-title";
    "article h1" ]%string.

Definition date_selectors : list string :=
  [ ".post-date"; ".entry-date"; ".published"; "time";
    ".date"; "meta[property='article:published_time']";
    "span.date"; ".post-meta time" ]%string.

Definition author_selectors : list string :=
  [ ".author"; ".entry-author"; "a.author"; ".post-author";
    "meta[name='author']"; ".author-name"; ".byline" ]%string.

Definition category_selectors : list string :=
  [ ".category"; ".categories"; ".tags"; ".post-tags";
    ".entry-tags"; ".post-categories"; "a[rel='category']" ]%string.

Definition content_selectors : list string :=
  [ "article"; ".post-content"; ".entry-content";
    ".content"; ".post"; ".blog-post"; ".article-content" ]%string.

(** [for x in xs: r = f(x); if r: ...; break]: the first [x] on which [f]
    finds something, with what it found. *)
Fixpoint first_hit {A B} (f : A -> option B) (xs : list A) : option (A * B) :=
  match xs with
  | [] => None
  | x :: rest =>
      match f x with
      | Some r => Some (x, r)
      | None => first_hit f rest
      end
  end.

(** A [select] result is false when empty. *)
Definition nonempty {A} (l : list A) : option (list A) :=
  match l with [] => None | _ => Some l end.

Section ContentExtractor.
Context `{HtmlLib}.

Definition stripped_text (elem : node) : str := Str.strip (Bs4.get_text elem).

Definition extract_blog_content (html_content : str) (link : str) : post_data :=
  let doc := BeautifulSoup html_content in
  let title_found := first_hit (select_one doc) title_selectors in
  let date_found := first_hit (select_one doc) date_selectors in
  let author_found := first_hit (select_one doc) author_selectors in
  let categories_found := first_hit (fun s => nonempty (select doc s)) category_selectors in
  (* the content loop comes last: its [decompose] calls change the tree
     the earlier loops have already read *)
  let content_found :=
    match first_hit (select_one doc) content_selectors with
    | Some (_, content_elem) => Some (decompose_all content_elem "script, style")
    | None => None
    end in
  {| url := link;
     title :=
       match title_found with
       | Some (_, title_elem) => stripped_text title_elem
       | None => []
       end;
     date :=
       match date_found with
       | Some (selector, date_elem) =>
           if String.eqb selector "meta[property='article:published_time']"
           then Bs4.get_default date_elem (py "content") []
           else stripped_text date_elem
       | None => []
       end;
     author :=
       match author_found with
       | Some (selector, author_elem) =>
           if String.eqb selector "meta[name='author']"
           then Bs4.get_default author_elem (py "content") []
           else stripped_text author_elem
       | None => []
       end;
     content :=
       match content_found with
       | Some content_elem => stripped_text content_elem
       | None => []
       end;
     raw_html :=
       match content_found with
       | Some content_elem => tag_str content_elem
       | None => []
       end;
     categories :=
       match categories_found with
       | Some (_, category_elems) => map stripped_text category_elems
       | None => []
       end |}.

End ContentExtractor.

(** ** [BlogScraper]: persistence *)

(** [os.path.join(a, b)] on POSIX paths. *)
Definition os_path_join (a b : str) : str :=
  if Str.startswith b (py "/") then b
  else if Str.falsy a || Str.endswith a (py "/") then a ++ b
  else a ++ py "/" ++ b.

Section Persistence.
Context `{UnicodeData}.

(** [filename] at lines 204-207 of [save_post], before it is cut. *)
Definition filename_base (data : post_data) : str :=
  if Str.falsy (title data)
  then Str.or (re_sub_unsafe (py "_") (Str.last_item (Str.split 47%N (url data))))
              (py "post")
  else re_sub_unsafe (py "_") (title data).

(** [filename] at line 209: [f"{filename[:50]}.json"]. *)
Definition save_filename (data : post_data) : str :=
  Str.slice_to (filename_base data) 50 ++ py ".json".

Definition save_filepath (self : BlogScraper) (data : post_data) : str :=
  os_path_join (output_folder self) (save_filename data).
End Persistence.

(** ** The run: effects and state *)

(** The messages handed to [logging]. *)
Inductive log_message :=
| StartingScrape (base : str)
| ErrorFetching (link : str)
| FailedHomepage (base : str)
| ScrapingPaginationPage (link : str)
| FoundPosts (n : nat)
| ScrapingPost (i n : nat) (link : str)
| Saved (filepath : str)
| ScrapingCompleted (n : nat).

(** What a run does to the world, in the order it does it. *)
Inductive event :=
| Get (link : str)                         (* requests.get(link, ...) *)
| Log (m : log_message)                    (* logging.info / logging.error *)
| Sleep (seconds : Z)                      (* time.sleep *)
| Write (filepath : str) (data : post_data).   (* open(filepath, 'w') and json.dump *)

(** The state a run threads through: [self.scraped_urls] and the trace of
    its effects, oldest first. *)
Record state := {
  scraped_urls : gset str;
  trace : list event
}.

(** The network: what the [n]-th request of the trace (from 0), made to a
    URL, comes back with; [None] when [requests] raises (timeout, DNS
    failure, a status [raise_for_status] rejects), else [response.text]. *)
Definition network := nat -> str -> option str.

Definition is_get (e : event) : bool :=
  match e with Get _ => true | _ => false end.
Definition is_write (e : event) : bool :=
  match e with Write _ _ => true | _ => false end.

(** The requests made and the files written along a trace. *)
Definition requests (tr : list event) : list str :=
  flat_map (fun e => match e with Get u => [u] | _ => [] end) tr.
Definition writes (tr : list event) : list (str * post_data) :=
  flat_map (fun e => match e with Write p d => [(p, d)] | _ => [] end) tr.

(** How a call ends: it returns, or the [ValueError] of a URL call goes up
    through it; the program has no handler for that exception. *)
Inductive outcome (A : Type) :=
| Returned (a : A)
| Raised.
Arguments Returned {A} a.
Arguments Raised {A}.

(** A computation of the run: how it ends and the state it leaves behind;
    [None] is a loop that ran out of fuel. *)
Definition M (A : Type) : Type := state -> option (outcome A * state).

#[global] Instance M_ret : MRet M := fun A a st => Some (Returned a, st).
#[global] Instance M_bind : MBind M :=
  fun A B k m st => match m st with
                    | Some (Returned a, st') => k a st'
                    | Some (Raised, st') => Some (Raised, st')
                    | None => None
                    end.
Definition out_of_fuel {A} : M A := fun _ => None.

(** A call of one of the link classifiers from the run. *)
Definition call {A} (r : option A) : M A :=
  fun st => Some (match r with Some a => Returned a | None => Raised end, st).

Definition emit (e : event) : M unit :=
  fun st => Some (Returned tt,
                  {| scraped_urls := scraped_urls st; trace := trace st ++ [e] |}).
Definition get_scraped : M (gset str) :=
  fun st => Some (Returned (scraped_urls st), st).
Definition add_scraped (link : str) : M unit :=
  fun st => Some (Returned tt,
                  {| scraped_urls := {[ link ]} ∪ scraped_urls st; trace := trace st |}).

(** [if x:] on what [fetch_page] returns: [None] and the empty string are false. *)
Definition truthy (r : option str) : bool :=
  match r with
  | Some (_ :: _) => true
  | _ => false
  end.

(** [enumerate(l, start)] *)
Fixpoint enumerate {A} (l : list A) (start : nat) : list (nat * A) :=
  match l with
  | [] => []
  | x :: rest => (start, x) :: enumerate rest (S start)
  end.

Section Run.
Context `{UnicodeData} `{UrlLib} `{HtmlLib}.
Variable net : network.
Variable self : BlogScraper.

Definition fetch_page (link : str) : M (option str) :=
  fun st =>
    let n := length (requests (trace st)) in
    match net n link with
    | Some text => (emit (Get link) ;; mret (Some text)) st
    | None => (emit (Get link) ;; emit (Log (ErrorFetching link)) ;; mret None) st
    end.

Definition save_post (data : post_data) : M str :=
  let filepath := save_filepath self data in
  emit (Write filepath data) ;;
  emit (Log (Saved filepath)) ;;
  mret filepath.

(** The [while] loop of [scrape], on its three variables.  Each turn takes
    one unit of [fuel]. *)
Fixpoint frontier_loop (fuel : nat) (max_pages : Z)
    (blog_links pagination_links : list str) (pages_scraped : Z)
    : M (list str * list str * Z) :=
  match pagination_links with
  | next_page_url :: pagination_links' =>
      if (pages_scraped <? max_pages)%Z then
        match fuel with
        | O => out_of_fuel
        | S fuel' =>
            emit (Log (ScrapingPaginationPage next_page_url)) ;;
            page_html ← fetch_page next_page_url;
            '(blog_links', pagination_links'') ←
              (if truthy page_html then
                 let html := default [] page_html in
                 new_links ← call (find_blog_links self html);
                 new_pagination ← call (find_pagination_links self html);
                 mret (blog_links ++ new_links,
                       pagination_links'
                       ++ filter (fun link => link ∉ pagination_links') new_pagination)
               else mret (blog_links, pagination_links'));
            emit (Sleep (delay self)) ;;
            frontier_loop fuel' max_pages blog_links' pagination_links''
              (pages_scraped + 1)
        end
      else mret (blog_links, pagination_links, pages_scraped)
  | [] => mret (blog_links, pagination_links, pages_scraped)
  end.

(** The [for] loop of [scrape] over [enumerate(blog_links, 1)]; [n] is
    [len(blog_links)]. *)
Fixpoint scrape_posts (n : nat) (items : list (nat * str)) : M unit :=
  match items with
  | [] => mret tt
  | (i, link) :: rest =>
      seen ← get_scraped;
      if bool_decide (link ∈ seen) then scrape_posts n rest
      else
        emit (Log (ScrapingPost i n link)) ;;
        html_content ← fetch_page link;
        (if truthy html_content then
           let data := extract_blog_content (default [] html_content) link in
           _ ← save_post data;
           add_scraped link
         else mret tt) ;;
        emit (Sleep (delay self)) ;;
        scrape_posts n rest
  end.

(** [blog_links] at line 254. *)
Definition capped (blog_links : list str) (max_posts : Z) : list str :=
  Str.slice_to (list_set blog_links) max_posts.

Definition scrape (fuel : nat) (max_posts max_pages : Z) : M unit :=
  emit (Log (StartingScrape (base_url self))) ;;
  html_content ← fetch_page (base_url self);
  if negb (truthy html_content) then
    emit (Log (FailedHomepage (base_url self)))
  else
    let html := default [] html_content in
    blog_links ← call (find_blog_links self html);
    pagination_links ← call (find_pagination_links self html);
    '(blog_links, _, _) ← frontier_loop fuel max_pages blog_links pagination_links 1;
    let blog_links := capped blog_links max_posts in
    emit (Log (FoundPosts (length blog_links))) ;;
    scrape_posts (length blog_links) (enumerate blog_links 1) ;;
    seen ← get_scraped;
    emit (Log (ScrapingCompleted (size seen))).

End Run.

(** ** A model of [urllib.parse]

    [urlsplit], [urlunsplit] and [urljoin] as CPython 3.11 defines them on
    [str], used to run the classifiers on concrete pages.  [urlsplit] raises
    [ValueError] on a netloc with one bracket only, on text in brackets that
    is not an address, and on a netloc that NFKC normalization turns into
    one with a separator; [None] is that exception. *)
Module urllib_parse.

(** What [urlsplit] asks of [ipaddress] and of [unicodedata]. *)
Class HostData := {
  (** [ipaddress.ip_address(hostname)] returns an IPv6 address *)
  is_ipv6_address : str -> bool;
  (** [unicodedata.normalize('NFKC', s)] *)
  nfkc : str -> str
}.

Definition uses_relative : list str :=
  map py [ ""; "ftp"; "http"; "gopher"; "nntp"; "imap"; "wais"; "file";
           "https"; "shttp"; "mms"; "prospero"; "rtsp"; "rtspu"; "sftp";
           "svn"; "svn+ssh"; "ws"; "wss" ]%string.

Definition uses_netloc : list str :=
  map py [ ""; "ftp"; "http"; "gopher"; "nntp"; "telnet"; "imap"; "wais";
           "file"; "mms"; "https"; "shttp"; "snews"; "prospero"; "rtsp";
           "rtspu"; "rsync"; "svn"; "svn+ssh"; "sftp"; "nfs"; "git";
           "git+ssh"; "ws"; "wss" ]%string.

Definition uses_params : list str :=
  map py [ ""; "ftp"; "hdl"; "prospero"; "http"; "imap"; "https"; "shttp";
           "rtsp"; "rtspu"; "sip"; "sips"; "mms"; "sftp"; "tel" ]%string.

Definition scheme_char (c : char) : bool :=
  ascii_alpha c || ascii_digit c || is_char "+" c || is_char "-" c || is_char "." c.

Definition member (s : str) (l : list str) : bool := bool_decide (s ∈ l).

(** [s.split(c, 1)] when [c] occurs in [s]: the text before the first
    occurrence and the text after it. *)
Fixpoint cut (c : char) (s : str) : option (str * str) :=
  match s with
  | [] => None
  | x :: s' =>
      if (x =? c)%N then Some ([], s')
      else match cut c s' with
           | Some (a, b) => Some (x :: a, b)
           | None => None
           end
  end.

Definition lower (s : str) : str :=
  map (fun c => if in_range "A" "Z" c then (c + 32)%N else c) s.

Record SplitResult := {
  scheme : str; host : str; path : str; query : str; fragment : str
}.

(** [_splitnetloc(url, 2)] *)
Definition splitnetloc (u : str) : str * str :=
  Css.span (fun c => negb (is_char "/" c || is_char "?" c || is_char "#" c))
    (drop 2 u).

(** [s.partition(c)]: the text before the first [c] and the text after it;
    all of [s] and nothing when [c] does not occur. *)
Definition partition (c : char) (s : str) : str * str :=
  match cut c s with
  | Some (before, after) => (before, after)
  | None => (s, [])
  end.

Definition hex_digit (c : char) : bool :=
  ascii_digit c || in_range "a" "f" c || in_range "A" "F" c.

(** [\Av[a-fA-F0-9]+\..+\Z] *)
Definition ipvfuture : Re.regex :=
  Patterns.seq [ Re.Lit (py "v"); Re.Plus (Re.Class hex_digit); Re.Lit (py ".");
                 Re.Plus (Re.Class (fun c => negb (c =? 10)%N)) ].

Section Library.
Context `{HostData}.

(** [_check_bracketed_host(hostname)]: [true] when it returns.  An IPv4
    address in brackets is rejected like text that is no address. *)
Definition check_bracketed_host (hostname : str) : bool :=
  if Str.startswith hostname (py "v") then Re.fullmatch ipvfuture hostname
  else is_ipv6_address hostname.

(** [_check_bracketed_netloc(netloc)]: [true] when it returns. *)
Definition check_bracketed_netloc (nl : str) : bool :=
  let hostname_and_port := Str.last_item (Str.split 64%N nl) in
  match cut 91%N hostname_and_port with
  | Some (before_bracket, bracketed) =>
      if negb (Str.falsy before_bracket) then false
      else
        let '(hostname, port) := partition 93%N bracketed in
        if negb (Str.falsy port) && negb (Str.startswith port (py ":")) then false
        else check_bracketed_host hostname
  | None => check_bracketed_host (partition 58%N hostname_and_port).1
  end.

(** [_checknetloc(netloc)]: [true] when it returns. *)
Definition checknetloc (nl : str) : bool :=
  if Str.falsy nl || forallb (fun c => (c <? 128)%N) nl then true
  else
    let n := filter (fun c => negb (Str.contains c (py "@:#?"))) nl in
    let netloc2 := nfkc n in
    if Str.eqb n netloc2 then true
    else negb (existsb (fun c => Str.contains c netloc2) (py "/?#@:")).

Definition urlsplit (u : str) (default_scheme : str) : option SplitResult :=
  let c0_or_space := fun c => (c <=? 32)%N in
  let unsafe := fun c => (c =? 9)%N || (c =? 10)%N || (c =? 13)%N in
  let u := Str.lstrip_with c0_or_space u in
  let sch := Str.rstrip_with c0_or_space (Str.lstrip_with c0_or_space default_scheme) in
  let u := filter (fun c => negb (unsafe c)) u in
  let sch := filter (fun c => negb (unsafe c)) sch in
  let '(sch, u) :=
    match cut 58%N u with
    | Some (c :: before, after) =>
        if ascii_alpha c && forallb scheme_char (c :: before)
        then (lower (c :: before), after)
        else (sch, u)
    | _ => (sch, u)
    end in
  '(nl, u) ←
    (if Str.eqb (take 2 u) (py "//") then
       let '(nl, u) := splitnetloc u in
       if Str.contains 91%N nl && negb (Str.contains 93%N nl)
          || Str.contains 93%N nl && negb (Str.contains 91%N nl)
       then None
       else if Str.contains 91%N nl && Str.contains 93%N nl
               && negb (check_bracketed_netloc nl)
       then None
       else Some (nl, u)
     else Some ([], u));
  let '(u, frag) :=
    match cut 35%N u with Some (a, b) => (a, b) | None => (u, []) end in
  let '(u, q) :=
    match cut 63%N u with Some (a, b) => (a, b) | None => (u, []) end in
  if checknetloc nl
  then Some {| scheme := sch; host := nl; path := u; query := q; fragment := frag |}
  else None.

(** [_splitparams(url)]: the parameters are cut off the last path segment. *)
Definition splitparams (u : str) : str * str :=
  let segments := Str.split 47%N u in
  let last_segment := Str.last_item segments in
  match cut 59%N last_segment with
  | Some (a, b) => (take (length u - length last_segment) u ++ a, b)
  | None => (u, [])
  end.

(** [urlparse(url, scheme)]: the split result and the parameters. *)
Definition urlparse (u : str) (default_scheme : str) : option (SplitResult * str) :=
  r ← urlsplit u default_scheme;
  Some (if member (scheme r) uses_params && Str.contains 59%N (path r) then
          let '(p, params) := splitparams (path r) in
          ({| scheme := scheme r; host := host r; path := p;
              query := query r; fragment := fragment r |}, params)
        else (r, [])).

Definition urlunsplit (r : SplitResult) : str :=
  let u := path r in
  let u :=
    if negb (Str.falsy (host r))
       || negb (Str.falsy (scheme r)) && member (scheme r) uses_netloc
          && negb (Str.eqb (take 2 u) (py "//"))
    then
      let u := if negb (Str.falsy u) && negb (Str.eqb (take 1 u) (py "/"))
               then py "/" ++ u else u in
      py "//" ++ host r ++ u
    else u in
  let u := if Str.falsy (scheme r) then u else scheme r ++ py ":" ++ u in
  let u := if Str.falsy (query r) then u else u ++ py "?" ++ query r in
  if Str.falsy (fragment r) then u else u ++ py "#" ++ fragment r.

Definition urlunparse (r : SplitResult) (params : str) : str :=
  urlunsplit
    {| scheme := scheme r; host := host r;
       path := if Str.falsy params then path r else path r ++ py ";" ++ params;
       query := query r; fragment := fragment r |}.

(** [segments[1:-1] = filter(None, segments[1:-1])] *)
Definition drop_inner_empties (segments : list str) : list str :=
  match segments with
  | first :: (_ :: _) as rest =>
      first :: filter (fun w => negb (Str.falsy w)) (removelast rest)
            ++ [Str.last_item rest]
  | _ => segments
  end.

(** The loop over [segments] that builds [resolved_path]. *)
Definition resolve (segments : list str) : list str :=
  fold_left
    (fun resolved seg =>
       if Str.eqb seg (py "..") then removelast resolved
       else if Str.eqb seg (py ".") then resolved
       else resolved ++ [seg])
    segments [].

Definition urljoin (base u : str) : option str :=
  if Str.falsy base then Some u
  else if Str.falsy u then Some base
  else
    '(b, bparams) ← urlparse base [];
    '(r, params) ← urlparse u (scheme b);
    Some (
    if negb (Str.eqb (scheme r) (scheme b)) || negb (member (scheme r) uses_relative)
    then u
    else if member (scheme r) uses_netloc && negb (Str.falsy (host r))
    then urlunparse r params
    else
      let nl := if member (scheme r) uses_netloc then host b else host r in
      if Str.falsy (path r) && Str.falsy params then
        urlunparse
          {| scheme := scheme r; host := nl; path := path b;
             query := if Str.falsy (query r) then query b else query r;
             fragment := fragment r |} bparams
      else
        let base_parts := Str.split 47%N (path b) in
        let base_parts :=
          if Str.falsy (Str.last_item base_parts) then base_parts
          else removelast base_parts in
        let segments :=
          if Str.eqb (take 1 (path r)) (py "/") then Str.split 47%N (path r)
          else drop_inner_empties (base_parts ++ Str.split 47%N (path r)) in
        let resolved := resolve segments in
        let resolved :=
          if Str.eqb (Str.last_item segments) (py ".")
             || Str.eqb (Str.last_item segments) (py "..")
          then resolved ++ [[]] else resolved in
        urlunparse
          {| scheme := scheme r; host := nl;
             path := Str.or (Str.join (py "/") resolved) (py "/");
             query := query r; fragment := fragment r |} params).

(** The library behind the scraper's two calls. *)
Definition library : UrlLib :=
  Build_UrlLib urljoin (fun u => r ← urlparse u []; Some (host r.1)).

End Library.

(** For running the examples, whose hosts are names in ASCII: no text in
    brackets is taken for an address, and normalization changes nothing. *)
Definition named_hosts : HostData :=
  {| is_ipv6_address := fun _ => false; nfkc := fun s => s |}.

Definition cpython : UrlLib := @library named_hosts.

End urllib_parse.

(** ** Instances for running the program

    The theorems below hold for every Unicode table, URL library and HTML
    library.  To run the program on concrete pages: no character beyond
    ASCII is alphanumeric or a digit (the tables are not consulted on ASCII
    text), URLs are handled by the model of [urllib.parse], and the parser
    knows the trees of finitely many markups. *)
Definition ascii_tables : UnicodeData :=
  {| unicode_isalnum := fun _ => false; unicode_isdecimal := fun _ => false |}.

Fixpoint plain_markup (n : node) : str :=
  match n with
  | NavigableString s => s
  | Comment s => py "<!--" ++ s ++ py "-->"
  | ContainerString _ s => s
  | Tag name attrs contents =>
      py "<" ++ name
      ++ flat_map (fun kv => py " " ++ kv.1 ++ py "='" ++ kv.2 ++ py "'") attrs
      ++ py ">" ++ flat_map plain_markup contents ++ py "</" ++ name ++ py ">"
  end.

Fixpoint page_tree (pages : list (str * soup)) (html : str) : soup :=
  match pages with
  | [] => []
  | (markup, tree) :: rest =>
      if Str.eqb markup html then tree else page_tree rest html
  end.

Definition parsed_pages (pages : list (str * soup)) : HtmlLib :=
  {| BeautifulSoup := page_tree pages; tag_str := plain_markup |}.

(** ** Definitions used in the statements *)

Section FilenameDerivation.
Context `{UnicodeData}.

(** What [re.sub] with the one-character replacement ["_"] does to each
    character. *)
Definition sanitized (c : char) : char := if unsafe_char c then 95%N else c.

(** The filename as the specification words it: the title, or the final URL
    segment when the title is empty, with every unsafe character replaced,
    cut to 50 characters, followed by the extension. *)
Definition filename_as_specified (data : post_data) : str :=
  take 50 (map sanitized
             (if Str.falsy (title data)
              then Str.last_item (Str.split 47%N (url data))
              else title data))
  ++ py ".json".

(** The text the filename is derived from. *)
Definition filename_source (data : post_data) : str :=
  if negb (Str.falsy (title data)) then title data
  else if negb (Str.falsy (Str.last_item (Str.split 47%N (url data))))
       then Str.last_item (Str.split 47%N (url data))
       else py "post".
End FilenameDerivation.

(** A record with an empty title whose URL ends in a slash. *)
Definition untitled_post : post_data :=
  {| url := py "https://www.example.com/blog/hello/";
     title := []; date := []; author := []; content := []; raw_html := [];
     categories := [] |}.

(** A post page with three category labels. *)
Definition labelled_page : soup :=
  [ Tag (py "html") []
      [ Tag (py "body") []
          [ Tag (py "h1") [] [NavigableString (py "On labels")];
            Tag (py "ul") [(py "class", py "post-tags")]
              [ Tag (py "li") [(py "class", py "tag category")] [NavigableString (py " News ")];
                Tag (py "li") [(py "class", py "category")] [NavigableString (py "Tech")];
                Tag (py "li") [(py "class", py "category")]
                  [Tag (py "b") [] [NavigableString (py "Life")]; NavigableString [10%N]] ] ] ] ].

(** The post page of the end-to-end scenario: a heading, the publication
    time in a [meta] tag, and an [.entry-content] block holding a script and
    two paragraphs. *)
Definition entry_content (code first second : str) : node :=
  Tag (py "div") [(py "class", py "entry-content")]
    [ Tag (py "script") [] [ContainerString (py "script") code];
      Tag (py "p") [] [NavigableString first];
      Tag (py "p") [] [NavigableString second] ].

Definition scenario_page (code first second : str) : soup :=
  [ Tag (py "html") []
      [ Tag (py "head") []
          [ Tag (py "meta")
              [(py "property", py "article:published_time"); (py "content", py "2024-01-01")]
              [] ];
        Tag (py "body") []
          [ Tag (py "h1") [] [NavigableString (py "Title")];
            entry_content code first second ] ] ].

Definition scenario_lib : HtmlLib :=
  parsed_pages
    [(py "<html>scenario</html>",
      scenario_page (py "track('x');") (py "First paragraph. ") (py "Second paragraph."))].

(** A page whose only anchor leads to an "about" page, outside any post
    container. *)
Definition about_page : soup :=
  [ Tag (py "html") []
      [ Tag (py "body") []
          [ Tag (py "p") []
              [ Tag (py "a") [(py "href", py "/about")] [NavigableString (py "About us")] ] ] ] ].

(** [BlogScraper("https://www.example.com/blog", "posts", 1)] *)
Definition example_scraper : BlogScraper :=
  {| base_url := py "https://www.example.com/blog"; domain := py "www.example.com";
     output_folder := py "posts"; delay := 1 |}.

(** A listing page without post containers, whose anchors are an in-page
    jump and a script link. *)
Definition jump_page : soup :=
  [ Tag (py "html") []
      [ Tag (py "body") []
          [ Tag (py "div") []
              [ Tag (py "a") [(py "href", py "#/blog/hello")] [NavigableString (py "Jump")];
                Tag (py "a") [(py "href", py "javascript://www.example.com/blog/x")]
                  [NavigableString (py "Run")] ] ] ] ].

(** A listing page whose pager holds a script link. *)
Definition pager_page : soup :=
  [ Tag (py "html") []
      [ Tag (py "body") []
          [ Tag (py "div") [(py "class", py "pagination")]
              [ Tag (py "a") [(py "href", py "#top")] [NavigableString (py "Top")];
                Tag (py "a") [(py "href", py "javascript://www.example.com/next")]
                  [NavigableString (py "Next")] ] ] ] ].

Definition marker_lib : HtmlLib :=
  parsed_pages [(py "<html>jump</html>", jump_page); (py "<html>pager</html>", pager_page)].

(** The state after some more events. *)
Definition extend (st : state) (tr : list event) : state :=
  {| scraped_urls := scraped_urls st; trace := trace st ++ tr |}.

(** What one call of [fetch_page] adds to the trace. *)
Definition fetch_events (link : str) (r : option str) : list event :=
  Get link :: match r with
              | None => [Log (ErrorFetching link)]
              | Some _ => []
              end.

(** The pages the frontier loop announces in the log. *)
Definition announced (tr : list event) : list str :=
  flat_map (fun e => match e with
                     | Log (ScrapingPaginationPage u) => [u]
                     | _ => []
                     end) tr.

(** The events of the frontier loop and of the post loop. *)
Definition loop_event (e : event) : Prop :=
  match e with
  | Log (ScrapingPaginationPage _) | Log (ErrorFetching _) | Get _ | Sleep _ => True
  | _ => False
  end.

Definition post_event (e : event) : Prop :=
  match e with
  | Log (ScrapingPost _ _ _) | Log (ErrorFetching _) | Log (Saved _)
  | Get _ | Sleep _ | Write _ _ => True
  | _ => False
  end.

(** What one turn of the post loop adds to the trace, for a link not yet in
    [scraped_urls] whose fetch returned [r]. *)
Definition post_turn `{UnicodeData} `{HtmlLib} (self : BlogScraper)
    (i n : nat) (link : str) (r : option str) : list event :=
  [Log (ScrapingPost i n link)] ++ fetch_events link r
  ++ (if truthy r
      then let data := extract_blog_content (default [] r) link in
           [Write (save_filepath self data) data; Log (Saved (save_filepath self data))]
      else [])
  ++ [Sleep (delay self)].

(** The listing page: two posts and a pager that leads to page two. *)
Definition listing_page : soup :=
  [ Tag (py "html") []
      [ Tag (py "body") []
          [ Tag (py "article") []
              [ Tag (py "a") [(py "href", py "/blog/a")] [NavigableString (py "A")];
                Tag (py "a") [(py "href", py "/blog/b")] [NavigableString (py "B")] ];
            Tag (py "div") [(py "class", py "pagination")]
              [ Tag (py "a") [(py "href", py "/blog/page/2")] [NavigableString (py "2")] ] ] ] ].

(** Page two: one more post, and a pager that leads back and to itself. *)
Definition second_page : soup :=
  [ Tag (py "html") []
      [ Tag (py "body") []
          [ Tag (py "article") []
              [ Tag (py "a") [(py "href", py "/blog/c")] [NavigableString (py "C")] ];
            Tag (py "div") [(py "class", py "pagination")]
              [ Tag (py "a") [(py "href", py "/blog")] [NavigableString (py "1")];
                Tag (py "a") [(py "href", py "/blog/page/2")] [NavigableString (py "2")] ] ] ] ].

Definition site_lib : HtmlLib :=
  parsed_pages
    [ (py "<html>listing</html>", listing_page);
      (py "<html>page two</html>", second_page);
      (py "<html>scenario</html>",
       scenario_page (py "track('x');") (py "First paragraph. ") (py "Second paragraph.")) ].

(** The site answers the same way at every request; post [b] times out and
    post [c] comes back empty. *)
Definition site_net : network :=
  fun _ link =>
    if Str.eqb link (py "https://www.example.com/blog") then Some (py "<html>listing</html>")
    else if Str.eqb link (py "https://www.example.com/blog/page/2")
    then Some (py "<html>page two</html>")
    else if Str.eqb link (py "https://www.example.com/blog/a") then Some (py "<html>scenario</html>")
    else if Str.eqb link (py "https://www.example.com/blog/c") then Some []
    else None.

(** A site whose seed page cannot be fetched. *)
Definition dead_net : network := fun _ _ => None.

Definition fresh : state := {| scraped_urls := ∅; trace := [] |}.

(** The same network, with every empty body turned into a failed request. *)
Definition empty_as_failure (net : network) : network :=
  fun n link =>
    match net n link with
    | Some [] => None
    | r => r
    end.

(** A trace without the error lines of [fetch_page]. *)
Definition quiet (tr : list event) : list event :=
  flat_map (fun e => match e with
                     | Log (ErrorFetching _) => []
                     | _ => [e]
                     end) tr.

(** Two answers the callers of [fetch_page] cannot tell apart. *)
Definition same_to_callers (r1 r2 : option str) : Prop :=
  truthy r1 = truthy r2 /\ (truthy r1 = true -> r1 = r2).

(** Two states that differ in the error lines of [fetch_page] at most. *)
Definition alike (st1 st2 : state) : Prop :=
  scraped_urls st1 = scraped_urls st2 /\ quiet (trace st1) = quiet (trace st2).

Definition alike_results {A} (o1 o2 : option (A * state)) : Prop :=
  match o1, o2 with
  | Some (a1, st1), Some (a2, st2) => a1 = a2 /\ alike st1 st2
  | None, None => True
  | _, _ => False
  end.

(** A site that answers every request with an empty body. *)
Definition blank_net : network := fun _ _ => Some [].

(** The directory names of the first URL pattern. *)
Definition post_sections : list str :=
  map py ["post"; "blog"; "article"; "entry"]%string.

(** A date path [YYYY/MM/DD], as the second URL pattern reads it. *)
Definition date_path `{UnicodeData} (dir : str) : Prop :=
  exists y m d,
    dir = y ++ py "/" ++ m ++ py "/" ++ d
    /\ length y = 4 /\ length m = 2 /\ length d = 2
    /\ Forall (fun c => re_digit c = true) (y ++ m ++ d).

(** What may follow the slug of a post URL: nothing or a slash, and then
    nothing or the newline that [$] tolerates. *)
Definition url_endings : list str :=
  [ []; py "/"; [10%N]; py "/" ++ [10%N] ].

(** The [time.sleep] calls along a trace. *)
Definition sleeps (tr : list event) : list Z :=
  flat_map (fun e => match e with Sleep d => [d] | _ => [] end) tr.

(** A [script] or [style] tag, and the tags strictly below a node. *)
Definition script_or_style (n : node) : bool :=
  match n with
  | Tag name _ _ => Str.eqb name (py "script") || Str.eqb name (py "style")
  | _ => false
  end.

Definition tags_below (n : node) : list node :=
  match n with
  | Tag _ _ contents => flat_map Bs4.tags_of contents
  | _ => []
  end.

(** A run over the small site, from a fresh scraper: up to 50 posts, up to
    5 listing pages. *)
Definition site_run : option (outcome unit * state) :=
  @scrape ascii_tables urllib_parse.cpython site_lib site_net example_scraper
    4 50 5 fresh.

(** A scraper that has already saved post [a]. *)
Definition seen_a : state :=
  {| scraped_urls := {[ py "https://www.example.com/blog/a" ]}; trace := [] |}.

(** An [href] the URL library does not take: [urljoin] raises on it, or
    [urlparse] raises on the URL that [urljoin] returns. *)
Definition rejected `{UrlLib} (self : BlogScraper) (href : str) : bool :=
  match urljoin (base_url self) href with
  | Some absolute_url => bool_decide (netloc absolute_url = None)
  | None => true
  end.

(** A page whose only anchor names a host with a bracket left open. *)
Definition bracket_page : soup :=
  [ Tag (py "html") []
      [ Tag (py "body") []
          [ Tag (py "p") []
              [ Tag (py "a") [(py "href", py "http://[x")] [NavigableString (py "x")] ] ] ] ].

Definition bracket_lib : HtmlLib :=
  parsed_pages [(py "<html>bracket</html>", bracket_page)].

(** What the two classifiers, run on a usable pagination page, make of the
    lists of the frontier loop; [None] when one of them raises. *)
Definition merged `{UnicodeData} `{UrlLib} `{HtmlLib} (self : BlogScraper)
    (blog_links rest : list str) (html : str) : option (list str * list str) :=
  new_links ← find_blog_links self html;
  new_pagination ← find_pagination_links self html;
  Some (blog_links ++ new_links,
        rest ++ filter (fun link => link ∉ rest) new_pagination).

(** The two lists after a turn of the frontier loop whose request was
    answered with [r]. *)
Definition turn_lists `{UnicodeData} `{UrlLib} `{HtmlLib} (self : BlogScraper)
    (blog_links rest : list str) (r : option str) : option (list str * list str) :=
  if truthy r then merged self blog_links rest (default [] r)
  else Some (blog_links, rest).

(** A URL of the scraper's domain. *)
Definition on_domain `{UrlLib} (self : BlogScraper) (u : str) : Prop :=
  netloc u = Some (domain self).

(** The state in which [scrape] classifies the links of the seed page. *)
Definition after_seed (self : BlogScraper) (st : state) : state :=
  extend st [Log (StartingScrape (base_url self)); Get (base_url self)].

(** The links of a list that are not in [scraped_urls]. *)
Definition unscraped (st : state) (links : list str) : list str :=
  filter (fun u => u ∉ scraped_urls st) links.

(** The hrefs the selector phase of [find_blog_links] resolves. *)
Definition resolvable (href : str) : Prop :=
  href <> [] /\ Str.startswith href (py "#") = false
  /\ Str.startswith href (py "javascript:") = false.

(** A site whose seed page holds the anchor with the open bracket. *)
Definition bracket_net : network :=
  fun _ link =>
    if Str.eqb link (py "https://www.example.com/blog") then Some (py "<html>bracket</html>")
    else None.

(** * Properties *)

(** ** Helper facts on strings, lists and sets *)

Lemma falsy_nil (s : str) : Str.falsy s = true <-> s = [].
Proof. destruct s; simpl; split; congruence. Qed.

Lemma or_nonempty (a b : str) : a <> [] -> Str.or a b = a.
Proof. destruct a; [congruence | reflexivity]. Qed.

Lemma eqb_eq (a b : str) : Str.eqb a b = true <-> a = b.
Proof. unfold Str.eqb. apply bool_decide_eq_true. Qed.

Lemma slice_to_nonneg {A} (l : list A) (n : Z) :
  (0 <= n)%Z -> Str.slice_to l n = take (Z.to_nat n) l.
Proof. intros Hn. unfold Str.slice_to. destruct (Z.leb_spec 0 n); [reflexivity | lia]. Qed.

Lemma slice_to_sublist {A} (l : list A) (n : Z) : sublist (Str.slice_to l n) l.
Proof. unfold Str.slice_to. destruct (0 <=? n)%Z; apply sublist_take. Qed.

Lemma list_set_NoDup (l : list str) : NoDup (list_set l).
Proof. unfold list_set. apply NoDup_elements. Qed.

Lemma list_set_elem (l : list str) (x : str) : x ∈ list_set l <-> x ∈ l.
Proof. unfold list_set. rewrite elem_of_elements, elem_of_list_to_set. reflexivity. Qed.

Lemma list_set_nil : list_set [] = [].
Proof. unfold list_set. simpl. apply elements_empty. Qed.

Lemma list_set_singleton (x : str) : list_set [x] = [x].
Proof.
  unfold list_set. simpl. rewrite (right_id_L ∅ (∪)). apply elements_singleton.
Qed.

Lemma flat_map_nil {A B} (f : A -> list B) (l : list A) :
  (forall x, x ∈ l -> f x = []) -> flat_map f l = [].
Proof.
  induction l as [|a l IH]; intros Hf; simpl; [reflexivity|].
  rewrite (Hf a) by left. simpl. apply IH. intros x Hx. apply Hf. by right.
Qed.

Lemma elem_of_flat_map {A B} (f : A -> list B) (l : list A) (y : B) :
  y ∈ flat_map f l <-> exists x, x ∈ l /\ y ∈ f x.
Proof.
  rewrite list_elem_of_In, in_flat_map.
  split; intros (x & Hx & Hy); exists x; by rewrite ?list_elem_of_In in *.
Qed.

(** The loop with [break] stops at the first selector that finds something. *)
Lemma first_hit_at {A B} (f : A -> option B) (pre : list A) (x : A) (post : list A) (r : B) :
  (forall y, y ∈ pre -> f y = None) -> f x = Some r ->
  first_hit f (pre ++ x :: post) = Some (x, r).
Proof.
  induction pre as [|p pre IH]; intros Hpre Hx; simpl.
  - by rewrite Hx.
  - rewrite (Hpre p) by left. apply IH; [|done]. intros y Hy. apply Hpre. by right.
Qed.

Lemma first_hit_none {A B} (f : A -> option B) (xs : list A) :
  (forall y, y ∈ xs -> f y = None) -> first_hit f xs = None.
Proof.
  induction xs as [|p xs IH]; intros Hf; simpl; [done|].
  rewrite (Hf p) by left. apply IH. intros y Hy. apply Hf. by right.
Qed.

(** ** The matcher against the language of a pattern *)

Section Matcher.
Import Re.

Lemma nullable_spec (r : regex) : nullable r = true <-> matches r [].
Proof.
  split.
  - induction r; simpl; intros Hn; try discriminate.
    + constructor.
    + apply andb_true_iff in Hn as [H1 H2].
      change (@nil char) with (@nil char ++ @nil char). constructor; auto.
    + apply orb_true_iff in Hn as [H1|H2]; [apply matches_alt_l | apply matches_alt_r]; auto.
    + constructor.
  - intros Hm. remember (@nil char) as s eqn:Hs.
    induction Hm; simpl; try discriminate; try reflexivity.
    + apply app_eq_nil in Hs as [-> ->]. by rewrite IHHm1, IHHm2.
    + by rewrite IHHm.
    + rewrite IHHm by done. apply orb_true_r.
Qed.

(** A non-empty match of a starred pattern begins with a non-empty match of
    its body. *)
Lemma matches_star_cons (r : regex) (c : char) (s : str) :
  matches (Star r) (c :: s) ->
  exists s1 s2, s = s1 ++ s2 /\ matches r (c :: s1) /\ matches (Star r) s2.
Proof.
  intros Hm. remember (Star r) as r' eqn:Hr. remember (c :: s) as t eqn:Ht.
  induction Hm; try discriminate.
  injection Hr as ->. destruct s1 as [|c1 s1].
  - simpl in Ht. by apply IHHm2.
  - simpl in Ht. injection Ht as -> <-. by exists s1, s2.
Qed.

Lemma deriv_spec (c : char) (r : regex) :
  forall s, matches (deriv c r) s <-> matches r (c :: s).
Proof.
  induction r; intros s; simpl.
  - split; intros Hm; inversion Hm.
  - split; intros Hm; inversion Hm.
  - destruct (N.eqb_spec c c0) as [->|Hne]; split; intros Hm; inversion Hm; subst;
      try constructor; congruence.
  - destruct (p c) eqn:Hp; split; intros Hm; inversion Hm; subst;
      try (by constructor); congruence.
  - destruct (nullable r1) eqn:Hn.
    + split; intros Hm.
      * inversion Hm as [| | | | ? ? ? Hl | ? ? ? Hr | |]; subst.
        -- inversion Hl; subst.
           change (c :: s1 ++ s2) with ((c :: s1) ++ s2). constructor; [by apply IHr1|done].
        -- change (c :: s) with ([] ++ c :: s). constructor;
             [by apply nullable_spec | by apply IHr2].
      * inversion Hm as [| | | ? ? s1 s2 H1 H2 | | | |]; subst. destruct s1 as [|c1 s1].
        -- simpl in *. subst. apply matches_alt_r. by apply IHr2.
        -- simpl in *. match goal with Heq : _ :: _ = _ :: _ |- _ => injection Heq as Hc Hs end. subst.
           apply matches_alt_l. constructor; [by apply IHr1|done].
    + split; intros Hm.
      * inversion Hm; subst.
        change (c :: s1 ++ s2) with ((c :: s1) ++ s2). constructor; [by apply IHr1|done].
      * inversion Hm as [| | | ? ? s1 s2 H1 H2 | | | |]; subst. destruct s1 as [|c1 s1].
        -- apply nullable_spec in H1. congruence.
        -- simpl in *. match goal with Heq : _ :: _ = _ :: _ |- _ => injection Heq as Hc Hs end. subst.
           constructor; [by apply IHr1|done].
  - split; intros Hm.
    + inversion Hm; subst; [apply matches_alt_l; by apply IHr1 | apply matches_alt_r; by apply IHr2].
    + inversion Hm; subst; [apply matches_alt_l; by apply IHr1 | apply matches_alt_r; by apply IHr2].
  - split; intros Hm.
    + inversion Hm; subst.
      change (c :: s1 ++ s2) with ((c :: s1) ++ s2). constructor; [by apply IHr|done].
    + apply matches_star_cons in Hm as (s1 & s2 & -> & H1 & H2).
      constructor; [by apply IHr|done].
Qed.

(** The matcher accepts exactly the strings of the pattern. *)
Lemma fullmatch_spec (r : regex) (s : str) : fullmatch r s = true <-> matches r s.
Proof.
  revert r. induction s as [|c s IH]; intros r; simpl.
  - apply nullable_spec.
  - rewrite IH. apply deriv_spec.
Qed.

Lemma tails_spec (s t : str) : t ∈ tails s <-> exists pre, s = pre ++ t.
Proof.
  induction s as [|c s IH]; simpl.
  - rewrite list_elem_of_singleton. split.
    + intros ->. by exists [].
    + intros (pre & Hpre). symmetry in Hpre. by apply app_eq_nil in Hpre as [_ ->].
  - rewrite elem_of_cons, IH. split.
    + intros [->|(pre & ->)]; [by exists [] | by exists (c :: pre)].
    + intros ([|c' pre] & Hpre); simpl in Hpre; [by left|].
      injection Hpre as -> ->. right. by exists pre.
Qed.

(** [re.search] on a pattern ending in [$] finds a match exactly when some
    substring of the pattern's language runs up to the end of the string, or
    up to the newline that ends it. *)
Lemma search_dollar_spec (r : regex) (s : str) :
  search_dollar r s = true
  <-> exists pre mid post,
        s = pre ++ mid ++ post /\ matches r mid /\ (post = [] \/ post = [10%N]).
Proof.
  unfold search_dollar, dollar_ends. rewrite existsb_exists. split.
  - intros (e & He & Hex). apply existsb_exists in Hex as (t & Ht & Hm).
    apply list_elem_of_In, tails_spec in Ht as (pre & ->).
    apply fullmatch_spec in Hm.
    apply list_elem_of_In, elem_of_cons in He as [Heq|He].
    + exists pre, t, []. rewrite app_nil_r. split_and!; [done|done|by left].
    + destruct (Str.endswith s [10%N]) eqn:Hend; [|by apply elem_of_nil in He].
      apply list_elem_of_singleton in He.
      exists pre, t, [10%N]. split_and!; [|done|by right].
      unfold Str.endswith in Hend. cbn [rev app] in Hend.
      destruct (rev s) as [|c rs] eqn:Hrev; [discriminate|].
      cbn [Str.startswith] in Hend. apply andb_true_iff in Hend as [Hend _].
      apply N.eqb_eq in Hend as ->.
      assert (Hs : s = rev rs ++ [10%N]).
      { rewrite <- (rev_involutive s), Hrev. reflexivity. }
      rewrite Hs, removelast_last in He. rewrite Hs, <- He. by rewrite app_assoc.
  - intros (pre & mid & post & Hs & Hm & [->| ->]).
    + rewrite app_nil_r in Hs. exists s. split; [by left|].
      apply existsb_exists. exists mid. split; [|by apply fullmatch_spec].
      apply list_elem_of_In, tails_spec. by exists pre.
    + exists (pre ++ mid). split.
      * right. assert (Hend : Str.endswith s [10%N] = true).
        { unfold Str.endswith. rewrite Hs, !rev_app_distr. cbn [rev app Str.startswith].
          rewrite N.eqb_refl. by destruct (rev mid ++ rev pre). }
        rewrite Hend. left. rewrite Hs, app_assoc. apply removelast_last.
      * apply existsb_exists. exists mid. split; [|by apply fullmatch_spec].
        apply list_elem_of_In, tails_spec. by exists pre.
Qed.

End Matcher.

(** ** The filename of a saved post *)

Section Filename.
Context `{UnicodeData}.

Lemma re_sub_unsafe_map (s : str) : re_sub_unsafe (py "_") s = map sanitized s.
Proof.
  unfold re_sub_unsafe. induction s as [|c s IH]; simpl; [done|].
  rewrite IH. unfold sanitized. by destruct (unsafe_char c).
Qed.

Lemma sanitized_safe (c : char) : unsafe_char (sanitized c) = false.
Proof.
  unfold sanitized. destruct (unsafe_char c) eqn:E; [|done].
  reflexivity.
Qed.
End Filename.

(** C8, as stated, fails: for an empty title and a URL ending in a slash the
    final URL segment is empty, and the file is named [post.json], not the
    bare extension the stated derivation gives. *)
Lemma save_filename_not_as_specified :
  @save_filename ascii_tables untitled_post = py "post.json"
  /\ @filename_as_specified ascii_tables untitled_post = py ".json"
  /\ ~ (forall data, @save_filename ascii_tables data
                     = @filename_as_specified ascii_tables data).
Proof.
  split; [reflexivity|]. split; [reflexivity|].
  intros Hall. specialize (Hall untitled_post). vm_compute in Hall. congruence.
Qed.

(** C8, amended: the filename is derived from the title, or from the final
    URL path segment when the title is empty, or from the literal [post] when
    that segment is empty too; every character outside the
    alphanumeric/hyphen/underscore class is replaced by an underscore, the
    result is cut to 50 characters and [.json] is appended. *)
Theorem save_filename_derivation `{UnicodeData} (data : post_data) :
  save_filename data = take 50 (map sanitized (filename_source data)) ++ py ".json"
  /\ Forall (fun c => unsafe_char c = false) (take 50 (map sanitized (filename_source data)))
  /\ length (save_filename data) <= 55.
Proof.
  assert (Hname : save_filename data
                  = take 50 (map sanitized (filename_source data)) ++ py ".json").
  { unfold save_filename, filename_base, filename_source.
    rewrite slice_to_nonneg by lia. change (Z.to_nat 50) with 50. f_equal. f_equal.
    rewrite !re_sub_unsafe_map.
    destruct (Str.falsy (title data)); simpl; [|done].
    destruct (Str.last_item (Str.split 47%N (url data))) as [|c seg]; simpl; [|done].
    reflexivity. }
  split; [exact Hname|]. split.
  - apply Forall_take, Forall_forall. intros c Hc.
    apply list_elem_of_fmap in Hc as (c' & -> & _). apply sanitized_safe.
  - rewrite Hname, length_app, length_take.
    change (length (py ".json")) with 5. lia.
Qed.

(** The filename scenario of the specification: the comma, the spaces, the
    exclamation mark and the dash each become an underscore. *)
Example filename_of_punctuated_title :
  @save_filename ascii_tables
    {| url := py "https://www.example.com/blog/hello";
       title := py "Hello, World! " ++ [8212%N] ++ py " Part 1";
       date := []; author := []; content := []; raw_html := []; categories := [] |}
  = py "Hello__World____Part_1.json".
Proof. reflexivity. Qed.

(** ** Selection and document order *)

Lemma node_induction (P : node -> Prop) :
  (forall s, P (NavigableString s)) ->
  (forall s, P (Comment s)) ->
  (forall container s, P (ContainerString container s)) ->
  (forall name attrs contents, Forall P contents -> P (Tag name attrs contents)) ->
  forall n, P n.
Proof.
  intros Hstring Hcomment Hspecial Htag. fix IH 1.
  intros [s|s|container s|name attrs contents].
  - apply Hstring.
  - apply Hcomment.
  - apply Hspecial.
  - apply Htag. induction contents as [|c contents IHc]; constructor; [apply IH | exact IHc].
Qed.

Lemma flat_map_sublist {A B} (f g : A -> list B) (l : list A) :
  Forall (fun x => f x `sublist_of` g x) l -> flat_map f l `sublist_of` flat_map g l.
Proof.
  induction 1 as [|x l Hx Hl IH]; simpl; [constructor|]. by apply sublist_app.
Qed.

Lemma select_node_in_order (sel : Css.selector) (n : node) :
  forall anc, Css.select_node sel anc n `sublist_of` Bs4.tags_of n.
Proof.
  induction n as [s|s|container s|name attrs contents IH] using node_induction; intros anc; simpl;
    [constructor | constructor | constructor |].
  assert (Hbelow : flat_map (Css.select_node sel ((name, attrs) :: anc)) contents
                   `sublist_of` flat_map Bs4.tags_of contents).
  { apply flat_map_sublist. eapply Forall_impl; [exact IH|]. intros c Hc. apply Hc. }
  destruct (Css.matches sel anc (name, attrs)); simpl.
  - by apply sublist_skip.
  - by apply sublist_cons.
Qed.

(** [select] returns tags of the document in document order, each position
    at most once. *)
Lemma select_in_order (doc : soup) (selector : string) :
  select doc selector `sublist_of` Bs4.tags doc.
Proof.
  unfold select, Bs4.tags. destruct (Css.parse selector) as [sel|]; [|apply sublist_nil_l].
  apply flat_map_sublist, Forall_forall. intros n _. apply select_node_in_order.
Qed.

(** Every selector the program passes to [select] or [select_one] is in the
    fragment the parser reads. *)
Lemma program_selectors_parse :
  Forall (fun selector => is_Some (Css.parse selector))
    (post_selectors ++ pagination_selectors ++ title_selectors ++ date_selectors
     ++ author_selectors ++ category_selectors ++ content_selectors
     ++ ["script, style"%string]).
Proof. repeat (constructor; [by eexists|]). constructor. Qed.

(** ** The content extractor *)

(** C5: [categories] holds the trimmed text of every element the first
    matching category selector finds, one entry per element (three matches
    give three entries), in the order [select] returns them, which is the
    order of the document. *)
Theorem categories_of_first_matching_selector `{HtmlLib}
    (html_content link : str) (earlier : list string) (selector : string)
    (later : list string) :
  category_selectors = earlier ++ selector :: later ->
  (forall s, s ∈ earlier -> select (BeautifulSoup html_content) s = []) ->
  select (BeautifulSoup html_content) selector <> [] ->
  categories (extract_blog_content html_content link)
  = map (fun elem => Str.strip (Bs4.get_text elem))
        (select (BeautifulSoup html_content) selector)
  /\ length (categories (extract_blog_content html_content link))
     = length (select (BeautifulSoup html_content) selector)
  /\ select (BeautifulSoup html_content) selector
     `sublist_of` Bs4.tags (BeautifulSoup html_content).
Proof.
  intros Hsel Hearlier Hfound.
  assert (Hcat : categories (extract_blog_content html_content link)
                 = map stripped_text (select (BeautifulSoup html_content) selector)).
  { unfold extract_blog_content. cbn [categories]. rewrite Hsel.
    rewrite (first_hit_at _ earlier selector later
               (select (BeautifulSoup html_content) selector)); [done| |].
    - intros s Hs. by rewrite (Hearlier s Hs).
    - destruct (select (BeautifulSoup html_content) selector); [done|reflexivity]. }
  split; [exact Hcat|]. split; [rewrite Hcat; apply length_map|].
  apply select_in_order.
Qed.

Lemma categories_of_first_matching_selector_witness :
  @categories
    (@extract_blog_content (parsed_pages [(py "<html>labels</html>", labelled_page)])
       (py "<html>labels</html>") (py "https://www.example.com/blog/on-labels"))
  = [py "News"; py "Tech"; py "Life"].
Proof.
  pose proof (@categories_of_first_matching_selector
                (parsed_pages [(py "<html>labels</html>", labelled_page)])
                (py "<html>labels</html>") (py "https://www.example.com/blog/on-labels")
                [] ".category"
                [".categories"; ".tags"; ".post-tags"; ".entry-tags";
                 ".post-categories"; "a[rel='category']"]%string) as Hthm.
  destruct Hthm as (Hcat & _ & _).
  - reflexivity.
  - intros s Hs. by apply elem_of_nil in Hs.
  - vm_compute. discriminate.
  - rewrite Hcat. vm_compute. reflexivity.
Defined.

(** C4: on the scenario page the record has title [Title], the date read
    from the [content] attribute of the [meta] tag, and as content the
    trimmed text of the two paragraphs, whatever the script holds. *)
Theorem extract_scenario_page `{HtmlLib} (html_content link code first second : str) :
  BeautifulSoup html_content = scenario_page code first second ->
  title (extract_blog_content html_content link) = py "Title"
  /\ date (extract_blog_content html_content link) = py "2024-01-01"
  /\ content (extract_blog_content html_content link) = Str.strip (first ++ second).
Proof.
  intros Hpage. unfold extract_blog_content. rewrite Hpage.
  cbn [title date content].
  assert (Htitle : first_hit (select_one (scenario_page code first second)) title_selectors
                   = Some ("h1"%string, Tag (py "h1") [] [NavigableString (py "Title")]))
    by reflexivity.
  assert (Hdate : first_hit (select_one (scenario_page code first second)) date_selectors
                  = Some ("meta[property='article:published_time']"%string,
                          Tag (py "meta")
                            [(py "property", py "article:published_time");
                             (py "content", py "2024-01-01")] []))
    by reflexivity.
  assert (Hcontent : first_hit (select_one (scenario_page code first second)) content_selectors
                     = Some (".entry-content"%string, entry_content code first second))
    by reflexivity.
  assert (Hclean : decompose_all (entry_content code first second) "script, style"
                   = Tag (py "div") [(py "class", py "entry-content")]
                       [ Tag (py "p") [] [NavigableString first];
                         Tag (py "p") [] [NavigableString second] ])
    by reflexivity.
  rewrite Htitle, Hdate, Hcontent, Hclean.
  split; [reflexivity|]. split; [reflexivity|].
  unfold stripped_text. simpl. by rewrite !app_nil_r.
Qed.

Lemma extract_scenario_page_witness :
  content (@extract_blog_content scenario_lib (py "<html>scenario</html>")
             (py "https://www.example.com/blog/title"))
  = py "First paragraph. Second paragraph.".
Proof.
  destruct (@extract_scenario_page scenario_lib (py "<html>scenario</html>")
              (py "https://www.example.com/blog/title")
              (py "track('x');") (py "First paragraph. ") (py "Second paragraph."))
    as (_ & _ & Hcontent).
  - reflexivity.
  - rewrite Hcontent. reflexivity.
Defined.

(** ** The link classifiers *)

Lemma select_tags (doc : soup) (selector : string) (link : node) :
  link ∈ select doc selector -> link ∈ Bs4.tags doc.
Proof. intros Hin. eapply elem_of_sublist; [exact Hin | apply select_in_order]. Qed.

Lemma find_all_with_in_order (name key : str) (n : node) :
  Bs4.find_all_with name key n `sublist_of` Bs4.tags_of n.
Proof.
  induction n as [s|s|container s|nm attrs contents IH] using node_induction; simpl;
    [constructor | constructor | constructor |].
  assert (Hbelow : flat_map (Bs4.find_all_with name key) contents
                   `sublist_of` flat_map Bs4.tags_of contents)
    by (by apply flat_map_sublist).
  destruct (Str.eqb nm name && bool_decide (is_Some (Bs4.attr_get attrs key))); simpl.
  - by apply sublist_skip.
  - by apply sublist_cons.
Qed.

Lemma find_all_tags (doc : soup) (name key : str) (link : node) :
  link ∈ Bs4.find_all doc name key -> link ∈ Bs4.tags doc.
Proof.
  intros Hin. eapply elem_of_sublist; [exact Hin|].
  apply flat_map_sublist, Forall_forall. intros n _. apply find_all_with_in_order.
Qed.

(** What [find_all] returns carries the attribute asked for. *)
Lemma find_all_with_has_key (name key : str) (n link : node) :
  link ∈ Bs4.find_all_with name key n -> is_Some (Bs4.get link key).
Proof.
  induction n as [s|s|container s|nm attrs contents IH] using node_induction; simpl;
    [by intros ?%elem_of_nil | by intros ?%elem_of_nil | by intros ?%elem_of_nil |].
  rewrite elem_of_app. intros [Hhere|Hbelow].
  - destruct (Str.eqb nm name) ; simpl in Hhere; [|by apply elem_of_nil in Hhere].
    case_bool_decide as Hkey; [|by apply elem_of_nil in Hhere].
    apply list_elem_of_singleton in Hhere as ->. exact Hkey.
  - apply elem_of_flat_map in Hbelow as (c & Hc & Hlink).
    rewrite Forall_forall in IH. by apply (IH c).
Qed.

Lemma find_all_has_key (doc : soup) (name key : str) (link : node) :
  link ∈ Bs4.find_all doc name key -> is_Some (Bs4.get link key).
Proof.
  intros Hin. apply elem_of_flat_map in Hin as (n & _ & Hlink).
  by apply find_all_with_has_key in Hlink.
Qed.

(** *** Loops that collect *)

Lemma collect_Some {A B} (body : A -> option (list B)) (items : list A) (r : list B) :
  collect body items = Some r
  <-> Forall (fun item => is_Some (body item)) items
      /\ r = flat_map (fun item => default [] (body item)) items.
Proof.
  revert r. induction items as [|item rest IH]; intros r; simpl.
  - split; [intros [= <-]; by split | by intros [_ ->]].
  - destruct (body item) as [found|] eqn:Hbody; simpl.
    + destruct (collect body rest) as [more|] eqn:Hrest; simpl.
      * destruct (proj1 (IH more) eq_refl) as [Hall ->]. split.
        -- intros [= <-]. split; [|done]. constructor; [by rewrite Hbody|done].
        -- by intros [_ ->].
      * split; [done|]. intros [Hall _]. apply Forall_cons in Hall as [_ Hall].
        pose proof (proj2 (IH _) (conj Hall eq_refl)) as Hbad. discriminate.
    + split; [done|]. intros [Hall _]. apply Forall_cons in Hall as [Hitem _].
      destruct Hitem as [found Hfound]. congruence.
Qed.

Lemma collect_None {A B} (body : A -> option (list B)) (items : list A) :
  collect body items = None <-> exists item, item ∈ items /\ body item = None.
Proof.
  induction items as [|item rest IH]; simpl.
  - split; [done|]. by intros (item & ?%elem_of_nil & _).
  - destruct (body item) as [found|] eqn:Hbody; simpl.
    + destruct (collect body rest) as [more|]; simpl.
      * split; [done|]. intros (x & Hx & Hnone).
        apply elem_of_cons in Hx as [->|Hx]; [congruence|].
        pose proof (proj2 IH (ex_intro _ x (conj Hx Hnone))) as Hbad. discriminate.
      * split; [|done]. intros _. destruct (proj1 IH eq_refl) as (x & Hx & Hnone).
        exists x. split; [by right|done].
    + split; [|done]. intros _. exists item. split; [by left|done].
Qed.

Lemma elem_of_collect {A B} (body : A -> option (list B)) (items : list A) (r : list B)
    (y : B) :
  collect body items = Some r ->
  y ∈ r <-> exists item found, item ∈ items /\ body item = Some found /\ y ∈ found.
Proof.
  intros [Hall ->]%collect_Some. rewrite elem_of_flat_map. rewrite Forall_forall in Hall.
  split.
  - intros (item & Hitem & Hy). destruct (Hall item Hitem) as [found Hfound].
    rewrite Hfound in Hy. by exists item, found.
  - intros (item & found & Hitem & Hfound & Hy). exists item. by rewrite Hfound.
Qed.

Lemma collect_nil {A B} (body : A -> option (list B)) (items : list A) :
  (forall item, item ∈ items -> body item = Some []) -> collect body items = Some [].
Proof.
  intros Hnone. apply collect_Some. split.
  - apply Forall_forall. intros item Hitem. by rewrite (Hnone item Hitem).
  - symmetry. apply flat_map_nil. intros item Hitem. by rewrite (Hnone item Hitem).
Qed.

Lemma collect_ext {A B} (f g : A -> option (list B)) (items : list A) :
  (forall item, item ∈ items -> f item = g item) -> collect f items = collect g items.
Proof.
  induction items as [|item rest IH]; intros Hfg; simpl; [done|].
  rewrite (Hfg item) by left. rewrite IH; [done|]. intros x Hx. apply Hfg. by right.
Qed.

Lemma collect_is_Some {A B} (body : A -> option (list B)) (items : list A) :
  (forall item, item ∈ items -> is_Some (body item)) -> is_Some (collect body items).
Proof.
  intros Hall. destruct (collect body items) as [r|] eqn:Hr; [done|].
  apply collect_None in Hr as (item & Hitem & Hnone).
  destruct (Hall item Hitem) as [found Hfound]. congruence.
Qed.

Section ClassifierFacts.
Context `{UnicodeData} `{UrlLib} `{HtmlLib}.
Variable self : BlogScraper.

(** The two URL calls made for one [href]. *)
Lemma rejected_true (href : str) :
  rejected self href = true
  <-> urljoin (base_url self) href = None
      \/ exists absolute_url,
           urljoin (base_url self) href = Some absolute_url /\ netloc absolute_url = None.
Proof.
  unfold rejected. destruct (urljoin (base_url self) href) as [absolute_url|].
  - rewrite bool_decide_eq_true. split.
    + intros Hnone. right. by exists absolute_url.
    + by intros [?|(a & [= <-] & Hnone)].
  - split; [by left|done].
Qed.

Lemma rejected_false (href : str) :
  rejected self href = false
  <-> exists absolute_url loc,
        urljoin (base_url self) href = Some absolute_url /\ netloc absolute_url = Some loc.
Proof.
  unfold rejected. destruct (urljoin (base_url self) href) as [absolute_url|].
  - rewrite bool_decide_eq_false. split.
    + intros Hsome. destruct (netloc absolute_url) as [loc|] eqn:Hloc; [|done].
      by exists absolute_url, loc.
    + intros (a & loc & [= <-] & Hloc). congruence.
  - split; [done|]. by intros (a & loc & ? & _).
Qed.

Lemma post_link_of_Some (link : node) (found : list str) (u : str) :
  post_link_of self link = Some found ->
  u ∈ found
  <-> exists href,
        Bs4.get link (py "href") = Some href
        /\ resolvable href
        /\ urljoin (base_url self) href = Some u
        /\ netloc u = Some (domain self).
Proof.
  unfold post_link_of, resolvable.
  destruct (Bs4.get link (py "href")) as [href|].
  2:{ intros [= <-]. split; [by intros ?%elem_of_nil | by intros (? & ? & _)]. }
  destruct href as [|c href].
  { intros [= <-]. split; [by intros ?%elem_of_nil | by intros (? & [= <-] & [? _] & _)]. }
  cbn [Str.falsy negb andb].
  destruct (Str.startswith (c :: href) (py "#")) eqn:Hfrag.
  { intros [= <-]. split; [by intros ?%elem_of_nil|].
    intros (? & [= <-] & (_ & ? & _) & _). congruence. }
  destruct (Str.startswith (c :: href) (py "javascript:")) eqn:Hjs.
  { intros [= <-]. split; [by intros ?%elem_of_nil|].
    intros (? & [= <-] & (_ & _ & ?) & _). congruence. }
  cbn [negb andb].
  destruct (urljoin (base_url self) (c :: href)) as [absolute_url|] eqn:Hjoin; [|done].
  simpl. destruct (netloc absolute_url) as [loc|] eqn:Hloc; [|done]. simpl.
  intros [= <-]. destruct (Str.eqb loc (domain self)) eqn:Hdom.
  - apply eqb_eq in Hdom as ->. rewrite list_elem_of_singleton. split.
    + intros ->. exists (c :: href). by split_and!.
    + intros (? & [= <-] & _ & Hj & _). congruence.
  - split; [by intros ?%elem_of_nil|].
    intros (? & [= <-] & _ & Hj & Hu). rewrite Hjoin in Hj. injection Hj as <-.
    rewrite Hloc in Hu. injection Hu as ->.
    assert (Str.eqb (domain self) (domain self) = true) by by apply eqb_eq.
    congruence.
Qed.

Lemma post_link_of_None (link : node) :
  post_link_of self link = None
  <-> exists href,
        Bs4.get link (py "href") = Some href /\ resolvable href
        /\ rejected self href = true.
Proof.
  unfold post_link_of, resolvable, rejected.
  destruct (Bs4.get link (py "href")) as [href|]; [|split; [done | by intros (? & ? & _)]].
  destruct href as [|c href]; [split; [done | by intros (? & [= <-] & [? _] & _)]|].
  cbn [Str.falsy negb andb].
  destruct (Str.startswith (c :: href) (py "#")) eqn:Hfrag.
  { split; [done|]. intros (? & [= <-] & (_ & ? & _) & _). congruence. }
  destruct (Str.startswith (c :: href) (py "javascript:")) eqn:Hjs.
  { split; [done|]. intros (? & [= <-] & (_ & _ & ?) & _). congruence. }
  cbn [negb andb].
  destruct (urljoin (base_url self) (c :: href)) as [absolute_url|] eqn:Hjoin; simpl.
  - destruct (netloc absolute_url) as [loc|] eqn:Hloc; simpl.
    + split; [done|]. intros (? & [= <-] & _ & Hrej). rewrite Hjoin in Hrej.
      apply bool_decide_eq_true in Hrej. congruence.
    + split; [|done]. intros _. exists (c :: href). rewrite Hjoin.
      split_and!; try done. by apply bool_decide_eq_true.
  - split; [|done]. intros _. exists (c :: href). rewrite Hjoin. by split_and!.
Qed.

Lemma selector_links_eq (doc : soup) :
  selector_links self doc
  = collect (fun selector => collect (post_link_of self) (select doc selector))
      post_selectors.
Proof.
  unfold selector_links. apply collect_ext. intros selector _.
  by destruct (select doc selector).
Qed.


Lemma selector_links_Some (doc : soup) (selected : list str) (u : str) :
  selector_links self doc = Some selected ->
  u ∈ selected
  <-> exists selector link href,
        selector ∈ post_selectors /\ link ∈ select doc selector
        /\ Bs4.get link (py "href") = Some href
        /\ resolvable href
        /\ urljoin (base_url self) href = Some u
        /\ netloc u = Some (domain self).
Proof.
  rewrite selector_links_eq. intros Hsel. rewrite (elem_of_collect _ _ _ _ Hsel). split.
  - intros (selector & found & Hin & Hfound & Hu).
    apply (elem_of_collect _ _ _ u) in Hfound.
    apply Hfound in Hu as (link & links & Hlink & Hlinks & Hu).
    apply (post_link_of_Some _ _ u) in Hlinks. apply Hlinks in Hu as (href & Hu).
    by exists selector, link, href.
  - intros (selector & link & href & Hin & Hlink & Hu).
    apply collect_Some in Hsel as [Hall _]. rewrite Forall_forall in Hall.
    destruct (Hall selector Hin) as [found Hfound]. exists selector, found.
    split_and!; [done|done|]. apply (elem_of_collect _ _ _ _ Hfound).
    pose proof Hfound as [Hlinks _]%collect_Some. rewrite Forall_forall in Hlinks.
    destruct (Hlinks link Hlink) as [links Hsome]. exists link, links.
    split_and!; [done|done|]. apply (post_link_of_Some _ _ _ Hsome). by exists href.
Qed.

Lemma selector_links_None (doc : soup) :
  selector_links self doc = None
  <-> exists selector link href,
        selector ∈ post_selectors /\ link ∈ select doc selector
        /\ Bs4.get link (py "href") = Some href /\ resolvable href
        /\ rejected self href = true.
Proof.
  rewrite selector_links_eq, collect_None. split.
  - intros (selector & Hin & (link & Hlink & Hnone)%collect_None).
    apply post_link_of_None in Hnone as (href & Hnone). by exists selector, link, href.
  - intros (selector & link & href & Hin & Hlink & Hnone). exists selector.
    split; [done|]. apply collect_None. exists link. split; [done|].
    apply post_link_of_None. by exists href.
Qed.

Lemma fallback_link_of_Some (link : node) (found : list str) (u : str) :
  fallback_link_of self link = Some found ->
  u ∈ found
  <-> urljoin (base_url self) (default [] (Bs4.get link (py "href"))) = Some u
      /\ netloc u = Some (domain self)
      /\ Patterns.looks_like_post u = true.
Proof.
  unfold fallback_link_of. cbv zeta.
  destruct (urljoin (base_url self) _) as [absolute_url|] eqn:Hjoin; [|done]. simpl.
  destruct (netloc absolute_url) as [loc|] eqn:Hloc; [|done]. simpl.
  intros [= <-]. destruct (Str.eqb loc (domain self)) eqn:Hdom.
  - apply eqb_eq in Hdom as ->.
    destruct (Patterns.looks_like_post absolute_url) eqn:Hpost.
    + rewrite list_elem_of_singleton. split; [by intros -> | by intros ([= <-] & _)].
    + split; [by intros ?%elem_of_nil|]. intros ([= <-] & _ & ?). congruence.
  - split; [by intros ?%elem_of_nil|]. intros ([= <-] & Hu & _).
    rewrite Hloc in Hu. injection Hu as ->.
    assert (Str.eqb (domain self) (domain self) = true) by by apply eqb_eq.
    congruence.
Qed.

Lemma fallback_link_of_None (link : node) :
  fallback_link_of self link = None
  <-> rejected self (default [] (Bs4.get link (py "href"))) = true.
Proof.
  unfold fallback_link_of, rejected. cbv zeta.
  destruct (urljoin (base_url self) _) as [absolute_url|]; simpl; [|done].
  rewrite bool_decide_eq_true. by destruct (netloc absolute_url).
Qed.

Lemma fallback_links_Some (doc : soup) (more : list str) (u : str) :
  fallback_links self doc = Some more ->
  u ∈ more
  <-> exists link href,
        link ∈ Bs4.find_all doc (py "a") (py "href")
        /\ Bs4.get link (py "href") = Some href
        /\ urljoin (base_url self) href = Some u
        /\ netloc u = Some (domain self)
        /\ Patterns.looks_like_post u = true.
Proof.
  unfold fallback_links. intros Hmore. rewrite (elem_of_collect _ _ _ _ Hmore). split.
  - intros (link & found & Hlink & Hfound & Hu).
    apply (fallback_link_of_Some _ _ _ Hfound) in Hu.
    destruct (find_all_has_key _ _ _ _ Hlink) as [href Hhref]. rewrite Hhref in Hu.
    by exists link, href.
  - intros (link & href & Hlink & Hhref & Hu).
    apply collect_Some in Hmore as [Hall _]. rewrite Forall_forall in Hall.
    destruct (Hall link Hlink) as [found Hfound]. exists link, found.
    split_and!; [done|done|]. apply (fallback_link_of_Some _ _ _ Hfound). by rewrite Hhref.
Qed.

Lemma fallback_links_None (doc : soup) :
  fallback_links self doc = None
  <-> exists link href,
        link ∈ Bs4.find_all doc (py "a") (py "href")
        /\ Bs4.get link (py "href") = Some href
        /\ rejected self href = true.
Proof.
  unfold fallback_links. rewrite collect_None. split.
  - intros (link & Hlink & Hnone%fallback_link_of_None).
    destruct (find_all_has_key _ _ _ _ Hlink) as [href Hhref]. rewrite Hhref in Hnone.
    by exists link, href.
  - intros (link & href & Hlink & Hhref & Hrej). exists link. split; [done|].
    apply fallback_link_of_None. by rewrite Hhref.
Qed.

(** [find_blog_links], phase by phase: what it returns, and when it raises. *)
Lemma find_blog_links_Some (html_content : str) (links : list str) :
  find_blog_links self html_content = Some links
  <-> exists selected,
        selector_links self (BeautifulSoup html_content) = Some selected
        /\ (selected <> [] /\ links = list_set selected
            \/ selected = []
               /\ exists more,
                    fallback_links self (BeautifulSoup html_content) = Some more
                    /\ links = list_set more).
Proof.
  unfold find_blog_links. cbv zeta.
  destruct (selector_links self (BeautifulSoup html_content)) as [[|l ls]|]; simpl.
  - destruct (fallback_links self (BeautifulSoup html_content)) as [more|]; simpl.
    + split.
      * intros [= <-]. exists []. split; [done|]. right. split; [done|]. by exists more.
      * intros (? & [= <-] & [[? _]|[_ (? & [= <-] & ->)]]); done.
    + split; [done|]. by intros (? & [= <-] & [[? _]|[_ (? & ? & _)]]).
  - split.
    + intros [= <-]. exists (l :: ls). split; [done|]. by left.
    + by intros (? & [= <-] & [[_ ->]|[? _]]).
  - split; [done|]. by intros (? & ? & _).
Qed.

Lemma find_blog_links_None (html_content : str) :
  find_blog_links self html_content = None
  <-> selector_links self (BeautifulSoup html_content) = None
      \/ selector_links self (BeautifulSoup html_content) = Some []
         /\ fallback_links self (BeautifulSoup html_content) = None.
Proof.
  unfold find_blog_links. cbv zeta.
  destruct (selector_links self (BeautifulSoup html_content)) as [[|l ls]|]; simpl.
  - destruct (fallback_links self (BeautifulSoup html_content)) as [more|]; simpl.
    + split; [done|]. by intros [?|[_ ?]].
    + split; [|done]. intros _. by right.
  - split; [done|]. by intros [?|[? _]].
  - split; [|done]. intros _. by left.
Qed.

Lemma find_pagination_links_Some (html_content : str) (links : list str) :
  find_pagination_links self html_content = Some links
  <-> exists found,
        pagination_links_of self (BeautifulSoup html_content) = Some found
        /\ links = list_set found.
Proof.
  unfold find_pagination_links.
  destruct (pagination_links_of self (BeautifulSoup html_content)) as [found|]; simpl.
  - split; [intros [= <-]; by exists found | by intros (? & [= <-] & ->)].
  - split; [done | by intros (? & ? & _)].
Qed.

Lemma pagination_link_of_Some (link : node) (found : list str) (u : str) :
  pagination_link_of self link = Some found ->
  u ∈ found
  <-> exists href,
        Bs4.get link (py "href") = Some href
        /\ href <> []
        /\ Str.startswith href (py "#") = false
        /\ urljoin (base_url self) href = Some u
        /\ netloc u = Some (domain self).
Proof.
  unfold pagination_link_of.
  destruct (Bs4.get link (py "href")) as [href|].
  2:{ intros [= <-]. split; [by intros ?%elem_of_nil | by intros (? & ? & _)]. }
  destruct href as [|c href].
  { intros [= <-]. split; [by intros ?%elem_of_nil | by intros (? & [= <-] & ? & _)]. }
  cbn [Str.falsy negb andb].
  destruct (Str.startswith (c :: href) (py "#")) eqn:Hfrag.
  { intros [= <-]. split; [by intros ?%elem_of_nil|].
    intros (? & [= <-] & _ & ? & _). congruence. }
  cbn [negb].
  destruct (urljoin (base_url self) (c :: href)) as [absolute_url|] eqn:Hjoin; [|done].
  simpl. destruct (netloc absolute_url) as [loc|] eqn:Hloc; [|done]. simpl.
  intros [= <-]. destruct (Str.eqb loc (domain self)) eqn:Hdom.
  - apply eqb_eq in Hdom as ->. rewrite list_elem_of_singleton. split.
    + intros ->. exists (c :: href). by split_and!.
    + intros (? & [= <-] & _ & _ & Hj & _). congruence.
  - split; [by intros ?%elem_of_nil|].
    intros (? & [= <-] & _ & _ & Hj & Hu). rewrite Hjoin in Hj. injection Hj as <-.
    rewrite Hloc in Hu. injection Hu as ->.
    assert (Str.eqb (domain self) (domain self) = true) by by apply eqb_eq.
    congruence.
Qed.

Lemma pagination_link_of_None (link : node) :
  pagination_link_of self link = None
  <-> exists href,
        Bs4.get link (py "href") = Some href
        /\ href <> []
        /\ Str.startswith href (py "#") = false
        /\ rejected self href = true.
Proof.
  unfold pagination_link_of, rejected.
  destruct (Bs4.get link (py "href")) as [href|]; [|split; [done | by intros (? & ? & _)]].
  destruct href as [|c href]; [split; [done | by intros (? & [= <-] & ? & _)]|].
  cbn [Str.falsy negb andb].
  destruct (Str.startswith (c :: href) (py "#")) eqn:Hfrag.
  { split; [done|]. intros (? & [= <-] & _ & ? & _). congruence. }
  cbn [negb].
  destruct (urljoin (base_url self) (c :: href)) as [absolute_url|] eqn:Hjoin; simpl.
  - destruct (netloc absolute_url) as [loc|] eqn:Hloc; simpl.
    + split; [done|]. intros (? & [= <-] & _ & _ & Hrej). rewrite Hjoin in Hrej.
      apply bool_decide_eq_true in Hrej. congruence.
    + split; [|done]. intros _. exists (c :: href). rewrite Hjoin.
      split_and!; try done. by apply bool_decide_eq_true.
  - split; [|done]. intros _. exists (c :: href). rewrite Hjoin. by split_and!.
Qed.

Lemma pagination_links_of_Some (doc : soup) (found : list str) (u : str) :
  pagination_links_of self doc = Some found ->
  u ∈ found
  <-> exists selector link href,
        selector ∈ pagination_selectors /\ link ∈ select doc selector
        /\ Bs4.get link (py "href") = Some href
        /\ href <> []
        /\ Str.startswith href (py "#") = false
        /\ urljoin (base_url self) href = Some u
        /\ netloc u = Some (domain self).
Proof.
  unfold pagination_links_of. intros Hall. rewrite (elem_of_collect _ _ _ _ Hall). split.
  - intros (selector & links & Hin & Hlinks & Hu).
    apply (elem_of_collect _ _ _ u) in Hlinks.
    apply Hlinks in Hu as (link & one & Hlink & Hone & Hu).
    apply (pagination_link_of_Some _ _ u) in Hone. apply Hone in Hu as (href & Hu).
    by exists selector, link, href.
  - intros (selector & link & href & Hin & Hlink & Hu).
    apply collect_Some in Hall as [Hsome _]. rewrite Forall_forall in Hsome.
    destruct (Hsome selector Hin) as [links Hlinks]. exists selector, links.
    split_and!; [done|done|]. apply (elem_of_collect _ _ _ _ Hlinks).
    pose proof Hlinks as [Hones _]%collect_Some. rewrite Forall_forall in Hones.
    destruct (Hones link Hlink) as [one Hone]. exists link, one.
    split_and!; [done|done|]. apply (pagination_link_of_Some _ _ _ Hone). by exists href.
Qed.

Lemma pagination_links_of_None (doc : soup) :
  pagination_links_of self doc = None
  <-> exists selector link href,
        selector ∈ pagination_selectors /\ link ∈ select doc selector
        /\ Bs4.get link (py "href") = Some href
        /\ href <> []
        /\ Str.startswith href (py "#") = false
        /\ rejected self href = true.
Proof.
  unfold pagination_links_of. rewrite collect_None. split.
  - intros (selector & Hin & (link & Hlink & Hnone)%collect_None).
    apply pagination_link_of_None in Hnone as (href & Hnone).
    by exists selector, link, href.
  - intros (selector & link & href & Hin & Hlink & Hnone). exists selector.
    split; [done|]. apply collect_None. exists link. split; [done|].
    apply pagination_link_of_None. by exists href.
Qed.

Lemma find_pagination_links_None (html_content : str) :
  find_pagination_links self html_content = None
  <-> pagination_links_of self (BeautifulSoup html_content) = None.
Proof.
  unfold find_pagination_links.
  by destruct (pagination_links_of self (BeautifulSoup html_content)).
Qed.

(** Both classifiers return links of the scraper's domain, without
    duplicates. *)
Lemma find_blog_links_on_domain (html_content : str) (links : list str) :
  find_blog_links self html_content = Some links ->
  Forall (fun u => netloc u = Some (domain self)) links.
Proof.
  intros (selected & Hsel & Hcases)%find_blog_links_Some.
  apply Forall_forall. intros u Hu.
  destruct Hcases as [[_ ->]|[_ (more & Hmore & ->)]]; rewrite list_set_elem in Hu.
  - by apply (selector_links_Some _ _ _ Hsel) in Hu as (? & ? & ? & _ & _ & _ & _ & _ & ?).
  - by apply (fallback_links_Some _ _ _ Hmore) in Hu as (? & ? & _ & _ & _ & ? & _).
Qed.

Lemma find_blog_links_NoDup (html_content : str) (links : list str) :
  find_blog_links self html_content = Some links -> NoDup links.
Proof.
  intros (selected & _ & [[_ ->]|[_ (more & _ & ->)]])%find_blog_links_Some;
    apply list_set_NoDup.
Qed.

Lemma find_pagination_links_on_domain (html_content : str) (links : list str) :
  find_pagination_links self html_content = Some links ->
  Forall (fun u => netloc u = Some (domain self)) links.
Proof.
  intros (found & Hfound & ->)%find_pagination_links_Some.
  apply Forall_forall. intros u Hu. rewrite list_set_elem in Hu.
  by apply (pagination_links_of_Some _ _ _ Hfound) in Hu
    as (? & ? & ? & _ & _ & _ & _ & _ & _ & ?).
Qed.

Lemma find_pagination_links_NoDup (html_content : str) (links : list str) :
  find_pagination_links self html_content = Some links -> NoDup links.
Proof. intros (found & _ & ->)%find_pagination_links_Some. apply list_set_NoDup. Qed.

End ClassifierFacts.




(** The prefix tests of the selector phase do keep such anchors out. *)
Lemma post_link_of_marker `{UrlLib} (self : BlogScraper) (link : node) (href : str) :
  Bs4.get link (py "href") = Some href ->
  Str.startswith href (py "#") = true \/ Str.startswith href (py "javascript:") = true ->
  post_link_of self link = Some [].
Proof.
  intros Hhref Hmarker. unfold post_link_of. rewrite Hhref.
  destruct Hmarker as [-> | ->]; by rewrite ?andb_false_r.
Qed.

Lemma pagination_link_of_fragment `{UrlLib} (self : BlogScraper) (link : node) (href : str) :
  Bs4.get link (py "href") = Some href ->
  Str.startswith href (py "#") = true ->
  pagination_link_of self link = Some [].
Proof.
  intros Hhref Hmarker. unfold pagination_link_of. rewrite Hhref, Hmarker.
  by rewrite andb_false_r.
Qed.

(** C2 at its failing inputs: the fallback phase of [find_blog_links] has
    neither prefix test and [find_pagination_links] tests the fragment marker
    only, so a fragment href and a script-protocol href whose text carries
    the blog's host end up in the returned sets. *)
Theorem marker_hrefs_are_returned :
  (exists links,
     @find_blog_links ascii_tables urllib_parse.cpython marker_lib
       example_scraper (py "<html>jump</html>") = Some links
     /\ forall u, u ∈ links
                  <-> u = py "https://www.example.com/blog#/blog/hello"
                      \/ u = py "javascript://www.example.com/blog/x")
  /\ @find_pagination_links urllib_parse.cpython marker_lib
       example_scraper (py "<html>pager</html>")
     = Some [py "javascript://www.example.com/next"].
Proof.
  split.
  - exists (list_set [py "https://www.example.com/blog#/blog/hello";
                      py "javascript://www.example.com/blog/x"]).
    split.
    + unfold find_blog_links.
      change (@selector_links urllib_parse.cpython example_scraper
                (@BeautifulSoup marker_lib (py "<html>jump</html>"))) with (Some (@nil str)).
      change (@fallback_links ascii_tables urllib_parse.cpython example_scraper
                (@BeautifulSoup marker_lib (py "<html>jump</html>")))
        with (Some [py "https://www.example.com/blog#/blog/hello";
                    py "javascript://www.example.com/blog/x"]).
      reflexivity.
    + intros u. rewrite list_set_elem, elem_of_cons, list_elem_of_singleton. reflexivity.
  - unfold find_pagination_links.
    change (@pagination_links_of urllib_parse.cpython example_scraper
              (@BeautifulSoup marker_lib (py "<html>pager</html>")))
      with (Some [py "javascript://www.example.com/next"]).
    simpl. by rewrite list_set_singleton.
Qed.

(** ** The run *)

Lemma extend_nil (st : state) : extend st [] = st.
Proof. destruct st. unfold extend. simpl. by rewrite app_nil_r. Qed.

Lemma extend_extend (st : state) (a b : list event) :
  extend (extend st a) b = extend st (a ++ b).
Proof. unfold extend. simpl. by rewrite app_assoc. Qed.

Lemma requests_app (a b : list event) : requests (a ++ b) = requests a ++ requests b.
Proof. apply flat_map_app. Qed.

Lemma writes_app (a b : list event) : writes (a ++ b) = writes a ++ writes b.
Proof. apply flat_map_app. Qed.

Lemma announced_app (a b : list event) : announced (a ++ b) = announced a ++ announced b.
Proof. apply flat_map_app. Qed.

Lemma bind_run {A B} (m : M A) (k : A -> M B) (st : state) :
  (m ≫= k) st = match m st with
                | Some (Returned a, st') => k a st'
                | Some (Raised, st') => Some (Raised, st')
                | None => None
                end.
Proof. reflexivity. Qed.

Lemma emit_run (e : event) (st : state) : emit e st = Some (Returned tt, extend st [e]).
Proof. reflexivity. Qed.

Lemma mret_run {A} (a : A) (st : state) : (mret a : M A) st = Some (Returned a, st).
Proof. reflexivity. Qed.

Lemma call_run {A} (r : option A) (st : state) :
  call r st = Some (match r with Some a => Returned a | None => Raised end, st).
Proof. reflexivity. Qed.

Lemma add_scraped_run (link : str) (st : state) :
  add_scraped link st
  = Some (Returned tt,
          {| scraped_urls := {[ link ]} ∪ scraped_urls st; trace := trace st |}).
Proof. reflexivity. Qed.

(** Runs a sequence of effects one step at a time. *)
Ltac run_steps :=
  repeat first
    [ rewrite bind_run | rewrite emit_run | rewrite mret_run | rewrite call_run
    | rewrite add_scraped_run | rewrite extend_extend
    | progress (cbv beta iota) ].

Lemma sleeps_app (a b : list event) : sleeps (a ++ b) = sleeps a ++ sleeps b.
Proof. apply flat_map_app. Qed.

Lemma extend_inj (st : state) (a b : list event) : extend st a = extend st b -> a = b.
Proof. unfold extend. intros [= Heq]. by apply app_inv_head in Heq. Qed.

Lemma filter_ext_in {A} (P Q : A -> Prop) `{forall x, Decision (P x)}
    `{forall x, Decision (Q x)} (l : list A) :
  (forall x, x ∈ l -> P x <-> Q x) -> filter P l = filter Q l.
Proof.
  induction l as [|x l IH]; intros Hext; [done|].
  rewrite !filter_cons.
  rewrite IH by (intros y Hy; apply Hext; by right).
  destruct (decide (P x)) as [Hp|Hp], (decide (Q x)) as [Hq|Hq]; try done.
  - by apply (Hext x) in Hp; [|left].
  - by apply (Hext x) in Hq; [|left].
Qed.

Lemma capped_NoDup (blog_links : list str) (max_posts : Z) :
  NoDup (capped blog_links max_posts).
Proof.
  unfold capped. eapply sublist_NoDup; [apply list_set_NoDup | apply slice_to_sublist].
Qed.

Lemma capped_elem (blog_links : list str) (max_posts : Z) (u : str) :
  u ∈ capped blog_links max_posts -> u ∈ blog_links.
Proof.
  intros Hu. apply list_set_elem. eapply elem_of_sublist; [exact Hu|].
  apply slice_to_sublist.
Qed.

Lemma capped_length (blog_links : list str) (max_posts : Z) :
  (0 <= max_posts)%Z -> length (capped blog_links max_posts) <= Z.to_nat max_posts.
Proof.
  intros Hcap. unfold capped. rewrite slice_to_nonneg by done. rewrite length_take. lia.
Qed.

Section RunFacts.
Context `{UnicodeData} `{UrlLib} `{HtmlLib}.
Variable net : network.
Variable self : BlogScraper.

Lemma fetch_page_run (link : str) (st : state) :
  fetch_page net link st
  = Some (Returned (net (length (requests (trace st))) link),
          extend st (fetch_events link (net (length (requests (trace st))) link))).
Proof.
  unfold fetch_page. destruct (net _ link) as [text|]; [reflexivity|].
  rewrite bind_run, emit_run. cbv beta iota.
  rewrite bind_run, emit_run, extend_extend. reflexivity.
Qed.

Lemma fetch_events_requests (link : str) (r : option str) :
  requests (fetch_events link r) = [link].
Proof. by destruct r. Qed.

Lemma fetch_events_writes (link : str) (r : option str) :
  writes (fetch_events link r) = [].
Proof. by destruct r. Qed.

Lemma fetch_events_announced (link : str) (r : option str) :
  announced (fetch_events link r) = [].
Proof. by destruct r. Qed.

Lemma fetch_events_sleeps (link : str) (r : option str) : sleeps (fetch_events link r) = [].
Proof. by destruct r. Qed.

Lemma fetch_events_usable (link : str) (r : option str) :
  truthy r = true -> fetch_events link r = [Get link].
Proof. by destruct r. Qed.

Lemma truthy_Some (r : option str) :
  truthy r = true <-> exists html, r = Some html /\ html <> [].
Proof.
  destruct r as [[|c html]|]; simpl; split; try done.
  - by intros (? & [= <-] & ?).
  - intros _. by exists (c :: html).
  - by intros (? & ? & _).
Qed.

(** What a turn of the frontier loop does to the two lists. *)
Lemma turn_lists_Some (blog_links rest : list str) (r : option str)
    (blog_links' rest' : list str) :
  turn_lists self blog_links rest r = Some (blog_links', rest') ->
  blog_links `prefix_of` blog_links'
  /\ (NoDup rest -> NoDup rest')
  /\ (Forall (on_domain self) rest -> Forall (on_domain self) rest')
  /\ (Forall (on_domain self) blog_links -> Forall (on_domain self) blog_links')
  /\ (forall link, link ∈ blog_links' ->
        link ∈ blog_links
        \/ exists html found,
             r = Some html /\ html <> []
             /\ find_blog_links self html = Some found /\ link ∈ found).
Proof.
  unfold turn_lists. destruct (truthy r) eqn:Hr.
  - apply truthy_Some in Hr as (html & -> & Hne). cbn [from_option id]. unfold merged.
    destruct (find_blog_links self html) as [new_links|] eqn:Hnew; [|done].
    destruct (find_pagination_links self html) as [new_pagination|] eqn:Hpag; [|done].
    simpl. intros [= <- <-]. split_and!.
    + by apply prefix_app_r.
    + intros Hrest. apply NoDup_app. split_and!; [done| |].
      * intros x Hx Hin. by apply list_elem_of_filter in Hin as [Hnot _].
      * apply NoDup_filter. by eapply find_pagination_links_NoDup.
    + intros Hrest. apply Forall_app. split; [done|]. apply Forall_forall. intros x Hx.
      apply list_elem_of_filter in Hx as [_ Hx]. revert x Hx. apply Forall_forall.
      by eapply find_pagination_links_on_domain.
    + intros Hb. apply Forall_app. split; [done|]. by eapply find_blog_links_on_domain.
    + intros link [Hold|Hfound]%elem_of_app; [by left|]. right. by exists html, new_links.
  - intros [= <- <-]. split_and!; try done. intros link Hlink. by left.
Qed.

Lemma turn_lists_None (blog_links rest : list str) (r : option str) :
  turn_lists self blog_links rest r = None ->
  exists html,
    r = Some html /\ html <> []
    /\ (find_blog_links self html = None \/ find_pagination_links self html = None).
Proof.
  unfold turn_lists. destruct (truthy r) eqn:Hr; [|done].
  apply truthy_Some in Hr as (html & -> & Hne). cbn [from_option id]. unfold merged.
  intros Hnone. exists html. split_and!; [done|done|].
  destruct (find_blog_links self html); [|by left].
  destruct (find_pagination_links self html); [done|by right].
Qed.

(** One turn of the frontier loop, taken when the queue is not empty and
    the counter is below the limit: the loop goes on with the lists of the
    turn, or ends there when a classifier raises on the page. *)
Lemma frontier_loop_turn (fuel : nat) (max_pages : Z) (blog_links : list str)
    (next_page_url : str) (rest : list str) (pages_scraped : Z) (st : state) :
  (pages_scraped < max_pages)%Z ->
  let r := net (length (requests (trace st))) next_page_url in
  let tr := Log (ScrapingPaginationPage next_page_url) :: fetch_events next_page_url r in
  frontier_loop net self (S fuel) max_pages blog_links (next_page_url :: rest)
    pages_scraped st
  = match turn_lists self blog_links rest r with
    | Some (blog_links', rest') =>
        frontier_loop net self fuel max_pages blog_links' rest' (pages_scraped + 1)
          (extend st (tr ++ [Sleep (delay self)]))
    | None => Some (Raised, extend st tr)
    end.
Proof.
  intros Hlt r tr. simpl.
  destruct (Z.ltb_spec pages_scraped max_pages); [|lia].
  rewrite bind_run, emit_run. cbv beta iota. rewrite bind_run, fetch_page_run.
  replace (length (requests (trace (extend st [Log (ScrapingPaginationPage next_page_url)]))))
    with (length (requests (trace st)))
    by (simpl; rewrite requests_app; simpl; by rewrite app_nil_r).
  fold r. cbv beta iota. rewrite extend_extend. unfold turn_lists, merged.
  rewrite bind_run. destruct (truthy r).
  - rewrite bind_run, call_run.
    destruct (find_blog_links self (default [] r)) as [new_links|]; simpl; [|done].
    rewrite bind_run, call_run.
    destruct (find_pagination_links self (default [] r)) as [new_pagination|]; simpl;
      [|done].
    rewrite bind_run, emit_run, extend_extend. reflexivity.
  - rewrite mret_run. cbv beta iota.
    rewrite bind_run, emit_run, extend_extend. reflexivity.
Qed.

Lemma frontier_loop_done (fuel : nat) (max_pages : Z)
    (blog_links pagination_links : list str) (pages_scraped : Z) (st : state) :
  pagination_links = [] \/ (max_pages <= pages_scraped)%Z ->
  frontier_loop net self fuel max_pages blog_links pagination_links pages_scraped st
  = Some (Returned (blog_links, pagination_links, pages_scraped), st).
Proof.
  intros Hdone. destruct pagination_links as [|u rest]; [by destruct fuel|].
  destruct Hdone as [?|Hge]; [done|].
  destruct fuel; simpl; destruct (Z.ltb_spec pages_scraped max_pages); (lia || reflexivity).
Qed.

(** The frontier loop ends once it has fuel for the pages the limit still
    allows; it requests exactly the pages it announces, all from its queue,
    and writes nothing.  When it returns, the counter has gone up by one per
    request and each request was followed by a sleep; the accumulated links
    have only grown, by what [find_blog_links] found on the pages fetched.
    When a classifier raises, that is on the page the last request came back
    with. *)
Lemma frontier_loop_run (max_pages : Z) (fuel : nat) :
  forall (blog_links pagination_links : list str) (pages_scraped : Z) (st : state),
    Z.to_nat (max_pages - pages_scraped) <= fuel ->
    exists o tr,
      frontier_loop net self fuel max_pages blog_links pagination_links pages_scraped st
      = Some (o, extend st tr)
      /\ announced tr = requests tr
      /\ writes tr = []
      /\ length (requests tr) <= Z.to_nat (max_pages - pages_scraped)
      /\ Forall loop_event tr
      /\ (Forall (on_domain self) pagination_links -> Forall (on_domain self) (requests tr))
      /\ match o with
         | Returned (blog_links', pagination_links', pages_scraped') =>
             pages_scraped' = (pages_scraped + Z.of_nat (length (requests tr)))%Z
             /\ sleeps tr = replicate (length (requests tr)) (delay self)
             /\ blog_links `prefix_of` blog_links'
             /\ (NoDup pagination_links -> NoDup pagination_links')
             /\ (Forall (on_domain self) pagination_links ->
                 Forall (on_domain self) pagination_links')
             /\ (Forall (on_domain self) blog_links -> Forall (on_domain self) blog_links')
             /\ forall link, link ∈ blog_links' ->
                  link ∈ blog_links
                  \/ exists tr0 tr1 page html found,
                       tr = tr0 ++ [Log (ScrapingPaginationPage page); Get page] ++ tr1
                       /\ net (length (requests (trace st ++ tr0))) page = Some html
                       /\ html <> []
                       /\ find_blog_links self html = Some found /\ link ∈ found
         | Raised =>
             sleeps tr = replicate (length (requests tr) - 1) (delay self)
             /\ exists tr0 page html,
                  tr = tr0 ++ [Log (ScrapingPaginationPage page); Get page]
                  /\ net (length (requests (trace st ++ tr0))) page = Some html
                  /\ html <> []
                  /\ (find_blog_links self html = None
                      \/ find_pagination_links self html = None)
         end.
Proof.
  induction fuel as [|fuel IH]; intros blog_links pagination_links pages_scraped st Hfuel.
  - exists (Returned (blog_links, pagination_links, pages_scraped)), [].
    rewrite extend_nil, Z.add_0_r.
    split_and!; try done; [|simpl; lia|intros link Hlink; by left].
    apply frontier_loop_done. destruct pagination_links; [by left|right; lia].
  - destruct pagination_links as [|u rest].
    { exists (Returned (blog_links, [], pages_scraped)), []. rewrite extend_nil, Z.add_0_r.
      split_and!; try done; [simpl; lia|intros link Hlink; by left]. }
    destruct (Z.ltb_spec pages_scraped max_pages) as [Hlt|Hge].
    + rewrite frontier_loop_turn by done.
      set (r := net (length (requests (trace st))) u).
      set (got := Log (ScrapingPaginationPage u) :: fetch_events u r).
      assert (Hgot : got = [Log (ScrapingPaginationPage u)] ++ fetch_events u r)
        by reflexivity.
      assert (Hreq : requests got = [u]).
      { rewrite Hgot, !requests_app, fetch_events_requests. reflexivity. }
      assert (Hann1 : announced got = [u]).
      { rewrite Hgot, !announced_app, fetch_events_announced. reflexivity. }
      assert (Hwr1 : writes got = []).
      { rewrite Hgot, !writes_app, fetch_events_writes. reflexivity. }
      assert (Hsl1 : sleeps got = []).
      { rewrite Hgot, !sleeps_app, fetch_events_sleeps. reflexivity. }
      assert (Hev1 : Forall loop_event got).
      { unfold got. apply Forall_cons. split; [exact I|].
        unfold fetch_events. destruct r; repeat constructor. }
      destruct (turn_lists self blog_links rest r) as [[bl1 pl1]|] eqn:Hturn.
      * destruct (turn_lists_Some _ _ _ _ _ Hturn)
          as (Hpre1 & Hnd1 & Hqd1 & Hbd1 & Horigin1).
        edestruct (IH bl1 pl1 (pages_scraped + 1)%Z (extend st (got ++ [Sleep (delay self)])))
          as (o & tr & Hrun & Hann & Hwr & Hlen & Hev & Hreqd & Ho); [lia|].
        exists o, ((got ++ [Sleep (delay self)]) ++ tr).
        rewrite Hrun, extend_extend, !requests_app, !announced_app, !writes_app,
          !sleeps_app, Hreq, Hann1, Hwr1, Hsl1, Hann, Hwr.
        split_and!; [done|done|done|simpl; lia| | |].
        { apply Forall_app. split; [|done]. apply Forall_app. split; [done|].
          repeat constructor. }
        { intros Hq. apply Forall_cons in Hq as [Hu Hrest]. simpl.
          constructor; [done|]. by apply Hreqd, Hqd1. }
        destruct o as [[[bl' pl'] ps']|].
        -- destruct Ho as (-> & Hsl & Hpre & Hnd & Hqd & Hbd & Horigin).
           split_and!.
           ++ simpl. lia.
           ++ rewrite Hsl. reflexivity.
           ++ by etransitivity.
           ++ intros Hq. apply NoDup_cons in Hq as [_ Hrest]. by apply Hnd, Hnd1.
           ++ intros Hq. apply Forall_cons in Hq as [_ Hrest]. by apply Hqd, Hqd1.
           ++ intros Hb. by apply Hbd, Hbd1.
           ++ intros link Hlink.
              destruct (Horigin link Hlink)
                as [Hold|(tr0 & tr1 & page & html & found & -> & Hk & Hne & Hf & Hin)].
              ** destruct (Horigin1 link Hold) as [?|(html & found & Hr & Hne & Hf & Hin)];
                   [by left|].
                 right. exists [], (Sleep (delay self) :: tr), u, html, found.
                 split_and!; [|by rewrite app_nil_r|done|done|done].
                 unfold got.
                 rewrite (fetch_events_usable u r) by (apply truthy_Some; by exists html).
                 reflexivity.
              ** right. exists ((got ++ [Sleep (delay self)]) ++ tr0), tr1, page, html, found.
                 split_and!; [by rewrite <- !app_assoc| |done|done|done].
                 cbn [extend trace] in Hk. rewrite <- !app_assoc in Hk.
                 rewrite <- !app_assoc. exact Hk.
        -- destruct Ho as (Hsl & tr0 & page & html & -> & Hk & Hne & Hraise). split.
           ++ assert (Hpos : exists m,
                        length (requests (tr0 ++ [Log (ScrapingPaginationPage page);
                                                  Get page])) = S m).
              { rewrite requests_app, length_app. simpl.
                exists (length (requests tr0)). lia. }
              destruct Hpos as [m Hm]. rewrite Hsl. simpl. rewrite Hm. simpl.
              by rewrite Nat.sub_0_r.
           ++ exists ((got ++ [Sleep (delay self)]) ++ tr0), page, html.
              split_and!; [by rewrite <- !app_assoc| |done|done].
              cbn [extend trace] in Hk. rewrite <- !app_assoc in Hk.
              rewrite <- !app_assoc. exact Hk.
      * exists Raised, got. rewrite Hreq, Hann1, Hwr1, Hsl1.
        split_and!; [done|done|done|simpl; lia|done| |done|].
        { intros Hq. apply Forall_cons in Hq as [Hu _]. by constructor. }
        destruct (turn_lists_None _ _ _ Hturn) as (html & Hr & Hne & Hraise).
        exists [], u, html. unfold got.
        rewrite (fetch_events_usable u r) by (apply truthy_Some; by exists html).
        rewrite app_nil_r. by split_and!.
    + exists (Returned (blog_links, u :: rest, pages_scraped)), [].
      rewrite extend_nil, Z.add_0_r.
      split_and!; try done; [|simpl; lia|intros link Hlink; by left].
      apply frontier_loop_done. right. lia.
Qed.

End RunFacts.

Section PostLoopFacts.
Context `{UnicodeData} `{UrlLib} `{HtmlLib}.
Variable net : network.
Variable self : BlogScraper.

Lemma scrape_posts_skip (n i : nat) (link : str) (rest : list (nat * str)) (st : state) :
  link ∈ scraped_urls st ->
  scrape_posts net self n ((i, link) :: rest) st = scrape_posts net self n rest st.
Proof.
  intros Hseen. cbn [scrape_posts]. rewrite bind_run. unfold get_scraped.
  cbv beta iota. case_bool_decide; [reflexivity | contradiction].
Qed.

Lemma scrape_posts_turn (n i : nat) (link : str) (rest : list (nat * str)) (st : state) :
  link ∉ scraped_urls st ->
  let r := net (length (requests (trace st))) link in
  scrape_posts net self n ((i, link) :: rest) st
  = scrape_posts net self n rest
      {| scraped_urls := if truthy r then {[ link ]} ∪ scraped_urls st else scraped_urls st;
         trace := trace st ++ post_turn self i n link r |}.
Proof.
  intros Hnew r. cbn [scrape_posts]. rewrite bind_run. unfold get_scraped.
  cbv beta iota. case_bool_decide; [contradiction|].
  rewrite bind_run, emit_run. cbv beta iota. rewrite bind_run, fetch_page_run.
  replace (length (requests (trace (extend st [Log (ScrapingPost i n link)]))))
    with (length (requests (trace st)))
    by (simpl; rewrite requests_app; simpl; by rewrite app_nil_r).
  fold r. unfold post_turn, save_post.
  destruct (truthy r); run_steps; f_equal; unfold extend; cbn [scraped_urls trace];
    f_equal; rewrite <- ?app_assoc; reflexivity.
Qed.

Lemma post_turn_requests (i n : nat) (link : str) (r : option str) :
  requests (post_turn self i n link r) = [link].
Proof.
  unfold post_turn. rewrite !requests_app, fetch_events_requests.
  by destruct (truthy r).
Qed.

Lemma post_turn_writes (i n : nat) (link : str) (r : option str) :
  writes (post_turn self i n link r)
  = if truthy r
    then [(save_filepath self (extract_blog_content (default [] r) link),
           extract_blog_content (default [] r) link)]
    else [].
Proof.
  unfold post_turn. rewrite !writes_app, fetch_events_writes.
  by destruct (truthy r).
Qed.

Lemma post_turn_sleeps (i n : nat) (link : str) (r : option str) :
  sleeps (post_turn self i n link r) = [delay self].
Proof.
  unfold post_turn. rewrite !sleeps_app, fetch_events_sleeps. by destruct (truthy r).
Qed.

Lemma post_turn_events (i n : nat) (link : str) (r : option str) :
  Forall post_event (post_turn self i n link r) /\ announced (post_turn self i n link r) = [].
Proof.
  unfold post_turn. split.
  - repeat (apply Forall_app; split); try (repeat constructor).
    + unfold fetch_events. destruct r; repeat constructor.
    + destruct (truthy r); repeat constructor.
  - rewrite !announced_app, fetch_events_announced. by destruct (truthy r).
Qed.

(** The post loop always returns: no URL call is made in it.  It requests
    the links that are not in [scraped_urls], sleeps after each request,
    and writes, for each page that comes back with a body, the record
    extracted from it under the name [save_post] derives, adding the link to
    [scraped_urls]. *)
Lemma scrape_posts_run (n : nat) (items : list (nat * str)) :
  forall st : state,
    exists st' tr,
      scrape_posts net self n items st = Some (Returned tt, st')
      /\ trace st' = trace st ++ tr
      /\ scraped_urls st'
         = scraped_urls st ∪ list_to_set (map (fun w => url w.2) (writes tr))
      /\ sleeps tr = replicate (length (requests tr)) (delay self)
      /\ length (writes tr) <= length items
      /\ (forall w, w ∈ writes tr ->
            url w.2 ∈ items.*2
            /\ exists k html,
                 net k (url w.2) = Some html /\ html <> []
                 /\ w.2 = extract_blog_content html (url w.2)
                 /\ w.1 = save_filepath self w.2)
      /\ (forall u, u ∈ requests tr -> u ∈ items.*2)
      /\ (forall u, u ∈ items.*2 -> u ∈ scraped_urls st \/ u ∈ requests tr)
      /\ (NoDup items.*2 ->
          requests tr = filter (fun u => u ∉ scraped_urls st) items.*2)
      /\ map (fun w => url w.2) (writes tr) `sublist_of` requests tr
      /\ Forall post_event tr
      /\ announced tr = [].
Proof.
  induction items as [|[i link] rest IH]; intros st.
  - exists st, []. rewrite app_nil_r. split_and!; try done.
    + simpl. by rewrite (right_id_L ∅ (∪)).
    + intros w Hw. by apply elem_of_nil in Hw.
    + intros u Hu. by apply elem_of_nil in Hu.
  - destruct (decide (link ∈ scraped_urls st)) as [Hseen|Hnew].
    + rewrite scrape_posts_skip by done.
      destruct (IH st)
        as (st' & tr & Hrun & Htr & Hs & Hsl & Hlen & Hw & Hreq & Hall & Hfil & Hsub
            & Hev & Hann).
      exists st', tr. split_and!; try done.
      * simpl. lia.
      * intros w Hin. destruct (Hw w Hin) as [Hurl Hpage]. split; [by right|done].
      * intros u Hu. right. by apply Hreq.
      * intros u Hu. apply elem_of_cons in Hu as [->|Hu]; [by left|by apply Hall].
      * intros Hnd. cbn [fmap list_fmap snd] in Hnd. apply NoDup_cons in Hnd as [_ Hnd].
        cbn [fmap list_fmap snd]. rewrite filter_cons_False by (intros Hn; by apply Hn).
        by apply Hfil.
    + rewrite scrape_posts_turn by done.
      set (r := net (length (requests (trace st))) link).
      set (st1 := {| scraped_urls := _; trace := _ |}).
      destruct (IH st1)
        as (st' & tr & Hrun & Htr & Hs & Hsl & Hlen & Hw & Hreq & Hall & Hfil & Hsub
            & Hev & Hann).
      exists st', (post_turn self i n link r ++ tr).
      rewrite Hrun, Htr. unfold st1 at 1. cbn [trace].
      rewrite writes_app, requests_app, sleeps_app, announced_app, post_turn_requests,
        post_turn_writes, post_turn_sleeps, Hsl, map_app.
      destruct (post_turn_events i n link r) as [Hev1 Hann1].
      split_and!.
      * done.
      * by rewrite app_assoc.
      * rewrite Hs. unfold st1. cbn [scraped_urls]. rewrite list_to_set_app_L.
        apply set_eq. intros x.
        destruct (truthy r); simpl;
          rewrite ?elem_of_union, ?elem_of_singleton, ?elem_of_empty; tauto.
      * reflexivity.
      * rewrite length_app. destruct (truthy r); simpl; lia.
      * intros w Hin. apply elem_of_app in Hin as [Hhere|Hlater].
        -- destruct (truthy r) eqn:Htruthy; [|by apply elem_of_nil in Hhere].
           apply list_elem_of_singleton in Hhere as ->. cbn [fst snd url].
           split; [by left|].
           destruct r as [[|c html]|] eqn:Hr; try discriminate.
           exists (length (requests (trace st))), (c :: html). by split_and!.
        -- destruct (Hw w Hlater) as [Hurl Hpage]. split; [by right|done].
      * intros u Hu. apply elem_of_cons in Hu as [->|Hu]; [by left|right; by apply Hreq].
      * intros u Hu. apply elem_of_cons in Hu as [->|Hu]; [by right; left|].
        destruct (Hall u Hu) as [Hin|Hin]; [|by right; right].
        unfold st1 in Hin. cbn [scraped_urls] in Hin.
        destruct (truthy r); [|by left].
        apply elem_of_union in Hin as [Hin|Hin]; [|by left].
        apply elem_of_singleton in Hin as ->. by right; left.
      * intros Hnd. cbn [fmap list_fmap snd] in *. apply NoDup_cons in Hnd as [Hfresh Hnd].
        rewrite filter_cons_True by done. simpl. f_equal.
        rewrite (Hfil Hnd). apply filter_ext_in. intros u Hu.
        unfold st1. cbn [scraped_urls]. destruct (truthy r); [|done].
        rewrite not_elem_of_union, not_elem_of_singleton. split; [tauto|].
        intros Hnot. split; [|done]. by intros ->.
      * apply sublist_app; [|done].
        destruct (truthy r); simpl; [by apply sublist_skip | by apply sublist_cons].
      * by apply Forall_app.
      * by rewrite Hann1, Hann.
Qed.

End PostLoopFacts.

Lemma enumerate_length {A} (l : list A) (start : nat) :
  length (enumerate l start) = length l.
Proof. revert start. induction l as [|x l IH]; intros start; simpl; [done|]. by rewrite IH. Qed.

Lemma enumerate_snd {A} (l : list A) (start : nat) : (enumerate l start).*2 = l.
Proof. revert start. induction l as [|x l IH]; intros start; simpl; [done|]. by rewrite IH. Qed.

Section ScrapeFacts.
Context `{UnicodeData} `{UrlLib} `{HtmlLib}.
Variable net : network.
Variable self : BlogScraper.

(** [scrape], phase by phase. *)
Lemma scrape_unfold (fuel : nat) (max_posts max_pages : Z) (st : state) :
  let r := net (length (requests (trace st))) (base_url self) in
  let st0 := extend st ([Log (StartingScrape (base_url self))]
                        ++ fetch_events (base_url self) r) in
  scrape net self fuel max_posts max_pages st
  = if truthy r then
      match find_blog_links self (default [] r),
            find_pagination_links self (default [] r) with
      | Some blog_links, Some pagination_links =>
          match frontier_loop net self fuel max_pages blog_links pagination_links 1 st0 with
          | Some (Returned (blog_links, _, _), st1) =>
              let posts := capped blog_links max_posts in
              match scrape_posts net self (length posts) (enumerate posts 1)
                      (extend st1 [Log (FoundPosts (length posts))]) with
              | Some (Returned _, st2) =>
                  Some (Returned tt,
                        extend st2 [Log (ScrapingCompleted (size (scraped_urls st2)))])
              | Some (Raised, st2) => Some (Raised, st2)
              | None => None
              end
          | Some (Raised, st1) => Some (Raised, st1)
          | None => None
          end
      | _, _ => Some (Raised, st0)
      end
    else Some (Returned tt, extend st0 [Log (FailedHomepage (base_url self))]).
Proof.
  intros r st0. unfold scrape.
  rewrite bind_run, emit_run. cbv beta iota. rewrite bind_run, fetch_page_run.
  replace (length (requests (trace (extend st [Log (StartingScrape (base_url self))]))))
    with (length (requests (trace st)))
    by (simpl; rewrite requests_app; simpl; by rewrite app_nil_r).
  fold r. rewrite extend_extend. fold st0. cbv beta iota.
  destruct (truthy r); cbn [negb]; cbv beta iota; [|by rewrite emit_run].
  rewrite bind_run, call_run.
  destruct (find_blog_links self (default [] r)) as [blog_links|]; cbv beta iota.
  2:{ by destruct (find_pagination_links self (default [] r)). }
  rewrite bind_run, call_run.
  destruct (find_pagination_links self (default [] r)) as [pagination_links|];
    cbv beta iota; [|done].
  rewrite bind_run.
  destruct (frontier_loop net self fuel max_pages _ _ 1 st0)
    as [[[[[bl pl] ps]|] st1]|]; [|reflexivity|reflexivity].
  cbv beta iota. rewrite bind_run, emit_run. cbv beta iota. rewrite bind_run.
  destruct (scrape_posts net self _ _ _) as [[[[]|] st2]|]; [|reflexivity|reflexivity].
  cbv beta iota. rewrite bind_run. unfold get_scraped. cbv beta iota.
  rewrite emit_run. reflexivity.
Qed.

(** A seed page that cannot be used ends the run at once: the request, the
    error lines, and nothing else. *)
Lemma scrape_seed_unusable (fuel : nat) (max_posts max_pages : Z) (st : state) :
  truthy (net (length (requests (trace st))) (base_url self)) = false ->
  scrape net self fuel max_posts max_pages st
  = Some (Returned tt,
          extend st ([Log (StartingScrape (base_url self))]
                     ++ fetch_events (base_url self)
                          (net (length (requests (trace st))) (base_url self))
                     ++ [Log (FailedHomepage (base_url self))])).
Proof.
  intros Hseed. rewrite scrape_unfold. cbv zeta. rewrite Hseed, extend_extend.
  by rewrite <- app_assoc.
Qed.

(** A classifier that raises on the seed page ends the run there. *)
Lemma scrape_seed_raises (fuel : nat) (max_posts max_pages : Z) (st : state) (html : str) :
  net (length (requests (trace st))) (base_url self) = Some html -> html <> [] ->
  find_blog_links self html = None \/ find_pagination_links self html = None ->
  scrape net self fuel max_posts max_pages st = Some (Raised, after_seed self st).
Proof.
  intros Hseed Hne Hraise. rewrite scrape_unfold. cbv zeta. rewrite Hseed.
  destruct html as [|c html]; [done|]. cbn [truthy from_option id fetch_events].
  destruct Hraise as [-> | ->]; [done|].
  by destruct (find_blog_links self (c :: html)).
Qed.

(** With a seed page the classifiers take, the run is the frontier loop
    followed, when the loop returns, by the post loop over the capped links
    and the completion line. *)
Lemma scrape_seed_usable (fuel : nat) (max_posts max_pages : Z) (st : state)
    (html : str) (blog_links pagination_links : list str) :
  net (length (requests (trace st))) (base_url self) = Some html -> html <> [] ->
  find_blog_links self html = Some blog_links ->
  find_pagination_links self html = Some pagination_links ->
  scrape net self fuel max_posts max_pages st
  = match frontier_loop net self fuel max_pages blog_links pagination_links 1
            (after_seed self st) with
    | Some (Returned (accumulated, _, _), st1) =>
        match scrape_posts net self (length (capped accumulated max_posts))
                (enumerate (capped accumulated max_posts) 1)
                (extend st1 [Log (FoundPosts (length (capped accumulated max_posts)))])
        with
        | Some (Returned _, st2) =>
            Some (Returned tt,
                  extend st2 [Log (ScrapingCompleted (size (scraped_urls st2)))])
        | Some (Raised, st2) => Some (Raised, st2)
        | None => None
        end
    | Some (Raised, st1) => Some (Raised, st1)
    | None => None
    end.
Proof.
  intros Hseed Hne Hbl Hpl. rewrite scrape_unfold. cbv zeta. rewrite Hseed.
  destruct html as [|c html]; [done|]. cbn [truthy from_option id fetch_events].
  by rewrite Hbl, Hpl.
Qed.

End ScrapeFacts.

(** The ways a run can go, given fuel for the frontier loop: the seed page
    is unusable; a classifier raises on the seed page; a classifier raises
    in the frontier loop; or both loops are gone through.  Each case comes
    with the equation [Hrun] of the run and the facts of the loops. *)
Ltac run_cases net self fuel max_posts max_pages st Hfuel :=
  destruct (truthy (net (length (requests (trace st))) (base_url self))) eqn:Hseed;
  [ apply truthy_Some in Hseed as (html & Hseed & Hne);
    destruct (find_blog_links self html) as [seed_links|] eqn:Hbl;
    [ destruct (find_pagination_links self html) as [seed_pagination|] eqn:Hpl;
      [ destruct (frontier_loop_run net self max_pages fuel seed_links seed_pagination 1
                    (after_seed self st) Hfuel)
          as (o & tr_loop & Hloop & Hann & Hwr & Hlen & Hev & Hreqd & Ho);
        pose proof (scrape_seed_usable net self fuel max_posts max_pages st html
                      seed_links seed_pagination Hseed Hne Hbl Hpl) as Hrun;
        rewrite Hloop in Hrun;
        destruct o as [[[accumulated queue] pages]|];
        [ destruct (scrape_posts_run net self (length (capped accumulated max_posts))
                      (enumerate (capped accumulated max_posts) 1)
                      (extend (extend (after_seed self st) tr_loop)
                         [Log (FoundPosts (length (capped accumulated max_posts)))]))
            as (st2 & tr_posts & Hposts & Htr & Hs & Hpsl & Hplen & Hpw & Hpreq & Hpall
                & Hpfil & Hpsub & Hpev & Hpann);
          rewrite Hposts in Hrun;
          rewrite enumerate_length in Hplen;
          rewrite enumerate_snd in Hpw, Hpreq, Hpall, Hpfil;
          specialize (Hpfil (capped_NoDup accumulated max_posts));
          cbn [extend after_seed scraped_urls] in Hs, Hpall, Hpfil;
          cbn [extend after_seed trace] in Htr;
          rewrite <- ?app_assoc in Htr
        | ]
      | pose proof (scrape_seed_raises net self fuel max_posts max_pages st html
                      Hseed Hne (or_intror Hpl)) as Hrun ]
    | pose proof (scrape_seed_raises net self fuel max_posts max_pages st html
                    Hseed Hne (or_introl Hbl)) as Hrun ]
  | pose proof (scrape_seed_unusable net self fuel max_posts max_pages st Hseed) as Hrun ].

(** *** The frontier loop *)

(** C3: started with the counter at 1, as [scrape] starts it, the frontier
    loop ends, whatever the pages hold and the requests return; it makes at
    most [max_pages] requests.  When it returns, the counter has gone up by
    one for each request made, successful or not; it ends without returning
    only when a classifier raises on a page that a request came back with. *)
Theorem frontier_loop_terminates `{UnicodeData} `{UrlLib} `{HtmlLib}
    (net : network) (self : BlogScraper) (fuel : nat) (max_pages : Z)
    (blog_links pagination_links : list str) (st : state) :
  Z.to_nat (max_pages - 1) <= fuel ->
  exists o tr,
    frontier_loop net self fuel max_pages blog_links pagination_links 1 st
    = Some (o, extend st tr)
    /\ length (requests tr) <= Z.to_nat max_pages
    /\ announced tr = requests tr
    /\ match o with
       | Returned (_, _, pages_scraped) =>
           pages_scraped = (1 + Z.of_nat (length (requests tr)))%Z
       | Raised =>
           exists tr0 page html,
             tr = tr0 ++ [Log (ScrapingPaginationPage page); Get page]
             /\ net (length (requests (trace st ++ tr0))) page = Some html
             /\ html <> []
             /\ (find_blog_links self html = None
                 \/ find_pagination_links self html = None)
       end.
Proof.
  intros Hfuel.
  destruct (frontier_loop_run net self max_pages fuel blog_links pagination_links 1 st Hfuel)
    as (o & tr & Hrun & Hann & _ & Hlen & _ & _ & Ho).
  exists o, tr. split_and!; [done|lia|done|].
  destruct o as [[[bl' pl'] ps']|]; [by destruct Ho as [-> _] | by destruct Ho as [_ ?]].
Qed.

Lemma frontier_loop_terminates_witness :
  exists o tr,
    @frontier_loop ascii_tables urllib_parse.cpython site_lib site_net example_scraper
      2 3 [] [py "https://www.example.com/blog/page/2"; py "https://www.example.com/blog/page/3"]
      1 fresh
    = Some (o, extend fresh tr)
    /\ length (requests tr) <= Z.to_nat 3
    /\ announced tr = requests tr
    /\ match o with
       | Returned (_, _, pages_scraped) =>
           pages_scraped = (1 + Z.of_nat (length (requests tr)))%Z
       | Raised =>
           exists tr0 page html,
             tr = tr0 ++ [Log (ScrapingPaginationPage page); Get page]
             /\ site_net (length (requests (trace fresh ++ tr0))) page = Some html
             /\ html <> []
             /\ (@find_blog_links ascii_tables urllib_parse.cpython site_lib
                   example_scraper html = None
                 \/ @find_pagination_links urllib_parse.cpython site_lib
                      example_scraper html = None)
       end.
Proof.
  apply (@frontier_loop_terminates ascii_tables urllib_parse.cpython site_lib site_net
           example_scraper 2 3 [] _ fresh).
  simpl. lia.
Defined.

(** *** The whole run *)

(** C9: the counter stands at 1 when the frontier loop starts, so the seed
    page counts toward the limit.  Up to the line that reports the posts
    found, the requests of a run are the seed page followed by the pagination
    pages the loop announces; these number at most [max_pages - 1], and there
    is none when [max_pages <= 1], whatever the seed page links to.  After
    that line no pagination page is fetched. *)
Theorem seed_counts_toward_page_limit `{UnicodeData} `{UrlLib} `{HtmlLib}
    (net : network) (self : BlogScraper) (fuel : nat) (max_posts max_pages : Z)
    (st : state) :
  Z.to_nat (max_pages - 1) <= fuel ->
  exists o st' walk rest,
    scrape net self fuel max_posts max_pages st = Some (o, st')
    /\ trace st' = trace st ++ walk ++ rest
    /\ (rest = [] \/ exists n rest', rest = Log (FoundPosts n) :: rest')
    /\ announced rest = []
    /\ requests walk = base_url self :: announced walk
    /\ length (announced walk) <= Z.to_nat (max_pages - 1)
    /\ ((max_pages <= 1)%Z -> announced walk = []).
Proof.
  intros Hfuel. run_cases net self fuel max_posts max_pages st Hfuel.
  - exists (Returned tt), (extend st2 [Log (ScrapingCompleted (size (scraped_urls st2)))]),
      ([Log (StartingScrape (base_url self)); Get (base_url self)] ++ tr_loop),
      (Log (FoundPosts (length (capped accumulated max_posts)))
       :: tr_posts ++ [Log (ScrapingCompleted (size (scraped_urls st2)))]).
    split; [exact Hrun|]. split.
    { cbn [extend trace]. rewrite Htr. by rewrite <- !app_assoc. }
    split; [right; by eexists _, _|].
    change (Log (FoundPosts (length (capped accumulated max_posts)))
            :: tr_posts ++ [Log (ScrapingCompleted (size (scraped_urls st2)))])
      with ([Log (FoundPosts (length (capped accumulated max_posts)))]
            ++ tr_posts ++ [Log (ScrapingCompleted (size (scraped_urls st2)))]).
    rewrite !announced_app, !requests_app, Hann, Hpann. simpl.
    split_and!; [done|done|lia|].
    intros Hsmall. apply nil_length_inv. lia.
  - exists Raised, (extend (after_seed self st) tr_loop),
      ([Log (StartingScrape (base_url self)); Get (base_url self)] ++ tr_loop), [].
    split; [exact Hrun|]. split.
    { cbn [extend after_seed trace]. by rewrite app_nil_r, <- !app_assoc. }
    split; [by left|].
    rewrite !announced_app, !requests_app, Hann. simpl.
    split_and!; [done|done|lia|].
    intros Hsmall. apply nil_length_inv. lia.
  - exists Raised, (after_seed self st),
      [Log (StartingScrape (base_url self)); Get (base_url self)], [].
    split; [exact Hrun|]. split; [by rewrite app_nil_r|]. split; [by left|].
    simpl. split_and!; [done|done|lia|done].
  - exists Raised, (after_seed self st),
      [Log (StartingScrape (base_url self)); Get (base_url self)], [].
    split; [exact Hrun|]. split; [by rewrite app_nil_r|]. split; [by left|].
    simpl. split_and!; [done|done|lia|done].
  - eexists (Returned tt), _, _, []. split; [exact Hrun|].
    split; [by rewrite app_nil_r|]. split; [by left|].
    rewrite !announced_app, !requests_app, fetch_events_announced, fetch_events_requests.
    simpl. split_and!; [done|done|lia|done].
Qed.

Lemma seed_counts_toward_page_limit_witness :
  exists o st' walk rest,
    @scrape ascii_tables urllib_parse.cpython site_lib site_net example_scraper
      0 50 1 fresh = Some (o, st')
    /\ trace st' = trace fresh ++ walk ++ rest
    /\ (rest = [] \/ exists n rest', rest = Log (FoundPosts n) :: rest')
    /\ announced rest = []
    /\ requests walk = base_url example_scraper :: announced walk
    /\ length (announced walk) <= Z.to_nat (1 - 1)
    /\ ((1 <= 1)%Z -> announced walk = []).
Proof.
  apply (@seed_counts_toward_page_limit ascii_tables urllib_parse.cpython site_lib site_net
           example_scraper 0 50 1 fresh).
  simpl. lia.
Defined.

(** C6: when the request for the seed page fails, the run stops there: the
    trace holds the request and the two error lines, no file is written and
    [scraped_urls] is unchanged.  A failed request for a pagination page or
    for a post only takes the loop to its next turn.  With a usable seed page
    the run ends; when it returns, it has gone through the frontier loop and
    has requested every link of the capped list that was not scraped before,
    up to its completion line; it ends without returning only when a
    classifier raises on a page that a request came back with, never on a
    failed request. *)
Theorem seed_failure_aborts_others_do_not `{UnicodeData} `{UrlLib} `{HtmlLib}
    (net : network) (self : BlogScraper) (fuel : nat) (max_posts max_pages : Z)
    (st : state) :
  Z.to_nat (max_pages - 1) <= fuel ->
  (net (length (requests (trace st))) (base_url self) = None ->
   scrape net self fuel max_posts max_pages st
   = Some (Returned tt,
           extend st [ Log (StartingScrape (base_url self));
                       Get (base_url self);
                       Log (ErrorFetching (base_url self));
                       Log (FailedHomepage (base_url self)) ]))
  /\ (forall blog_links page rest pages_scraped st1,
        (pages_scraped < max_pages)%Z ->
        net (length (requests (trace st1))) page = None ->
        frontier_loop net self (S fuel) max_pages blog_links (page :: rest) pages_scraped st1
        = frontier_loop net self fuel max_pages blog_links rest (pages_scraped + 1)
            (extend st1 [ Log (ScrapingPaginationPage page); Get page;
                          Log (ErrorFetching page); Sleep (delay self) ]))
  /\ (forall n i link rest st1,
        link ∉ scraped_urls st1 ->
        net (length (requests (trace st1))) link = None ->
        scrape_posts net self n ((i, link) :: rest) st1
        = scrape_posts net self n rest
            (extend st1 [ Log (ScrapingPost i n link); Get link;
                          Log (ErrorFetching link); Sleep (delay self) ]))
  /\ (forall html,
        net (length (requests (trace st))) (base_url self) = Some html -> html <> [] ->
        exists o st' tr,
          scrape net self fuel max_posts max_pages st = Some (o, st')
          /\ trace st' = trace st ++ tr
          /\ (Log (FailedHomepage (base_url self)) ∉ tr)
          /\ match o with
             | Returned _ =>
                 exists seed_links seed_pagination accumulated queue pages tr_loop tr_posts,
                   find_blog_links self html = Some seed_links
                   /\ find_pagination_links self html = Some seed_pagination
                   /\ frontier_loop net self fuel max_pages seed_links seed_pagination 1
                        (after_seed self st)
                      = Some (Returned (accumulated, queue, pages),
                              extend (after_seed self st) tr_loop)
                   /\ tr = [Log (StartingScrape (base_url self)); Get (base_url self)]
                           ++ tr_loop
                           ++ [Log (FoundPosts (length (capped accumulated max_posts)))]
                           ++ tr_posts
                           ++ [Log (ScrapingCompleted (size (scraped_urls st')))]
                   /\ requests tr_posts = unscraped st (capped accumulated max_posts)
             | Raised =>
                 exists tr0 page html',
                   tr = tr0 ++ [Get page]
                   /\ net (length (requests (trace st ++ tr0))) page = Some html'
                   /\ html' <> []
                   /\ (find_blog_links self html' = None
                       \/ find_pagination_links self html' = None)
             end).
Proof.
  intros Hfuel. split_and!.
  - intros Hnone. rewrite scrape_seed_unusable by (by rewrite Hnone).
    by rewrite Hnone.
  - intros blog_links page rest pages_scraped st1 Hlt Hpage.
    rewrite frontier_loop_turn by done. by rewrite Hpage.
  - intros n i link rest st1 Hnew Hlink.
    rewrite scrape_posts_turn by done. by rewrite Hlink.
  - intros html0 Hseed0 Hne0. run_cases net self fuel max_posts max_pages st Hfuel.
    + exists (Returned tt), (extend st2 [Log (ScrapingCompleted (size (scraped_urls st2)))]),
        ([Log (StartingScrape (base_url self)); Get (base_url self)] ++ tr_loop
         ++ [Log (FoundPosts (length (capped accumulated max_posts)))] ++ tr_posts
         ++ [Log (ScrapingCompleted (size (scraped_urls st2)))]).
      split; [exact Hrun|]. split.
      { cbn [extend trace]. rewrite Htr. by rewrite <- !app_assoc. }
      split.
      { intros Hin. rewrite !elem_of_app, !elem_of_cons in Hin.
        destruct Hin as [[Hin|[Hin|Hin]]|[Hin|[[Hin|Hin]|[Hin|[Hin|Hin]]]]];
          try discriminate; try (by apply elem_of_nil in Hin).
        - rewrite Forall_forall in Hev. apply (Hev _ Hin).
        - rewrite Forall_forall in Hpev. apply (Hpev _ Hin). }
      rewrite Hseed in Hseed0. injection Hseed0 as <-.
      exists seed_links, seed_pagination, accumulated, queue, pages, tr_loop, tr_posts.
      by split_and!.
    + exists Raised, (extend (after_seed self st) tr_loop),
        ([Log (StartingScrape (base_url self)); Get (base_url self)] ++ tr_loop).
      split; [exact Hrun|]. split.
      { cbn [extend after_seed trace]. by rewrite <- !app_assoc. }
      split.
      { intros Hin. rewrite !elem_of_app, !elem_of_cons in Hin.
        destruct Hin as [[Hin|[Hin|Hin]]|Hin];
          try discriminate; try (by apply elem_of_nil in Hin).
        rewrite Forall_forall in Hev. apply (Hev _ Hin). }
      destruct Ho as (_ & tr0 & page & html' & -> & Hk & Hne' & Hraise).
      exists ([Log (StartingScrape (base_url self)); Get (base_url self)] ++ tr0
              ++ [Log (ScrapingPaginationPage page)]), page, html'.
      split_and!; [by rewrite <- !app_assoc| |done|done].
      cbn [after_seed extend trace] in Hk. rewrite <- !app_assoc in Hk.
      rewrite !requests_app in Hk |- *. simpl in Hk |- *.
      by rewrite requests_app, app_nil_r.
    + exists Raised, (after_seed self st),
        [Log (StartingScrape (base_url self)); Get (base_url self)].
      split; [exact Hrun|]. split; [done|]. split.
      { intros Hin. rewrite !elem_of_cons in Hin.
        destruct Hin as [Hin|[Hin|Hin]]; try discriminate. by apply elem_of_nil in Hin. }
      exists [Log (StartingScrape (base_url self))], (base_url self), html.
      split_and!; [done| |done|by right].
      rewrite requests_app. simpl. by rewrite app_nil_r.
    + exists Raised, (after_seed self st),
        [Log (StartingScrape (base_url self)); Get (base_url self)].
      split; [exact Hrun|]. split; [done|]. split.
      { intros Hin. rewrite !elem_of_cons in Hin.
        destruct Hin as [Hin|[Hin|Hin]]; try discriminate. by apply elem_of_nil in Hin. }
      exists [Log (StartingScrape (base_url self))], (base_url self), html.
      split_and!; [done| |done|by left].
      rewrite requests_app. simpl. by rewrite app_nil_r.
    + rewrite Hseed0 in Hseed. by destruct html0.
Qed.

Lemma seed_failure_aborts_others_do_not_witness :
  @scrape ascii_tables urllib_parse.cpython site_lib dead_net example_scraper
    4 50 5 fresh
  = Some (Returned tt,
          extend fresh [ Log (StartingScrape (base_url example_scraper));
                         Get (base_url example_scraper);
                         Log (ErrorFetching (base_url example_scraper));
                         Log (FailedHomepage (base_url example_scraper)) ])
  /\ exists o st' tr,
       @scrape ascii_tables urllib_parse.cpython site_lib site_net example_scraper
         4 50 5 fresh = Some (o, st')
       /\ trace st' = trace fresh ++ tr
       /\ (Log (FailedHomepage (base_url example_scraper)) ∉ tr)
       /\ match o with
          | Returned _ =>
              exists seed_links seed_pagination accumulated queue pages tr_loop tr_posts,
                @find_blog_links ascii_tables urllib_parse.cpython site_lib example_scraper
                  (py "<html>listing</html>") = Some seed_links
                /\ @find_pagination_links urllib_parse.cpython site_lib example_scraper
                     (py "<html>listing</html>") = Some seed_pagination
                /\ @frontier_loop ascii_tables urllib_parse.cpython site_lib site_net
                     example_scraper 4 5 seed_links seed_pagination 1
                     (after_seed example_scraper fresh)
                   = Some (Returned (accumulated, queue, pages),
                           extend (after_seed example_scraper fresh) tr_loop)
                /\ tr = [Log (StartingScrape (base_url example_scraper));
                         Get (base_url example_scraper)]
                        ++ tr_loop
                        ++ [Log (FoundPosts (length (capped accumulated 50)))]
                        ++ tr_posts
                        ++ [Log (ScrapingCompleted (size (scraped_urls st')))]
                /\ requests tr_posts = unscraped fresh (capped accumulated 50)
          | Raised =>
              exists tr0 page html',
                tr = tr0 ++ [Get page]
                /\ site_net (length (requests (trace fresh ++ tr0))) page = Some html'
                /\ html' <> []
                /\ (@find_blog_links ascii_tables urllib_parse.cpython site_lib
                      example_scraper html' = None
                    \/ @find_pagination_links urllib_parse.cpython site_lib
                         example_scraper html' = None)
          end.
Proof.
  split.
  - apply (@seed_failure_aborts_others_do_not ascii_tables urllib_parse.cpython site_lib
             dead_net example_scraper 4 50 5 fresh); [simpl; lia | reflexivity].
  - apply (proj2 (proj2 (proj2
             (@seed_failure_aborts_others_do_not ascii_tables urllib_parse.cpython site_lib
                site_net example_scraper 4 50 5 fresh ltac:(simpl; lia))))
             (py "<html>listing</html>")); [reflexivity | discriminate].
Defined.

(** C7: when a run gets past the frontier loop, the list it hands to the
    post loop is the accumulated list of the frontier loop, without
    duplicates and cut to [max_posts]; each accumulated link was found on the
    seed page or on a pagination page the loop fetched; every record written
    is the record of a link of that list.  No run writes more than
    [max_posts] records. *)
Theorem posts_unique_and_capped `{UnicodeData} `{UrlLib} `{HtmlLib}
    (net : network) (self : BlogScraper) (fuel : nat) (max_posts max_pages : Z)
    (st : state) :
  (0 <= max_posts)%Z ->
  Z.to_nat (max_pages - 1) <= fuel ->
  exists o st' tr,
    scrape net self fuel max_posts max_pages st = Some (o, st')
    /\ trace st' = trace st ++ tr
    /\ length (writes tr) <= Z.to_nat max_posts
    /\ forall html,
         net (length (requests (trace st))) (base_url self) = Some html -> html <> [] ->
         o = Returned tt ->
         exists seed_links seed_pagination accumulated queue pages tr_loop st2,
           find_blog_links self html = Some seed_links
           /\ find_pagination_links self html = Some seed_pagination
           /\ frontier_loop net self fuel max_pages seed_links seed_pagination 1
                (after_seed self st)
              = Some (Returned (accumulated, queue, pages),
                      extend (after_seed self st) tr_loop)
           /\ scrape_posts net self (length (capped accumulated max_posts))
                (enumerate (capped accumulated max_posts) 1)
                (extend (after_seed self st)
                   (tr_loop ++ [Log (FoundPosts (length (capped accumulated max_posts)))]))
              = Some (Returned tt, st2)
           /\ st' = extend st2 [Log (ScrapingCompleted (size (scraped_urls st2)))]
           /\ NoDup (capped accumulated max_posts)
           /\ length (capped accumulated max_posts) <= Z.to_nat max_posts
           /\ (forall u, u ∈ capped accumulated max_posts -> u ∈ accumulated)
           /\ (forall u, u ∈ accumulated ->
                 u ∈ seed_links
                 \/ exists tr0 tr1 page html' found,
                      tr_loop = tr0 ++ [Log (ScrapingPaginationPage page); Get page] ++ tr1
                      /\ net (length (requests (trace (after_seed self st) ++ tr0))) page
                         = Some html'
                      /\ html' <> []
                      /\ find_blog_links self html' = Some found /\ u ∈ found)
           /\ (forall w, w ∈ writes tr -> url w.2 ∈ capped accumulated max_posts).
Proof.
  intros Hcap Hfuel. run_cases net self fuel max_posts max_pages st Hfuel.
  - exists (Returned tt), (extend st2 [Log (ScrapingCompleted (size (scraped_urls st2)))]),
      ([Log (StartingScrape (base_url self)); Get (base_url self)] ++ tr_loop
       ++ [Log (FoundPosts (length (capped accumulated max_posts)))] ++ tr_posts
       ++ [Log (ScrapingCompleted (size (scraped_urls st2)))]).
    assert (Hwrites : writes
                        ([Log (StartingScrape (base_url self)); Get (base_url self)]
                         ++ tr_loop
                         ++ [Log (FoundPosts (length (capped accumulated max_posts)))]
                         ++ tr_posts
                         ++ [Log (ScrapingCompleted (size (scraped_urls st2)))])
                      = writes tr_posts).
    { rewrite !writes_app, Hwr. simpl. by rewrite app_nil_r. }
    rewrite Hwrites. pose proof (capped_length accumulated max_posts Hcap) as Hcl.
    split; [exact Hrun|]. split.
    { cbn [extend trace]. rewrite Htr. by rewrite <- !app_assoc. }
    split; [lia|].
    intros html0 Hseed0 Hne0 _. rewrite Hseed in Hseed0. injection Hseed0 as <-.
    destruct Ho as (_ & _ & _ & _ & _ & _ & Horigin).
    exists seed_links, seed_pagination, accumulated, queue, pages, tr_loop, st2.
    split_and!; try done.
    + by rewrite <- extend_extend.
    + apply capped_NoDup.
    + intros u. apply capped_elem.
    + intros w Hw. by apply Hpw.
  - exists Raised, (extend (after_seed self st) tr_loop),
      ([Log (StartingScrape (base_url self)); Get (base_url self)] ++ tr_loop).
    split; [exact Hrun|]. split.
    { cbn [extend after_seed trace]. by rewrite <- !app_assoc. }
    rewrite !writes_app, Hwr. simpl. split; [lia|]. by intros.
  - exists Raised, (after_seed self st),
      [Log (StartingScrape (base_url self)); Get (base_url self)].
    split; [exact Hrun|]. split; [done|]. simpl. split; [lia|]. by intros.
  - exists Raised, (after_seed self st),
      [Log (StartingScrape (base_url self)); Get (base_url self)].
    split; [exact Hrun|]. split; [done|]. simpl. split; [lia|]. by intros.
  - eexists (Returned tt), _, _. split; [exact Hrun|]. split; [reflexivity|].
    rewrite !writes_app, fetch_events_writes. simpl. split; [lia|].
    intros html0 Hseed0 Hne0 _. rewrite Hseed0 in Hseed. by destruct html0.
Qed.

Lemma posts_unique_and_capped_witness :
  exists o st' tr,
    @scrape ascii_tables urllib_parse.cpython site_lib site_net example_scraper
      4 2 5 fresh = Some (o, st')
    /\ trace st' = trace fresh ++ tr
    /\ length (writes tr) <= Z.to_nat 2
    /\ forall html,
         site_net (length (requests (trace fresh))) (base_url example_scraper) = Some html ->
         html <> [] ->
         o = Returned tt ->
         exists seed_links seed_pagination accumulated queue pages tr_loop st2,
           @find_blog_links ascii_tables urllib_parse.cpython site_lib example_scraper html
           = Some seed_links
           /\ @find_pagination_links urllib_parse.cpython site_lib example_scraper html
              = Some seed_pagination
           /\ @frontier_loop ascii_tables urllib_parse.cpython site_lib site_net
                example_scraper 4 5 seed_links seed_pagination 1
                (after_seed example_scraper fresh)
              = Some (Returned (accumulated, queue, pages),
                      extend (after_seed example_scraper fresh) tr_loop)
           /\ @scrape_posts ascii_tables site_lib site_net example_scraper
                (length (capped accumulated 2)) (enumerate (capped accumulated 2) 1)
                (extend (after_seed example_scraper fresh)
                   (tr_loop ++ [Log (FoundPosts (length (capped accumulated 2)))]))
              = Some (Returned tt, st2)
           /\ st' = extend st2 [Log (ScrapingCompleted (size (scraped_urls st2)))]
           /\ NoDup (capped accumulated 2)
           /\ length (capped accumulated 2) <= Z.to_nat 2
           /\ (forall u, u ∈ capped accumulated 2 -> u ∈ accumulated)
           /\ (forall u, u ∈ accumulated ->
                 u ∈ seed_links
                 \/ exists tr0 tr1 page html' found,
                      tr_loop = tr0 ++ [Log (ScrapingPaginationPage page); Get page] ++ tr1
                      /\ site_net
                           (length (requests (trace (after_seed example_scraper fresh) ++ tr0)))
                           page = Some html'
                      /\ html' <> []
                      /\ @find_blog_links ascii_tables urllib_parse.cpython site_lib
                           example_scraper html' = Some found
                      /\ u ∈ found)
           /\ (forall w, w ∈ writes tr -> url w.2 ∈ capped accumulated 2).
Proof.
  apply (@posts_unique_and_capped ascii_tables urllib_parse.cpython site_lib site_net
           example_scraper 4 2 5 fresh); [lia | simpl; lia].
Defined.

(** *** Empty pages *)

Lemma quiet_app (a b : list event) : quiet (a ++ b) = quiet a ++ quiet b.
Proof. apply flat_map_app. Qed.

Lemma requests_quiet (tr : list event) : requests (quiet tr) = requests tr.
Proof.
  induction tr as [|e tr IH]; [done|].
  change (e :: tr) with ([e] ++ tr). rewrite quiet_app, !requests_app, IH.
  f_equal. by destruct e as [| [] | |].
Qed.

Lemma writes_quiet (tr : list event) : writes (quiet tr) = writes tr.
Proof.
  induction tr as [|e tr IH]; [done|].
  change (e :: tr) with ([e] ++ tr). rewrite quiet_app, !writes_app, IH.
  f_equal. by destruct e as [| [] | |].
Qed.

Lemma quiet_fetch_events (link : str) (r : option str) :
  quiet (fetch_events link r) = [Get link].
Proof. by destruct r. Qed.

Lemma alike_requests (st1 st2 : state) :
  alike st1 st2 -> requests (trace st1) = requests (trace st2).
Proof. intros [_ Hq]. by rewrite <- (requests_quiet (trace st1)), Hq, requests_quiet. Qed.

Lemma alike_extend (st1 st2 : state) (tr1 tr2 : list event) :
  alike st1 st2 -> quiet tr1 = quiet tr2 -> alike (extend st1 tr1) (extend st2 tr2).
Proof.
  intros [Hs Hq] Htr. split; [done|]. simpl. by rewrite !quiet_app, Hq, Htr.
Qed.

Lemma empty_as_failure_same (net : network) (n : nat) (link : str) :
  same_to_callers (net n link) (empty_as_failure net n link).
Proof.
  unfold same_to_callers, empty_as_failure.
  destruct (net n link) as [[|c text]|]; simpl; split; congruence.
Qed.

Section EmptyPages.
Context `{UnicodeData} `{UrlLib} `{HtmlLib}.
Variables net1 net2 : network.
Variable self : BlogScraper.
Hypothesis Hnets : forall n link, same_to_callers (net1 n link) (net2 n link).

Lemma turn_lists_same (blog_links rest : list str) (r1 r2 : option str) :
  same_to_callers r1 r2 ->
  turn_lists self blog_links rest r1 = turn_lists self blog_links rest r2.
Proof.
  intros [Htruthy Hsame]. unfold turn_lists. rewrite <- Htruthy.
  destruct (truthy r1); [by rewrite <- (Hsame eq_refl)|done].
Qed.

Lemma frontier_loop_alike (max_pages : Z) (fuel : nat) :
  forall (blog_links pagination_links : list str) (pages_scraped : Z) (st1 st2 : state),
    alike st1 st2 ->
    alike_results
      (frontier_loop net1 self fuel max_pages blog_links pagination_links pages_scraped st1)
      (frontier_loop net2 self fuel max_pages blog_links pagination_links pages_scraped st2).
Proof.
  induction fuel as [|fuel IH]; intros blog_links pagination_links pages_scraped st1 st2 Hst.
  - destruct pagination_links as [|u rest]; [done|]. simpl.
    by destruct (pages_scraped <? max_pages)%Z.
  - destruct pagination_links as [|u rest]; [done|].
    destruct (Z.ltb_spec pages_scraped max_pages) as [Hlt|Hge].
    + rewrite !frontier_loop_turn by done.
      rewrite <- (alike_requests st1 st2 Hst).
      pose proof (Hnets (length (requests (trace st1))) u) as Hr.
      rewrite <- (turn_lists_same blog_links rest _ _ Hr).
      assert (Hgot : quiet (Log (ScrapingPaginationPage u)
                            :: fetch_events u (net1 (length (requests (trace st1))) u))
                     = quiet (Log (ScrapingPaginationPage u)
                              :: fetch_events u (net2 (length (requests (trace st1))) u))).
      { change (?e :: ?a) with ([e] ++ a). by rewrite !quiet_app, !quiet_fetch_events. }
      destruct (turn_lists self blog_links rest _) as [[bl1 pl1]|].
      * apply IH, alike_extend; [done|]. by rewrite !quiet_app, Hgot.
      * split; [done|]. by apply alike_extend.
    + rewrite !frontier_loop_done by (right; lia). done.
Qed.

Lemma post_turn_quiet (i n : nat) (link : str) (r1 r2 : option str) :
  same_to_callers r1 r2 ->
  quiet (post_turn self i n link r1) = quiet (post_turn self i n link r2).
Proof.
  intros [Htruthy Hsame]. unfold post_turn.
  rewrite !quiet_app, !quiet_fetch_events, <- Htruthy.
  destruct (truthy r1); [by rewrite <- (Hsame eq_refl)|done].
Qed.

Lemma scrape_posts_alike (n : nat) (items : list (nat * str)) :
  forall st1 st2 : state,
    alike st1 st2 ->
    alike_results (scrape_posts net1 self n items st1) (scrape_posts net2 self n items st2).
Proof.
  induction items as [|[i link] rest IH]; intros st1 st2 Hst; [done|].
  destruct (decide (link ∈ scraped_urls st1)) as [Hseen|Hnew].
  - rewrite !scrape_posts_skip; [by apply IH| |done].
    by rewrite <- (proj1 Hst).
  - rewrite !scrape_posts_turn; [| |done].
    2: { by rewrite <- (proj1 Hst). }
    apply IH. rewrite <- (alike_requests st1 st2 Hst).
    destruct (Hnets (length (requests (trace st1))) link) as [Htruthy Hsame].
    destruct Hst as [Hs Hq]. split; cbn [scraped_urls trace].
    + rewrite <- Htruthy, Hs. done.
    + rewrite !quiet_app, Hq. f_equal. by apply post_turn_quiet.
Qed.

Lemma scrape_alike (fuel : nat) (max_posts max_pages : Z) (st1 st2 : state) :
  alike st1 st2 ->
  alike_results (scrape net1 self fuel max_posts max_pages st1)
                (scrape net2 self fuel max_posts max_pages st2).
Proof.
  intros Hst. rewrite !scrape_unfold. cbv zeta.
  rewrite <- (alike_requests st1 st2 Hst).
  destruct (Hnets (length (requests (trace st1))) (base_url self)) as [Htruthy Hsame].
  rewrite <- Htruthy.
  assert (Hstart : alike
            (extend st1 ([Log (StartingScrape (base_url self))]
                         ++ fetch_events (base_url self)
                              (net1 (length (requests (trace st1))) (base_url self))))
            (extend st2 ([Log (StartingScrape (base_url self))]
                         ++ fetch_events (base_url self)
                              (net2 (length (requests (trace st1))) (base_url self))))).
  { apply alike_extend; [done|]. by rewrite !quiet_app, !quiet_fetch_events. }
  destruct (truthy (net1 (length (requests (trace st1))) (base_url self))) eqn:Hr.
  - rewrite <- (Hsame eq_refl).
    rewrite <- (Hsame eq_refl) in Hstart.
    destruct (find_blog_links self _) as [seed_links|]; [|done].
    destruct (find_pagination_links self _) as [seed_pagination|]; [|done].
    pose proof (frontier_loop_alike max_pages fuel seed_links seed_pagination
                  1 _ _ Hstart) as Hloop.
    destruct (frontier_loop net1 self fuel max_pages _ _ 1 _)
      as [[[[[bl1 pl1] ps1]|] s1]|];
      destruct (frontier_loop net2 self fuel max_pages _ _ 1 _)
        as [[[[[bl2 pl2] ps2]|] s2]|]; try done;
      try (by destruct Hloop as [? _]); try (by destruct Hloop as [_ ?]; split).
    destruct Hloop as [Heq Hs]. injection Heq as -> -> ->.
    pose proof (scrape_posts_alike (length (capped bl2 max_posts))
                  (enumerate (capped bl2 max_posts) 1)
                  (extend s1 [Log (FoundPosts (length (capped bl2 max_posts)))])
                  (extend s2 [Log (FoundPosts (length (capped bl2 max_posts)))])
                  (alike_extend _ _ _ _ Hs eq_refl)) as Hposts.
    cbv zeta.
    destruct (scrape_posts net1 self _ _ _) as [[[[]|] t1]|];
      destruct (scrape_posts net2 self _ _ _) as [[[[]|] t2]|]; try done;
      try (by destruct Hposts as [? _]).
    destruct Hposts as [_ Ht]. split; [done|].
    apply alike_extend; [done|]. by rewrite (proj1 Ht).
  - split; [done|]. by apply alike_extend.
Qed.

End EmptyPages.

(** C10: an empty body is handled like a failed request.  An empty seed page
    ends the run at once; an empty pagination page adds no link, and an empty
    post page is neither extracted nor saved; and a whole run on a network
    differs from the run on the network with the empty bodies turned into
    failures only in the error lines [fetch_page] logs. *)
Theorem empty_body_is_unusable `{UnicodeData} `{UrlLib} `{HtmlLib}
    (net : network) (self : BlogScraper) (fuel : nat) (max_posts max_pages : Z)
    (st : state) :
  (net (length (requests (trace st))) (base_url self) = Some [] ->
   scrape net self fuel max_posts max_pages st
   = Some (Returned tt,
           extend st [ Log (StartingScrape (base_url self));
                       Get (base_url self);
                       Log (FailedHomepage (base_url self)) ]))
  /\ (forall blog_links page rest pages_scraped,
        (pages_scraped < max_pages)%Z ->
        net (length (requests (trace st))) page = Some [] ->
        frontier_loop net self (S fuel) max_pages blog_links (page :: rest) pages_scraped st
        = frontier_loop net self fuel max_pages blog_links rest (pages_scraped + 1)
            (extend st [ Log (ScrapingPaginationPage page); Get page; Sleep (delay self) ]))
  /\ (forall n i link rest,
        link ∉ scraped_urls st ->
        net (length (requests (trace st))) link = Some [] ->
        scrape_posts net self n ((i, link) :: rest) st
        = scrape_posts net self n rest
            (extend st [ Log (ScrapingPost i n link); Get link; Sleep (delay self) ]))
  /\ match scrape net self fuel max_posts max_pages st,
           scrape (empty_as_failure net) self fuel max_posts max_pages st with
     | Some (o1, st1), Some (o2, st2) =>
         o1 = o2
         /\ scraped_urls st1 = scraped_urls st2
         /\ quiet (trace st1) = quiet (trace st2)
         /\ requests (trace st1) = requests (trace st2)
         /\ writes (trace st1) = writes (trace st2)
     | None, None => True
     | _, _ => False
     end.
Proof.
  split_and!.
  - intros Hseed. rewrite scrape_seed_unusable by (by rewrite Hseed).
    by rewrite Hseed.
  - intros blog_links page rest pages_scraped Hlt Hpage.
    rewrite frontier_loop_turn by done. by rewrite Hpage.
  - intros n i link rest Hnew Hlink.
    rewrite scrape_posts_turn by done. by rewrite Hlink.
  - pose proof (scrape_alike net (empty_as_failure net) self (empty_as_failure_same net)
                  fuel max_posts max_pages st st (conj eq_refl eq_refl)) as Hrun.
    destruct (scrape net self fuel max_posts max_pages st) as [[o1 st1]|];
      destruct (scrape (empty_as_failure net) self fuel max_posts max_pages st)
        as [[o2 st2]|]; try done.
    destruct Hrun as [Ho [Hs Hq]]. split_and!; try done.
    + by rewrite <- (requests_quiet (trace st1)), Hq, requests_quiet.
    + by rewrite <- (writes_quiet (trace st1)), Hq, writes_quiet.
Qed.

Lemma empty_body_is_unusable_witness :
  @scrape ascii_tables urllib_parse.cpython site_lib blank_net example_scraper
    4 50 5 fresh
  = Some (Returned tt,
          extend fresh [ Log (StartingScrape (base_url example_scraper));
                         Get (base_url example_scraper);
                         Log (FailedHomepage (base_url example_scraper)) ])
  /\ @frontier_loop ascii_tables urllib_parse.cpython site_lib blank_net example_scraper
       4 5 [] [py "https://www.example.com/blog/page/2"] 1 fresh
     = @frontier_loop ascii_tables urllib_parse.cpython site_lib blank_net example_scraper
         3 5 [] [] (1 + 1)
         (extend fresh [ Log (ScrapingPaginationPage (py "https://www.example.com/blog/page/2"));
                         Get (py "https://www.example.com/blog/page/2");
                         Sleep (delay example_scraper) ])
  /\ @scrape_posts ascii_tables site_lib site_net example_scraper
       1 [(1, py "https://www.example.com/blog/c")] fresh
     = @scrape_posts ascii_tables site_lib site_net example_scraper 1 []
         (extend fresh [ Log (ScrapingPost 1 1 (py "https://www.example.com/blog/c"));
                         Get (py "https://www.example.com/blog/c");
                         Sleep (delay example_scraper) ]).
Proof.
  split_and!.
  - apply (proj1 (@empty_body_is_unusable ascii_tables urllib_parse.cpython site_lib
                    blank_net example_scraper 4 50 5 fresh)).
    reflexivity.
  - apply (proj1 (proj2 (@empty_body_is_unusable ascii_tables urllib_parse.cpython site_lib
                           blank_net example_scraper 3 50 5 fresh))); [lia | reflexivity].
  - apply (proj1 (proj2 (proj2 (@empty_body_is_unusable ascii_tables urllib_parse.cpython
                                  site_lib site_net example_scraper 0 50 5 fresh)))).
    + set_solver.
    + reflexivity.
Defined.

(** * Further properties *)

(** ** The link classifiers, link by link *)

(** X1: what [find_blog_links] returns has no duplicate, and every link in
    it is on the scraper's domain and is the resolved [href] of a tag of the
    page. *)
Theorem find_blog_links_sound `{UnicodeData} `{UrlLib} `{HtmlLib}
    (self : BlogScraper) (html_content : str) (links : list str) (u : str) :
  find_blog_links self html_content = Some links ->
  u ∈ links ->
  NoDup links
  /\ netloc u = Some (domain self)
  /\ exists link href,
       link ∈ Bs4.tags (BeautifulSoup html_content)
       /\ Bs4.get link (py "href") = Some href
       /\ urljoin (base_url self) href = Some u.
Proof.
  intros Hlinks Hu. split; [by eapply find_blog_links_NoDup|].
  split.
  { pose proof (find_blog_links_on_domain self _ _ Hlinks) as Hdom.
    rewrite Forall_forall in Hdom. by apply Hdom. }
  apply find_blog_links_Some in Hlinks as (selected & Hsel & Hcases).
  destruct Hcases as [[_ ->]|[_ (more & Hmore & ->)]]; rewrite list_set_elem in Hu.
  - apply (selector_links_Some self _ _ _ Hsel) in Hu
      as (selector & link & href & _ & Hlink & Hhref & _ & Hjoin & _).
    exists link, href. split_and!; [by eapply select_tags|done|done].
  - apply (fallback_links_Some self _ _ _ Hmore) in Hu
      as (link & href & Hlink & Hhref & Hjoin & _).
    exists link, href. split_and!; [by eapply find_all_tags|done|done].
Qed.

Lemma find_blog_links_sound_witness :
  NoDup (list_set [py "https://www.example.com/blog/a"; py "https://www.example.com/blog/b"])
  /\ @netloc urllib_parse.cpython (py "https://www.example.com/blog/a")
     = Some (domain example_scraper)
  /\ exists link href,
       link ∈ Bs4.tags (@BeautifulSoup site_lib (py "<html>listing</html>"))
       /\ Bs4.get link (py "href") = Some href
       /\ @urljoin urllib_parse.cpython (base_url example_scraper) href
          = Some (py "https://www.example.com/blog/a").
Proof.
  apply (@find_blog_links_sound ascii_tables urllib_parse.cpython site_lib example_scraper
           (py "<html>listing</html>")
           (list_set [py "https://www.example.com/blog/a";
                      py "https://www.example.com/blog/b"])
           (py "https://www.example.com/blog/a")).
  - vm_compute. reflexivity.
  - apply list_set_elem. by left.
Defined.

(** X2: [find_blog_links] returns the resolved [href] of every element that
    any of its selectors selects, when the [href] is not empty, starts with
    neither [#] nor [javascript:], and resolves to the scraper's domain: the
    matches of all selectors are kept, not those of the first one only. *)
Theorem find_blog_links_keeps_selected `{UnicodeData} `{UrlLib} `{HtmlLib}
    (self : BlogScraper) (html_content : str) (links : list str) (selector : string)
    (link : node) (href u : str) :
  find_blog_links self html_content = Some links ->
  selector ∈ post_selectors ->
  link ∈ select (BeautifulSoup html_content) selector ->
  Bs4.get link (py "href") = Some href ->
  href <> [] ->
  Str.startswith href (py "#") = false ->
  Str.startswith href (py "javascript:") = false ->
  urljoin (base_url self) href = Some u ->
  netloc u = Some (domain self) ->
  u ∈ links.
Proof.
  intros Hlinks Hsel Hlink Hhref Hne Hfrag Hjs Hjoin Hdom.
  apply find_blog_links_Some in Hlinks as (selected & Hselected & Hcases).
  assert (Hu : u ∈ selected).
  { apply (selector_links_Some self _ _ _ Hselected). exists selector, link, href.
    by split_and!. }
  destruct Hcases as [[_ ->]|[-> _]]; [by apply list_set_elem|by apply elem_of_nil in Hu].
Qed.

Lemma find_blog_links_keeps_selected_witness :
  py "https://www.example.com/blog/b"
  ∈ list_set [py "https://www.example.com/blog/a"; py "https://www.example.com/blog/b"].
Proof.
  apply (@find_blog_links_keeps_selected ascii_tables urllib_parse.cpython site_lib
           example_scraper (py "<html>listing</html>")
           (list_set [py "https://www.example.com/blog/a";
                      py "https://www.example.com/blog/b"])
           "article a"
           (Tag (py "a") [(py "href", py "/blog/b")] [NavigableString (py "B")])
           (py "/blog/b") (py "https://www.example.com/blog/b")).
  - vm_compute. reflexivity.
  - by left.
  - apply list_elem_of_In. vm_compute. tauto.
  - reflexivity.
  - discriminate.
  - reflexivity.
  - reflexivity.
  - vm_compute. reflexivity.
  - vm_compute. reflexivity.
Defined.

(** X3: once the selectors have produced a link, the fallback is not run
    and nothing else is returned: the result is the set of the selected links,
    each the resolved [href] of an element some selector selects, and that
    [href] starts with neither [#] nor [javascript:]. *)
Theorem find_blog_links_selected_only `{UnicodeData} `{UrlLib} `{HtmlLib}
    (self : BlogScraper) (html_content : str) (selected : list str) :
  selector_links self (BeautifulSoup html_content) = Some selected ->
  selected <> [] ->
  find_blog_links self html_content = Some (list_set selected)
  /\ forall u, u ∈ list_set selected ->
       exists selector link href,
         selector ∈ post_selectors
         /\ link ∈ select (BeautifulSoup html_content) selector
         /\ Bs4.get link (py "href") = Some href
         /\ href <> []
         /\ Str.startswith href (py "#") = false
         /\ Str.startswith href (py "javascript:") = false
         /\ urljoin (base_url self) href = Some u.
Proof.
  intros Hselected Hsome. split.
  - apply find_blog_links_Some. exists selected. split; [done|by left].
  - intros u Hu. rewrite list_set_elem in Hu.
    apply (selector_links_Some self _ _ _ Hselected) in Hu
      as (selector & link & href & Hsel & Hlink & Hhref & (Hne & Hfrag & Hjs) & Hjoin & _).
    exists selector, link, href. by split_and!.
Qed.

Lemma find_blog_links_selected_only_witness :
  @find_blog_links ascii_tables urllib_parse.cpython site_lib example_scraper
    (py "<html>listing</html>")
  = Some (list_set [py "https://www.example.com/blog/a"; py "https://www.example.com/blog/b"])
  /\ forall u,
       u ∈ list_set [py "https://www.example.com/blog/a"; py "https://www.example.com/blog/b"] ->
       exists selector link href,
         selector ∈ post_selectors
         /\ link ∈ select (@BeautifulSoup site_lib (py "<html>listing</html>")) selector
         /\ Bs4.get link (py "href") = Some href
         /\ href <> []
         /\ Str.startswith href (py "#") = false
         /\ Str.startswith href (py "javascript:") = false
         /\ @urljoin urllib_parse.cpython (base_url example_scraper) href = Some u.
Proof.
  apply (@find_blog_links_selected_only ascii_tables urllib_parse.cpython site_lib
           example_scraper (py "<html>listing</html>")
           [py "https://www.example.com/blog/a"; py "https://www.example.com/blog/b"]).
  - vm_compute. reflexivity.
  - discriminate.
Defined.

(** X4: when the selectors produce no link, what [find_blog_links] returns
    is exactly the resolved [href]s of the anchors carrying [href] that are
    on the scraper's domain and end like a post URL; no prefix of the [href]
    is looked at. *)
Theorem find_blog_links_fallback `{UnicodeData} `{UrlLib} `{HtmlLib}
    (self : BlogScraper) (html_content : str) (links : list str) (u : str) :
  selector_links self (BeautifulSoup html_content) = Some [] ->
  find_blog_links self html_content = Some links ->
  u ∈ links
  <-> exists link href,
        link ∈ Bs4.find_all (BeautifulSoup html_content) (py "a") (py "href")
        /\ Bs4.get link (py "href") = Some href
        /\ urljoin (base_url self) href = Some u
        /\ netloc u = Some (domain self)
        /\ Patterns.looks_like_post u = true.
Proof.
  intros Hnone Hlinks.
  apply find_blog_links_Some in Hlinks as (selected & Hselected & Hcases).
  rewrite Hnone in Hselected. injection Hselected as <-.
  destruct Hcases as [[? _]|[_ (more & Hmore & ->)]]; [done|].
  rewrite list_set_elem. by apply fallback_links_Some.
Qed.

Lemma find_blog_links_fallback_witness :
  py "https://www.example.com/blog#/blog/hello"
    ∈ list_set [py "https://www.example.com/blog#/blog/hello";
                py "javascript://www.example.com/blog/x"]
  <-> exists link href,
        link ∈ Bs4.find_all (@BeautifulSoup marker_lib (py "<html>jump</html>"))
                 (py "a") (py "href")
        /\ Bs4.get link (py "href") = Some href
        /\ @urljoin urllib_parse.cpython (base_url example_scraper) href
           = Some (py "https://www.example.com/blog#/blog/hello")
        /\ @netloc urllib_parse.cpython (py "https://www.example.com/blog#/blog/hello")
           = Some (domain example_scraper)
        /\ @Patterns.looks_like_post ascii_tables
             (py "https://www.example.com/blog#/blog/hello") = true.
Proof.
  apply (@find_blog_links_fallback ascii_tables urllib_parse.cpython marker_lib
           example_scraper (py "<html>jump</html>")
           (list_set [py "https://www.example.com/blog#/blog/hello";
                      py "javascript://www.example.com/blog/x"])
           (py "https://www.example.com/blog#/blog/hello")).
  - vm_compute. reflexivity.
  - vm_compute. reflexivity.
Defined.

(** X5: what [find_pagination_links] returns is, without duplicates,
    exactly the resolved [href]s of the elements its selectors select whose
    [href] is not empty, does not start with [#], and resolves to the
    scraper's domain. *)
Theorem find_pagination_links_spec `{UrlLib} `{HtmlLib}
    (self : BlogScraper) (html_content : str) (links : list str) (u : str) :
  find_pagination_links self html_content = Some links ->
  NoDup links
  /\ (u ∈ links
      <-> exists selector link href,
            selector ∈ pagination_selectors
            /\ link ∈ select (BeautifulSoup html_content) selector
            /\ Bs4.get link (py "href") = Some href
            /\ href <> []
            /\ Str.startswith href (py "#") = false
            /\ urljoin (base_url self) href = Some u
            /\ netloc u = Some (domain self)).
Proof.
  intros Hlinks. split; [by eapply find_pagination_links_NoDup|].
  apply find_pagination_links_Some in Hlinks as (found & Hfound & ->).
  rewrite list_set_elem. by apply pagination_links_of_Some.
Qed.

Lemma find_pagination_links_spec_witness :
  NoDup [py "javascript://www.example.com/next"]
  /\ (py "javascript://www.example.com/next" ∈ [py "javascript://www.example.com/next"]
      <-> exists selector link href,
            selector ∈ pagination_selectors
            /\ link ∈ select (@BeautifulSoup marker_lib (py "<html>pager</html>")) selector
            /\ Bs4.get link (py "href") = Some href
            /\ href <> []
            /\ Str.startswith href (py "#") = false
            /\ @urljoin urllib_parse.cpython (base_url example_scraper) href
               = Some (py "javascript://www.example.com/next")
            /\ @netloc urllib_parse.cpython (py "javascript://www.example.com/next")
               = Some (domain example_scraper)).
Proof.
  apply (@find_pagination_links_spec urllib_parse.cpython marker_lib example_scraper
           (py "<html>pager</html>") [py "javascript://www.example.com/next"]
           (py "javascript://www.example.com/next")).
  vm_compute. reflexivity.
Defined.

(** X6: there is no fallback for pagination: a page on which no pagination
    selector selects anything has no pagination link, whatever its anchors
    are, and no URL call is made for it. *)
Theorem find_pagination_links_no_match `{UrlLib} `{HtmlLib}
    (self : BlogScraper) (html_content : str) :
  (forall selector, selector ∈ pagination_selectors ->
     select (BeautifulSoup html_content) selector = []) ->
  find_pagination_links self html_content = Some [].
Proof.
  intros Hnone. apply find_pagination_links_Some. exists [].
  split; [|by rewrite list_set_nil].
  unfold pagination_links_of. apply collect_nil.
  intros selector Hsel. by rewrite (Hnone selector Hsel).
Qed.

Lemma find_pagination_links_no_match_witness :
  @find_pagination_links urllib_parse.cpython marker_lib example_scraper
    (py "<html>jump</html>") = Some [].
Proof.
  apply (@find_pagination_links_no_match urllib_parse.cpython marker_lib example_scraper
           (py "<html>jump</html>")).
  intros selector Hsel.
  repeat (apply elem_of_cons in Hsel as [->|Hsel]; [reflexivity|]).
  by apply elem_of_nil in Hsel.
Defined.

(** ** The URL patterns of the fallback *)

Section PatternLanguages.
Import Re.

Lemma matches_cat_iff (r1 r2 : regex) (s : str) :
  matches (Cat r1 r2) s <-> exists s1 s2, s = s1 ++ s2 /\ matches r1 s1 /\ matches r2 s2.
Proof.
  split.
  - intros Hm. inversion Hm; subst. by eexists _, _.
  - intros (s1 & s2 & -> & H1 & H2). by constructor.
Qed.

Lemma matches_alt_iff (r1 r2 : regex) (s : str) :
  matches (Alt r1 r2) s <-> matches r1 s \/ matches r2 s.
Proof.
  split.
  - intros Hm. inversion Hm; subst; [by left | by right].
  - intros [Hm|Hm]; [by apply matches_alt_l | by apply matches_alt_r].
Qed.

Lemma matches_eps_iff (s : str) : matches Eps s <-> s = [].
Proof. split; [intros Hm; by inversion Hm | intros ->; constructor]. Qed.

Lemma matches_void_iff (s : str) : matches Void s <-> False.
Proof. split; [intros Hm; inversion Hm | done]. Qed.

Lemma matches_chr_iff (c : char) (s : str) : matches (Chr c) s <-> s = [c].
Proof. split; [intros Hm; by inversion Hm | intros ->; constructor]. Qed.

Lemma matches_class_iff (p : char -> bool) (s : str) :
  matches (Class p) s <-> exists c, s = [c] /\ p c = true.
Proof.
  split.
  - intros Hm. inversion Hm; subst. by eexists.
  - intros (c & -> & Hp). by constructor.
Qed.

Lemma matches_lit_iff (t s : str) : matches (Lit t) s <-> s = t.
Proof.
  revert s. induction t as [|c t IH]; intros s; simpl.
  - apply matches_eps_iff.
  - rewrite matches_cat_iff. split.
    + intros (s1 & s2 & -> & H1 & H2). apply matches_chr_iff in H1 as ->.
      apply IH in H2 as ->. reflexivity.
    + intros ->. exists [c], t. split_and!; [done|constructor|by apply IH].
Qed.

Lemma matches_star_class (p : char -> bool) (s : str) :
  matches (Star (Class p)) s <-> Forall (fun c => p c = true) s.
Proof.
  split.
  - intros Hm. remember (Star (Class p)) as r eqn:Hr.
    induction Hm; try discriminate; [constructor|].
    injection Hr as ->. apply Forall_app. split; [|by apply IHHm2].
    apply matches_class_iff in Hm1 as (c & -> & Hp). by repeat constructor.
  - induction 1 as [|c s Hc Hs IH]; [constructor|].
    change (c :: s) with ([c] ++ s). constructor; [by constructor|done].
Qed.

Lemma matches_plus_class (p : char -> bool) (s : str) :
  matches (Plus (Class p)) s <-> s <> [] /\ Forall (fun c => p c = true) s.
Proof.
  unfold Plus. rewrite matches_cat_iff. split.
  - intros (s1 & s2 & -> & H1 & H2). apply matches_class_iff in H1 as (c & -> & Hp).
    apply matches_star_class in H2. split; [done|]. by constructor.
  - intros [Hne Hall]. destruct s as [|c s]; [done|]. inversion Hall; subst.
    exists [c], s. split_and!; [done|by constructor|by apply matches_star_class].
Qed.

Lemma matches_times_class (p : char -> bool) (n : nat) (s : str) :
  matches (Times n (Class p)) s <-> length s = n /\ Forall (fun c => p c = true) s.
Proof.
  revert s. induction n as [|n IH]; intros s; simpl.
  - rewrite matches_eps_iff. split; [by intros ->|].
    intros [Hlen _]. by apply nil_length_inv.
  - rewrite matches_cat_iff. split.
    + intros (s1 & s2 & -> & H1 & H2). apply matches_class_iff in H1 as (c & -> & Hp).
      apply IH in H2 as [Hlen Hall]. simpl. split; [by rewrite Hlen|by constructor].
    + intros [Hlen Hall]. destruct s as [|c s]; [discriminate|]. inversion Hall; subst.
      exists [c], s. split_and!; [done|by constructor|].
      apply IH. split; [by injection Hlen|done].
Qed.

Lemma matches_opt_slash (s : str) :
  matches (Opt Patterns.slash) s <-> s = [] \/ s = py "/".
Proof.
  unfold Opt, Patterns.slash. rewrite matches_alt_iff, matches_lit_iff, matches_eps_iff.
  tauto.
Qed.

(** The part the three patterns share: [[a-zA-Z0-9\-]+/?]. *)
Lemma matches_slug_tail (s : str) :
  matches (Patterns.seq [Patterns.slug; Opt Patterns.slash]) s
  <-> exists slug t,
        s = slug ++ t /\ slug <> [] /\ Forall (fun c => slug_char c = true) slug
        /\ (t = [] \/ t = py "/").
Proof.
  unfold Patterns.seq, Patterns.slug. simpl. rewrite matches_cat_iff. split.
  - intros (s1 & s2 & -> & H1 & H2). apply matches_plus_class in H1 as [Hne Hall].
    apply matches_cat_iff in H2 as (t & e & -> & Ht & He).
    apply matches_eps_iff in He as ->. apply matches_opt_slash in Ht.
    exists s1, t. rewrite app_nil_r. by split_and!.
  - intros (slug & t & -> & Hne & Hall & Ht). exists slug, t.
    split_and!; [done|by apply matches_plus_class|].
    apply matches_cat_iff. exists t, []. rewrite app_nil_r.
    split_and!; [done|by apply matches_opt_slash|constructor].
Qed.

End PatternLanguages.

Section PostUrls.
Import Re.
Context `{UnicodeData}.

Lemma matches_sections (s : str) :
  matches (Patterns.alts [Lit (py "post"); Lit (py "blog"); Lit (py "article");
                          Lit (py "entry")]) s
  <-> s ∈ post_sections.
Proof.
  unfold Patterns.alts, post_sections.
  cbn [foldr map]. rewrite !matches_alt_iff, !matches_lit_iff, matches_void_iff.
  rewrite !elem_of_cons, elem_of_nil. tauto.
Qed.

(** A pattern [/<dirs>/[a-zA-Z0-9\-]+/?]. *)
Lemma matches_dir_slug (dirs : regex) (mid : str) :
  matches (Patterns.seq [Patterns.slash; dirs; Patterns.slash; Patterns.slug;
                         Opt Patterns.slash]) mid
  <-> exists dir slug t,
        mid = py "/" ++ dir ++ py "/" ++ slug ++ t
        /\ matches dirs dir
        /\ slug <> [] /\ Forall (fun c => slug_char c = true) slug
        /\ (t = [] \/ t = py "/").
Proof.
  change (Patterns.seq [Patterns.slash; dirs; Patterns.slash; Patterns.slug;
                        Opt Patterns.slash])
    with (Cat Patterns.slash
            (Cat dirs (Cat Patterns.slash
                         (Patterns.seq [Patterns.slug; Opt Patterns.slash])))).
  split.
  - intros Hm.
    apply matches_cat_iff in Hm as (s1 & r1 & -> & Hs1 & Hm).
    apply matches_cat_iff in Hm as (dir & r2 & -> & Hdir & Hm).
    apply matches_cat_iff in Hm as (s2 & r3 & -> & Hs2 & Hm).
    apply matches_lit_iff in Hs1 as ->. apply matches_lit_iff in Hs2 as ->.
    apply matches_slug_tail in Hm as (slug & t & -> & Hne & Hall & Ht).
    exists dir, slug, t. by split_and!.
  - intros (dir & slug & t & -> & Hdir & Hne & Hall & Ht).
    apply matches_cat_iff. exists (py "/"), (dir ++ py "/" ++ slug ++ t).
    split_and!; [done|by apply matches_lit_iff|].
    apply matches_cat_iff. exists dir, (py "/" ++ slug ++ t). split_and!; [done|done|].
    apply matches_cat_iff. exists (py "/"), (slug ++ t).
    split_and!; [done|by apply matches_lit_iff|].
    apply matches_slug_tail. exists slug, t. by split_and!.
Qed.

Lemma matches_dated_slug (mid : str) :
  matches Patterns.dated_slug mid
  <-> exists dir slug t,
        mid = py "/" ++ dir ++ py "/" ++ slug ++ t
        /\ date_path dir
        /\ slug <> [] /\ Forall (fun c => slug_char c = true) slug
        /\ (t = [] \/ t = py "/").
Proof.
  change Patterns.dated_slug
    with (Cat Patterns.slash
            (Cat (Times 4 (Class re_digit))
               (Cat Patterns.slash
                  (Cat (Times 2 (Class re_digit))
                     (Cat Patterns.slash
                        (Cat (Times 2 (Class re_digit))
                           (Cat Patterns.slash
                              (Patterns.seq [Patterns.slug; Opt Patterns.slash])))))))).
  split.
  - intros Hm.
    apply matches_cat_iff in Hm as (s1 & r1 & -> & Hs1 & Hm).
    apply matches_cat_iff in Hm as (y & r2 & -> & Hy & Hm).
    apply matches_cat_iff in Hm as (s2 & r3 & -> & Hs2 & Hm).
    apply matches_cat_iff in Hm as (m & r4 & -> & Hmm & Hm).
    apply matches_cat_iff in Hm as (s3 & r5 & -> & Hs3 & Hm).
    apply matches_cat_iff in Hm as (d & r6 & -> & Hd & Hm).
    apply matches_cat_iff in Hm as (s4 & r7 & -> & Hs4 & Hm).
    apply matches_lit_iff in Hs1 as ->. apply matches_lit_iff in Hs2 as ->.
    apply matches_lit_iff in Hs3 as ->. apply matches_lit_iff in Hs4 as ->.
    apply matches_times_class in Hy as [Hyl Hya].
    apply matches_times_class in Hmm as [Hml Hma].
    apply matches_times_class in Hd as [Hdl Hda].
    apply matches_slug_tail in Hm as (slug & t & -> & Hne & Hall & Ht).
    exists (y ++ py "/" ++ m ++ py "/" ++ d), slug, t. split_and!; try done.
    + by rewrite <- !app_assoc.
    + exists y, m, d. split_and!; try done. by rewrite !Forall_app.
  - intros (dir & slug & t & -> & (y & m & d & -> & Hyl & Hml & Hdl & Hdig) & Hne & Hall & Ht).
    rewrite !Forall_app in Hdig. destruct Hdig as (Hya & Hma & Hda).
    rewrite <- !app_assoc.
    apply matches_cat_iff. eexists (py "/"), _. split_and!; [done|by apply matches_lit_iff|].
    apply matches_cat_iff. eexists y, _. split_and!; [done|by apply matches_times_class|].
    apply matches_cat_iff. eexists (py "/"), _. split_and!; [done|by apply matches_lit_iff|].
    apply matches_cat_iff. eexists m, _. split_and!; [done|by apply matches_times_class|].
    apply matches_cat_iff. eexists (py "/"), _. split_and!; [done|by apply matches_lit_iff|].
    apply matches_cat_iff. eexists d, _. split_and!; [done|by apply matches_times_class|].
    apply matches_cat_iff. eexists (py "/"), _. split_and!; [done|by apply matches_lit_iff|].
    apply matches_slug_tail. exists slug, t. by split_and!.
Qed.

(** From the matched text to the whole URL: [re.search] lets anything come
    before, and [$] lets a newline come after. *)
Lemma search_dir_slug (r : regex) (D : str -> Prop) (u : str) :
  (forall mid,
     matches r mid
     <-> exists dir slug t,
           mid = py "/" ++ dir ++ py "/" ++ slug ++ t
           /\ D dir /\ slug <> [] /\ Forall (fun c => slug_char c = true) slug
           /\ (t = [] \/ t = py "/")) ->
  search_dollar r u = true
  <-> exists pre dir slug trail,
        u = pre ++ py "/" ++ dir ++ py "/" ++ slug ++ trail
        /\ D dir /\ slug <> [] /\ Forall (fun c => slug_char c = true) slug
        /\ trail ∈ url_endings.
Proof.
  intros Hr. rewrite search_dollar_spec. unfold url_endings. split.
  - intros (pre & mid & post & -> & Hm & Hpost).
    apply Hr in Hm as (dir & slug & t & -> & Hdir & Hne & Hall & Ht).
    exists pre, dir, slug, (t ++ post). split_and!; try done.
    + by rewrite <- !app_assoc.
    + rewrite !elem_of_cons.
      destruct Ht as [-> | ->], Hpost as [-> | ->]; simpl; tauto.
  - intros (pre & dir & slug & trail & -> & Hdir & Hne & Hall & Htrail).
    rewrite !elem_of_cons, elem_of_nil in Htrail.
    assert (Hsplit : exists t post, trail = t ++ post /\ (t = [] \/ t = py "/")
                                    /\ (post = [] \/ post = [10%N])).
    { destruct Htrail as [-> | [-> | [-> | [-> | []]]]].
      - exists [], []. tauto.
      - exists (py "/"), []. tauto.
      - exists [], [10%N]. tauto.
      - exists (py "/"), [10%N]. tauto. }
    destruct Hsplit as (t & post & -> & Ht & Hpost).
    exists pre, (py "/" ++ dir ++ py "/" ++ slug ++ t), post. split_and!; [|apply Hr|done].
    + by rewrite <- !app_assoc.
    + exists dir, slug, t. by split_and!.
Qed.

End PostUrls.

Section PostUrlTheorems.
Import Re.
Context `{UnicodeData}.

Lemma search_section_slug (u : str) :
  search_dollar Patterns.section_slug u = true
  <-> exists pre dir slug trail,
        u = pre ++ py "/" ++ dir ++ py "/" ++ slug ++ trail
        /\ dir ∈ post_sections /\ slug <> []
        /\ Forall (fun c => slug_char c = true) slug /\ trail ∈ url_endings.
Proof.
  apply search_dir_slug. intros mid. unfold Patterns.section_slug.
  rewrite matches_dir_slug. split.
  - intros (dir & slug & t & -> & Hdir & Hrest). apply matches_sections in Hdir.
    by exists dir, slug, t.
  - intros (dir & slug & t & -> & Hdir & Hrest). apply matches_sections in Hdir.
    by exists dir, slug, t.
Qed.

Lemma search_dated_slug (u : str) :
  search_dollar Patterns.dated_slug u = true
  <-> exists pre dir slug trail,
        u = pre ++ py "/" ++ dir ++ py "/" ++ slug ++ trail
        /\ date_path dir /\ slug <> []
        /\ Forall (fun c => slug_char c = true) slug /\ trail ∈ url_endings.
Proof. apply search_dir_slug, matches_dated_slug. Qed.

Lemma search_blog_slug (u : str) :
  search_dollar Patterns.blog_slug u = true
  <-> exists pre dir slug trail,
        u = pre ++ py "/" ++ dir ++ py "/" ++ slug ++ trail
        /\ dir = py "blog" /\ slug <> []
        /\ Forall (fun c => slug_char c = true) slug /\ trail ∈ url_endings.
Proof.
  apply search_dir_slug. intros mid. unfold Patterns.blog_slug.
  rewrite matches_dir_slug. split.
  - intros (dir & slug & t & -> & Hdir & Hrest). apply matches_lit_iff in Hdir.
    by exists dir, slug, t.
  - intros (dir & slug & t & -> & Hdir & Hrest). apply matches_lit_iff in Hdir.
    by exists dir, slug, t.
Qed.

Lemma blog_slug_is_section_slug (u : str) :
  search_dollar Patterns.blog_slug u = true ->
  search_dollar Patterns.section_slug u = true.
Proof.
  rewrite search_blog_slug, search_section_slug.
  intros (pre & dir & slug & trail & -> & -> & Hrest).
  exists pre, (py "blog"), slug, trail. split_and!; try apply Hrest; [done|].
  unfold post_sections. simpl. right. by left.
Qed.

End PostUrlTheorems.

(** X7: the URLs the fallback of [find_blog_links] takes for posts are
    exactly those that end in [/<dir>/<slug>], where [<dir>] is [post], [blog],
    [article], [entry] or a date path [YYYY/MM/DD] and [<slug>] is a non-empty
    run of letters, digits and hyphens, followed by an optional slash and an
    optional final newline; what comes before is not looked at. *)
Theorem looks_like_post_spec `{UnicodeData} (u : str) :
  Patterns.looks_like_post u = true
  <-> exists pre dir slug trail,
        u = pre ++ py "/" ++ dir ++ py "/" ++ slug ++ trail
        /\ (dir ∈ post_sections \/ date_path dir)
        /\ slug <> []
        /\ Forall (fun c => slug_char c = true) slug
        /\ trail ∈ url_endings.
Proof.
  unfold Patterns.looks_like_post. rewrite !orb_true_iff.
  rewrite search_section_slug, search_dated_slug. split.
  - intros [[Hs|Hd]|Hb].
    + destruct Hs as (pre & dir & slug & trail & Hu & Hdir & Hrest).
      exists pre, dir, slug, trail. split_and!; try apply Hrest; [done|by left].
    + destruct Hd as (pre & dir & slug & trail & Hu & Hdir & Hrest).
      exists pre, dir, slug, trail. split_and!; try apply Hrest; [done|by right].
    + apply blog_slug_is_section_slug, search_section_slug in Hb
        as (pre & dir & slug & trail & Hu & Hdir & Hrest).
      exists pre, dir, slug, trail. split_and!; try apply Hrest; [done|by left].
  - intros (pre & dir & slug & trail & Hu & [Hdir|Hdir] & Hrest); left.
    + left. by exists pre, dir, slug, trail.
    + right. by exists pre, dir, slug, trail.
Qed.

(** X8: the third [re.search] of the fallback never decides: a URL that
    matches [/blog/<slug>] already matches the first pattern, which lists
    [blog] among its directories. *)
Theorem third_pattern_never_decides `{UnicodeData} (u : str) :
  Patterns.looks_like_post u
  = Re.search_dollar Patterns.section_slug u || Re.search_dollar Patterns.dated_slug u.
Proof.
  unfold Patterns.looks_like_post.
  destruct (Re.search_dollar Patterns.blog_slug u) eqn:Hblog;
    [|by rewrite orb_false_r].
  by rewrite (blog_slug_is_section_slug u Hblog).
Qed.

(** ** The content extractor, field by field *)

Lemma select_one_none (doc : soup) (selector : string) :
  select doc selector = [] -> select_one doc selector = None.
Proof. unfold select_one. by intros ->. Qed.

Lemma select_one_none_inv (doc : soup) (selector : string) :
  select_one doc selector = None -> select doc selector = [].
Proof. unfold select_one. by destruct (select doc selector). Qed.

Lemma nonempty_none {A} (l : list A) : nonempty l = None <-> l = [].
Proof. by destruct l. Qed.

(** X9: a field whose selectors select nothing keeps its empty default, and
    [url] is the link passed in; a page on which nothing is selected gives the
    empty record for that link. *)
Theorem extract_blog_content_defaults `{HtmlLib} (html_content link : str) :
  (forall selector,
     selector ∈ title_selectors ++ date_selectors ++ author_selectors
                ++ category_selectors ++ content_selectors ->
     select (BeautifulSoup html_content) selector = []) ->
  extract_blog_content html_content link
  = {| url := link; title := []; date := []; author := []; content := [];
       raw_html := []; categories := [] |}.
Proof.
  intros Hnone. unfold extract_blog_content.
  rewrite (first_hit_none (select_one _) title_selectors),
    (first_hit_none (select_one _) date_selectors),
    (first_hit_none (select_one _) author_selectors),
    (first_hit_none _ category_selectors),
    (first_hit_none (select_one _) content_selectors); [done|..].
  - intros s Hs. apply select_one_none, Hnone. rewrite !elem_of_app. tauto.
  - intros s Hs. apply nonempty_none, Hnone. rewrite !elem_of_app. tauto.
  - intros s Hs. apply select_one_none, Hnone. rewrite !elem_of_app. tauto.
  - intros s Hs. apply select_one_none, Hnone. rewrite !elem_of_app. tauto.
  - intros s Hs. apply select_one_none, Hnone. rewrite !elem_of_app. tauto.
Qed.

Lemma extract_blog_content_defaults_witness :
  @extract_blog_content (parsed_pages [(py "<html>about</html>", about_page)])
    (py "<html>about</html>") (py "https://www.example.com/about")
  = {| url := py "https://www.example.com/about"; title := []; date := [];
       author := []; content := []; raw_html := []; categories := [] |}.
Proof.
  apply (@extract_blog_content_defaults
           (parsed_pages [(py "<html>about</html>", about_page)])).
  intros selector Hsel.
  repeat (apply elem_of_cons in Hsel as [->|Hsel]; [reflexivity|]).
  by apply elem_of_nil in Hsel.
Defined.

(** Fields do not depend on one another: each is decided by its own
    selectors. *)
Lemma first_hit_ext {A B} (f g : A -> option B) (xs : list A) :
  (forall x, x ∈ xs -> f x = g x) -> first_hit f xs = first_hit g xs.
Proof.
  induction xs as [|x xs IH]; intros Hfg; simpl; [done|].
  rewrite <- (Hfg x) by left. destruct (f x); [done|].
  apply IH. intros y Hy. apply Hfg. by right.
Qed.

(** A selector that can only match where an earlier one matches never
    decides a loop with [break]. *)
Lemma first_hit_skip {A B} (f : A -> option B) (pre : list A) (x : A) (post : list A) :
  f x = None -> first_hit f (pre ++ x :: post) = first_hit f (pre ++ post).
Proof.
  intros Hx. induction pre as [|p pre IH]; simpl; [by rewrite Hx|].
  by destruct (f p).
Qed.

Lemma first_hit_shadowed {A B} (f : A -> option B) (pre : list A) (x0 x : A)
    (post : list A) :
  x0 ∈ pre -> (f x0 = None -> f x = None) ->
  first_hit f (pre ++ x :: post) = first_hit f (pre ++ post).
Proof.
  intros Hin Hshadow. induction pre as [|p pre IH]; [by apply elem_of_nil in Hin|].
  simpl. destruct (f p) eqn:Hp; [done|].
  apply elem_of_cons in Hin as [->|Hin]; [|by apply IH].
  by apply first_hit_skip, Hshadow.
Qed.

Lemma select_node_weaker (strong weak : Css.selector) (n : node) :
  (forall anc el, Css.matches strong anc el = true -> Css.matches weak anc el = true) ->
  forall anc x, x ∈ Css.select_node strong anc n -> x ∈ Css.select_node weak anc n.
Proof.
  intros Himp.
  induction n as [s|s|container s|name attrs contents IH] using node_induction; intros anc x; simpl;
    [done | done | done |].
  rewrite !elem_of_app. intros [Hhere|Hbelow].
  - left. destruct (Css.matches strong anc (name, attrs)) eqn:Hm;
      [|by apply elem_of_nil in Hhere].
    by rewrite (Himp _ _ Hm).
  - right. apply elem_of_flat_map in Hbelow as (c & Hc & Hx).
    apply elem_of_flat_map. exists c. split; [done|].
    rewrite Forall_forall in IH. by apply (IH c Hc).
Qed.

Lemma select_weaker (doc : soup) (strong weak : string) (s1 s2 : Css.selector) :
  Css.parse strong = Some s1 -> Css.parse weak = Some s2 ->
  (forall anc el, Css.matches s1 anc el = true -> Css.matches s2 anc el = true) ->
  select_one doc weak = None -> select_one doc strong = None.
Proof.
  intros Hp1 Hp2 Himp Hnone. apply select_one_none_inv in Hnone.
  apply select_one_none. unfold select in *. rewrite Hp1. rewrite Hp2 in Hnone.
  apply elem_of_nil_inv. intros x Hx.
  apply elem_of_flat_map in Hx as (n & Hn & Hx).
  apply (select_node_weaker s1 s2 n Himp) in Hx.
  assert (Hin : x ∈ Css.select_in s2 [] doc) by (apply elem_of_flat_map; by exists n).
  rewrite Hnone in Hin. by apply elem_of_nil in Hin.
Qed.

Lemma match_chain_nil (anc : list (str * list (str * str))) : Css.match_chain [] anc = true.
Proof. by destruct anc. Qed.

(** Solves [matches strong -> matches weak] for two parsed selectors of the
    program, by cases on the tests the strong one makes. *)
Ltac weaker_selector :=
  intros anc el;
  cbn [Css.matches existsb Css.matches_complex rev app];
  unfold Css.matches_compound;
  cbn [Css.c_tag Css.c_classes Css.c_attribs forallb];
  rewrite ?match_chain_nil;
  repeat match goal with
         | |- context [Str.eqb ?a ?b] => destruct (Str.eqb a b)
         | |- context [bool_decide ?P] => destruct (bool_decide P)
         | |- context [Css.match_chain ?a ?b] => destruct (Css.match_chain a b)
         end;
  cbn [andb orb]; congruence.

Lemma shadowed_by_h1 (doc : soup) (selector : string) :
  selector ∈ ["h1.post-title"; "h1.entry-title"; "article h1"]%string ->
  select_one doc "h1" = None -> select_one doc selector = None.
Proof.
  intros Hsel.
  repeat (apply elem_of_cons in Hsel as [->|Hsel];
          [eapply select_weaker;
           [vm_compute; reflexivity | vm_compute; reflexivity | weaker_selector] |]).
  by apply elem_of_nil in Hsel.
Qed.

Lemma shadowed_date (doc : soup) :
  (select_one doc ".date" = None -> select_one doc "span.date" = None)
  /\ (select_one doc "time" = None -> select_one doc ".post-meta time" = None).
Proof.
  split; (eapply select_weaker;
          [vm_compute; reflexivity | vm_compute; reflexivity | weaker_selector]).
Qed.

Lemma shadowed_author (doc : soup) :
  select_one doc ".author" = None -> select_one doc "a.author" = None.
Proof.
  eapply select_weaker;
    [vm_compute; reflexivity | vm_compute; reflexivity | weaker_selector].
Qed.

Lemma title_selectors_pruned (doc : soup) :
  first_hit (select_one doc) title_selectors
  = first_hit (select_one doc) ["h1"; ".post-title"; ".entry-title"]%string.
Proof.
  etransitivity;
    [apply (first_hit_shadowed (select_one doc) ["h1"%string] "h1"%string "h1.post-title"%string
              ["h1.entry-title"; ".post-title"; ".entry-title"; "article h1"]%string);
     [by left | apply shadowed_by_h1; set_solver] |].
  etransitivity;
    [apply (first_hit_shadowed (select_one doc) ["h1"%string] "h1"%string "h1.entry-title"%string
              [".post-title"; ".entry-title"; "article h1"]%string);
     [by left | apply shadowed_by_h1; set_solver] |].
  etransitivity;
    [apply (first_hit_shadowed (select_one doc)
              ["h1"; ".post-title"; ".entry-title"]%string "h1"%string "article h1"%string []);
     [by left | apply shadowed_by_h1; set_solver] |].
  reflexivity.
Qed.

Lemma date_selectors_pruned (doc : soup) :
  first_hit (select_one doc) date_selectors
  = first_hit (select_one doc)
      [".post-date"; ".entry-date"; ".published"; "time"; ".date";
       "meta[property='article:published_time']"]%string.
Proof.
  etransitivity;
    [apply (first_hit_shadowed (select_one doc)
              [".post-date"; ".entry-date"; ".published"; "time"; ".date";
               "meta[property='article:published_time']"]%string
              ".date"%string "span.date"%string [".post-meta time"%string]);
     [set_solver | apply shadowed_date] |].
  etransitivity;
    [apply (first_hit_shadowed (select_one doc)
              [".post-date"; ".entry-date"; ".published"; "time"; ".date";
               "meta[property='article:published_time']"]%string
              "time"%string ".post-meta time"%string []);
     [set_solver | apply shadowed_date] |].
  reflexivity.
Qed.

Lemma author_selectors_pruned (doc : soup) :
  first_hit (select_one doc) author_selectors
  = first_hit (select_one doc)
      [".author"; ".entry-author"; ".post-author"; "meta[name='author']";
       ".author-name"; ".byline"]%string.
Proof.
  apply (first_hit_shadowed (select_one doc) [".author"; ".entry-author"]%string
           ".author"%string "a.author"%string
           [".post-author"; "meta[name='author']"; ".author-name"; ".byline"]%string);
    [set_solver | apply shadowed_author].
Qed.

(** X10: six selectors of [extract_blog_content] never decide a field,
    because whatever they select an earlier selector of the same list selects
    too: [h1.post-title], [h1.entry-title] and [article h1] for the title,
    [span.date] and [.post-meta time] for the date, [a.author] for the author.
    The three fields are what the shortened lists give. *)
Theorem extract_blog_content_shadowed_selectors `{HtmlLib} (html_content link : str) :
  title (extract_blog_content html_content link)
  = match first_hit (select_one (BeautifulSoup html_content))
            ["h1"; ".post-title"; ".entry-title"]%string with
    | Some (_, title_elem) => Str.strip (Bs4.get_text title_elem)
    | None => []
    end
  /\ date (extract_blog_content html_content link)
     = match first_hit (select_one (BeautifulSoup html_content))
             [".post-date"; ".entry-date"; ".published"; "time"; ".date";
              "meta[property='article:published_time']"]%string with
       | Some (selector, date_elem) =>
           if String.eqb selector "meta[property='article:published_time']"
           then Bs4.get_default date_elem (py "content") []
           else Str.strip (Bs4.get_text date_elem)
       | None => []
       end
  /\ author (extract_blog_content html_content link)
     = match first_hit (select_one (BeautifulSoup html_content))
             [".author"; ".entry-author"; ".post-author"; "meta[name='author']";
              ".author-name"; ".byline"]%string with
       | Some (selector, author_elem) =>
           if String.eqb selector "meta[name='author']"
           then Bs4.get_default author_elem (py "content") []
           else Str.strip (Bs4.get_text author_elem)
       | None => []
       end.
Proof.
  unfold extract_blog_content. cbn [title date author].
  rewrite title_selectors_pruned, date_selectors_pruned, author_selectors_pruned.
  done.
Qed.

(** X11: when none of the five text selectors for the date selects
    anything, the date is the [content] attribute of the first
    [article:published_time] meta tag, as written (it is not trimmed), and
    the empty string when the tag has no such attribute. *)
Theorem date_from_meta `{HtmlLib} (html_content link : str) (meta : node) :
  (forall selector,
     selector ∈ [".post-date"; ".entry-date"; ".published"; "time"; ".date"]%string ->
     select (BeautifulSoup html_content) selector = []) ->
  select_one (BeautifulSoup html_content) "meta[property='article:published_time']"
  = Some meta ->
  date (extract_blog_content html_content link)
  = match Bs4.get meta (py "content") with
    | Some value => value
    | None => []
    end.
Proof.
  intros Hnone Hmeta. unfold extract_blog_content. cbn [date].
  change date_selectors
    with ([".post-date"; ".entry-date"; ".published"; "time"; ".date"]%string
          ++ "meta[property='article:published_time']"%string
             :: ["span.date"; ".post-meta time"]%string).
  rewrite (first_hit_at (select_one (BeautifulSoup html_content)) _ _ _ meta); [|  | done].
  - unfold Bs4.get_default. by destruct (Bs4.get meta (py "content")).
  - intros s Hs. by apply select_one_none, Hnone.
Qed.

(** A page whose publication-time meta tag has no [content] attribute, and
    whose author is given by a meta tag with blanks around the name. *)
Lemma date_from_meta_witness :
  date (@extract_blog_content
          (parsed_pages
             [(py "<html>meta</html>",
               [Tag (py "meta") [(py "property", py "article:published_time")] [];
                Tag (py "meta") [(py "name", py "author"); (py "content", py " Ann ")] []])])
          (py "<html>meta</html>") (py "https://www.example.com/blog/m"))
  = match Bs4.get (Tag (py "meta") [(py "property", py "article:published_time")] [])
            (py "content") with
    | Some value => value
    | None => []
    end.
Proof.
  apply (@date_from_meta
           (parsed_pages
              [(py "<html>meta</html>",
                [Tag (py "meta") [(py "property", py "article:published_time")] [];
                 Tag (py "meta") [(py "name", py "author"); (py "content", py " Ann ")] []])])
           (py "<html>meta</html>") (py "https://www.example.com/blog/m")).
  - intros selector Hsel.
    repeat (apply elem_of_cons in Hsel as [->|Hsel]; [reflexivity|]).
    by apply elem_of_nil in Hsel.
  - reflexivity.
Defined.

(** X12: when none of the four selectors that come before it selects
    anything, the author is the [content] attribute of the first
    [meta[name='author']] tag, as written, blanks included, and the empty
    string when the attribute is missing. *)
Theorem author_from_meta `{HtmlLib} (html_content link : str) (meta : node) :
  (forall selector,
     selector ∈ [".author"; ".entry-author"; "a.author"; ".post-author"]%string ->
     select (BeautifulSoup html_content) selector = []) ->
  select_one (BeautifulSoup html_content) "meta[name='author']" = Some meta ->
  author (extract_blog_content html_content link)
  = match Bs4.get meta (py "content") with
    | Some value => value
    | None => []
    end.
Proof.
  intros Hnone Hmeta. unfold extract_blog_content. cbn [author].
  change author_selectors
    with ([".author"; ".entry-author"; "a.author"; ".post-author"]%string
          ++ "meta[name='author']"%string :: [".author-name"; ".byline"]%string).
  rewrite (first_hit_at (select_one (BeautifulSoup html_content)) _ _ _ meta); [|  | done].
  - unfold Bs4.get_default. by destruct (Bs4.get meta (py "content")).
  - intros s Hs. by apply select_one_none, Hnone.
Qed.

Lemma author_from_meta_witness :
  author (@extract_blog_content
            (parsed_pages
               [(py "<html>meta</html>",
                 [Tag (py "meta") [(py "property", py "article:published_time")] [];
                  Tag (py "meta") [(py "name", py "author"); (py "content", py " Ann ")] []])])
            (py "<html>meta</html>") (py "https://www.example.com/blog/m"))
  = py " Ann ".
Proof.
  apply (@author_from_meta
           (parsed_pages
              [(py "<html>meta</html>",
                [Tag (py "meta") [(py "property", py "article:published_time")] [];
                 Tag (py "meta") [(py "name", py "author"); (py "content", py " Ann ")] []])])
           (py "<html>meta</html>") (py "https://www.example.com/blog/m")
           (Tag (py "meta") [(py "name", py "author"); (py "content", py " Ann ")] [])).
  - intros selector Hsel.
    repeat (apply elem_of_cons in Hsel as [->|Hsel]; [reflexivity|]).
    by apply elem_of_nil in Hsel.
  - reflexivity.
Defined.

(** *** Scripts and styles in the content *)

Lemma without_tag (sel : Css.selector) (name : str) (attrs : list (str * str))
    (contents : list node) :
  Css.without sel (Tag name attrs contents)
  = Tag name attrs
      (flat_map (fun c => if Css.node_matches sel c then [] else [Css.without sel c])
         contents).
Proof.
  simpl. f_equal. induction contents as [|c contents IH]; [done|].
  simpl. rewrite IH. by destruct (Css.node_matches sel c).
Qed.

Lemma node_matches_without (sel : Css.selector) (n : node) :
  Css.node_matches sel (Css.without sel n) = Css.node_matches sel n.
Proof. by destruct n. Qed.

Lemma without_clean (sel : Css.selector) (n : node) :
  Css.node_matches sel n = false ->
  Forall (fun t => Css.node_matches sel t = false) (Bs4.tags_of (Css.without sel n)).
Proof.
  induction n as [s|s|container s|name attrs contents IH] using node_induction; intros Hn;
    [constructor | constructor | constructor |].
  rewrite without_tag. cbn [Bs4.tags_of]. constructor; [exact Hn|].
  clear Hn. induction contents as [|c contents IHc]; [constructor|].
  inversion IH as [|? ? Hc Hrest]; subst. simpl.
  destruct (Css.node_matches sel c) eqn:Hm; simpl.
  - by apply IHc.
  - rewrite ?app_nil_r. apply Forall_app. split; [by apply Hc | by apply IHc].
Qed.

Lemma without_below_clean (sel : Css.selector) (n : node) :
  Forall (fun t => Css.node_matches sel t = false) (tags_below (Css.without sel n)).
Proof.
  destruct n as [s|s|container s|name attrs contents];
    [constructor | constructor | constructor |].
  rewrite without_tag. cbn [tags_below].
  induction contents as [|c contents IH]; [constructor|]. simpl.
  destruct (Css.node_matches sel c) eqn:Hm; simpl; [done|].
  rewrite ?app_nil_r. apply Forall_app. split; [by apply without_clean | done].
Qed.

Lemma without_unchanged (sel : Css.selector) (n : node) :
  Forall (fun t => Css.node_matches sel t = false) (Bs4.tags_of n) ->
  Css.without sel n = n.
Proof.
  induction n as [s|s|container s|name attrs contents IH] using node_induction; [done | done | done |].
  intros Hclean. rewrite without_tag. f_equal.
  cbn [Bs4.tags_of] in Hclean. apply Forall_cons in Hclean as [_ Hclean].
  induction contents as [|c contents IHc]; [done|].
  inversion IH as [|? ? Hc Hrest]; subst. simpl in *.
  apply Forall_app in Hclean as [Hhere Hlater].
  assert (Hm : Css.node_matches sel c = false).
  { destruct c as [s|s|container s|nm at' cs]; [done | done | done |].
    cbn [Bs4.tags_of] in Hhere. by apply Forall_cons in Hhere as [Hm _]. }
  rewrite Hm. simpl. rewrite (Hc Hhere). f_equal. by apply IHc.
Qed.

Lemma without_below_unchanged (sel : Css.selector) (n : node) :
  Forall (fun t => Css.node_matches sel t = false) (tags_below n) ->
  Css.without sel n = n.
Proof.
  destruct n as [s|s|container s|name attrs contents]; [done | done | done |].
  intros Hclean. rewrite without_tag. f_equal. cbn [tags_below] in Hclean.
  induction contents as [|c contents IH]; [done|]. simpl in *.
  apply Forall_app in Hclean as [Hhere Hlater].
  assert (Hm : Css.node_matches sel c = false).
  { destruct c as [s|s|container s|nm at' cs]; [done | done | done |].
    cbn [Bs4.tags_of] in Hhere. by apply Forall_cons in Hhere as [Hm _]. }
  rewrite Hm. simpl. f_equal; [by apply without_unchanged | by apply IH].
Qed.

Lemma script_style_matches (n : node) :
  Css.node_matches [[{| Css.c_tag := Some (py "script"); Css.c_classes := [];
                        Css.c_attribs := [] |}];
                    [{| Css.c_tag := Some (py "style"); Css.c_classes := [];
                        Css.c_attribs := [] |}]] n
  = script_or_style n.
Proof.
  destruct n as [s|s|container s|name attrs contents]; [done | done | done |].
  unfold Css.node_matches, script_or_style.
  cbn [Css.matches existsb Css.matches_complex rev app].
  unfold Css.matches_compound. cbn [Css.c_tag Css.c_classes Css.c_attribs forallb fst].
  rewrite !match_chain_nil, !andb_true_r, orb_false_r.
  unfold Str.eqb. rewrite (bool_decide_ext (py "script" = name) (name = py "script")),
    (bool_decide_ext (py "style" = name) (name = py "style")); [done|split; congruence..].
Qed.

(** X13: in the content step of [extract_blog_content], once every
    [script] and [style] below the container has been decomposed, no tag below
    it is a [script] or a [style]; [content] is the trimmed text of that
    cleaned container and [raw_html] its markup; a container that held none is
    left as it was. *)
Theorem content_without_scripts `{HtmlLib} (html_content link : str)
    (selector : string) (content_elem : node) :
  first_hit (select_one (BeautifulSoup html_content)) content_selectors
  = Some (selector, content_elem) ->
  content (extract_blog_content html_content link)
  = Str.strip (Bs4.get_text (decompose_all content_elem "script, style"))
  /\ raw_html (extract_blog_content html_content link)
     = tag_str (decompose_all content_elem "script, style")
  /\ Forall (fun t => script_or_style t = false)
       (tags_below (decompose_all content_elem "script, style"))
  /\ (Forall (fun t => script_or_style t = false) (tags_below content_elem) ->
      decompose_all content_elem "script, style" = content_elem).
Proof.
  intros Hhit. unfold extract_blog_content. cbn [content raw_html]. rewrite Hhit.
  split; [done|]. split; [done|].
  change (decompose_all content_elem "script, style")
    with (Css.without
            [[{| Css.c_tag := Some (py "script"); Css.c_classes := [];
                 Css.c_attribs := [] |}];
             [{| Css.c_tag := Some (py "style"); Css.c_classes := [];
                 Css.c_attribs := [] |}]] content_elem).
  split.
  - eapply Forall_impl; [apply without_below_clean|].
    intros t Ht. by rewrite <- script_style_matches.
  - intros Hclean. apply without_below_unchanged.
    eapply Forall_impl; [exact Hclean|]. intros t Ht. by rewrite script_style_matches.
Qed.

Lemma content_without_scripts_witness :
  content (@extract_blog_content scenario_lib (py "<html>scenario</html>")
             (py "https://www.example.com/blog/title"))
  = Str.strip (Bs4.get_text
                 (decompose_all
                    (entry_content (py "track('x');") (py "First paragraph. ")
                       (py "Second paragraph."))
                    "script, style"))
  /\ Forall (fun t => script_or_style t = false)
       (tags_below
          (decompose_all
             (entry_content (py "track('x');") (py "First paragraph. ")
                (py "Second paragraph."))
             "script, style")).
Proof.
  destruct (@content_without_scripts scenario_lib (py "<html>scenario</html>")
              (py "https://www.example.com/blog/title") ".entry-content"
              (entry_content (py "track('x');") (py "First paragraph. ")
                 (py "Second paragraph.")))
    as (Hcontent & _ & Hclean & _); [reflexivity|].
  by split.
Defined.

(** ** Where a post is saved *)

Section SavedFiles.
Context `{UnicodeData}.

Lemma save_filename_eq (data : post_data) :
  save_filename data = take 50 (map sanitized (filename_source data)) ++ py ".json".
Proof.
  unfold save_filename, filename_base, filename_source.
  rewrite slice_to_nonneg by lia. change (Z.to_nat 50) with 50. f_equal. f_equal.
  rewrite !re_sub_unsafe_map.
  destruct (Str.falsy (title data)); simpl; [|done].
  by destruct (Str.last_item (Str.split 47%N (url data))).
Qed.

Lemma safe_is_not_slash (c : char) : unsafe_char c = false -> c <> 47%N.
Proof. intros Hsafe ->. discriminate. Qed.

Lemma save_filename_no_slash (data : post_data) :
  Forall (fun c => c <> 47%N) (save_filename data).
Proof.
  rewrite save_filename_eq. apply Forall_app. split.
  - apply Forall_take, Forall_forall. intros c Hc.
    apply list_elem_of_fmap in Hc as (c' & -> & _).
    apply safe_is_not_slash, sanitized_safe.
  - repeat constructor; discriminate.
Qed.

Lemma startswith_app (p s : str) : Str.startswith (p ++ s) p = true.
Proof. induction p as [|c p IH]; simpl; [by destruct s|]. by rewrite N.eqb_refl. Qed.

Lemma endswith_app (s t : str) : Str.endswith (s ++ t) t = true.
Proof. unfold Str.endswith. rewrite rev_app_distr. apply startswith_app. Qed.

End SavedFiles.

(** X14: the name [save_post] gives a file holds no slash and ends in
    [.json], so the file is written directly inside [output_folder]: the
    path is the folder, a slash unless the folder is empty or already ends in
    one, and the name. *)
Theorem save_post_stays_in_output_folder `{UnicodeData} (self : BlogScraper)
    (data : post_data) :
  Forall (fun c => c <> 47%N) (save_filename data)
  /\ Str.endswith (save_filename data) (py ".json") = true
  /\ save_filepath self data
     = output_folder self
       ++ (if Str.falsy (output_folder self) || Str.endswith (output_folder self) (py "/")
           then [] else py "/")
       ++ save_filename data.
Proof.
  pose proof (save_filename_no_slash data) as Hname.
  split; [exact Hname|]. split.
  - rewrite save_filename_eq. apply endswith_app.
  - unfold save_filepath, os_path_join.
    assert (Hstart : Str.startswith (save_filename data) (py "/") = false).
    { destruct (save_filename data) as [|c name]; [done|].
      apply Forall_cons in Hname as [Hc _]. cbn [py map list_ascii_of_string Str.startswith].
      apply andb_false_iff. left. by apply N.eqb_neq. }
    rewrite Hstart.
    by destruct (Str.falsy (output_folder self) || Str.endswith (output_folder self) (py "/")).
Qed.

(** X15: two records with non-empty titles get the same file name exactly
    when the first 50 characters of their titles agree once the unsafe
    characters are replaced, whatever their URLs and whatever follows in the
    titles: [save_post] opens that one name for writing for both. *)
Theorem save_filename_collision `{UnicodeData} (d1 d2 : post_data) :
  title d1 <> [] -> title d2 <> [] ->
  save_filename d1 = save_filename d2
  <-> map sanitized (take 50 (title d1)) = map sanitized (take 50 (title d2)).
Proof.
  intros H1 H2. rewrite !save_filename_eq. unfold filename_source.
  destruct (title d1) as [|c1 t1]; [done|]. destruct (title d2) as [|c2 t2]; [done|].
  cbn [Str.falsy negb]. rewrite <- !firstn_map. split.
  - by intros Heq%app_inv_tail.
  - by intros ->.
Qed.

Lemma save_filename_collision_witness :
  @save_filename ascii_tables
    {| url := py "https://www.example.com/blog/a"; title := py "Q&A: part 1";
       date := []; author := []; content := []; raw_html := []; categories := [] |}
  = @save_filename ascii_tables
      {| url := py "https://www.example.com/blog/b"; title := py "Q/A; part 1";
         date := []; author := []; content := []; raw_html := []; categories := [] |}
  <-> map (@sanitized ascii_tables) (take 50 (py "Q&A: part 1"))
      = map (@sanitized ascii_tables) (take 50 (py "Q/A; part 1")).
Proof.
  apply (@save_filename_collision ascii_tables
           {| url := py "https://www.example.com/blog/a"; title := py "Q&A: part 1";
              date := []; author := []; content := []; raw_html := []; categories := [] |}
           {| url := py "https://www.example.com/blog/b"; title := py "Q/A; part 1";
              date := []; author := []; content := []; raw_html := []; categories := [] |});
    discriminate.
Defined.

(** ** The run, request by request *)

Section RunEffects.
Context `{UnicodeData} `{UrlLib} `{HtmlLib}.
Variable net : network.
Variable self : BlogScraper.

(** The effects of a whole run, however it ends. *)
Lemma scrape_effects (fuel : nat) (max_posts max_pages : Z) (st : state) :
  Z.to_nat (max_pages - 1) <= fuel ->
  exists o st' tr,
    scrape net self fuel max_posts max_pages st = Some (o, st')
    /\ trace st' = trace st ++ tr
    /\ scraped_urls st'
       = scraped_urls st ∪ list_to_set (map (fun w => url w.2) (writes tr))
    /\ sleeps tr
       = replicate (length (requests tr) - match o with Returned _ => 1 | Raised => 2 end)
           (delay self)
    /\ (forall u, u ∈ requests tr -> u = base_url self \/ netloc u = Some (domain self))
    /\ (forall w, w ∈ writes tr ->
          exists k html,
            net k (url w.2) = Some html /\ html <> []
            /\ w.2 = extract_blog_content html (url w.2)
            /\ w.1 = save_filepath self w.2)
    /\ NoDup (map (fun w => url w.2) (writes tr))
    /\ (forall w, w ∈ writes tr -> url w.2 ∉ scraped_urls st)
    /\ (o = Raised ->
        writes tr = [] /\ requests tr = base_url self :: announced tr
        /\ forall n, Log (FoundPosts n) ∉ tr).
Proof.
  intros Hfuel. run_cases net self fuel max_posts max_pages st Hfuel.
  - set (posts := capped accumulated max_posts) in *.
    exists (Returned tt), (extend st2 [Log (ScrapingCompleted (size (scraped_urls st2)))]),
      ([Log (StartingScrape (base_url self)); Get (base_url self)] ++ tr_loop
       ++ [Log (FoundPosts (length posts))] ++ tr_posts
       ++ [Log (ScrapingCompleted (size (scraped_urls st2)))]).
    destruct Ho as (_ & Hsl & _ & _ & _ & Hbdom & _).
    specialize (Hreqd (find_pagination_links_on_domain self _ _ Hpl)).
    specialize (Hbdom (find_blog_links_on_domain self _ _ Hbl)).
    assert (Hwrites : writes
                        ([Log (StartingScrape (base_url self)); Get (base_url self)]
                         ++ tr_loop ++ [Log (FoundPosts (length posts))] ++ tr_posts
                         ++ [Log (ScrapingCompleted (size (scraped_urls st2)))])
                      = writes tr_posts).
    { rewrite !writes_app, Hwr. simpl. by rewrite app_nil_r. }
    assert (Hrequests : requests
                          ([Log (StartingScrape (base_url self)); Get (base_url self)]
                           ++ tr_loop ++ [Log (FoundPosts (length posts))] ++ tr_posts
                           ++ [Log (ScrapingCompleted (size (scraped_urls st2)))])
                        = base_url self :: requests tr_loop ++ requests tr_posts).
    { rewrite !requests_app. simpl. by rewrite app_nil_r. }
    rewrite Hwrites, Hrequests.
    assert (Hwritten : forall w, w ∈ writes tr_posts ->
                         url w.2 ∈ posts /\ url w.2 ∉ scraped_urls st).
    { intros w Hw.
      assert (Hin : url w.2 ∈ requests tr_posts).
      { eapply elem_of_sublist; [|exact Hpsub].
        apply list_elem_of_fmap. by exists w. }
      rewrite Hpfil in Hin. by apply list_elem_of_filter in Hin as [Hnot Hin]. }
    split_and!.
    + exact Hrun.
    + cbn [extend trace]. rewrite Htr. by rewrite <- !app_assoc.
    + exact Hs.
    + rewrite !sleeps_app, Hsl, Hpsl. simpl.
      rewrite length_app, Nat.sub_0_r, app_nil_r. by rewrite replicate_add.
    + intros u Hu. apply elem_of_cons in Hu as [->|Hu]; [by left|]. right.
      apply elem_of_app in Hu as [Hu|Hu].
      * rewrite Forall_forall in Hreqd. by apply Hreqd.
      * rewrite Hpfil in Hu. apply list_elem_of_filter in Hu as [_ Hu].
        apply capped_elem in Hu. rewrite Forall_forall in Hbdom. by apply Hbdom.
    + intros w Hw. by destruct (Hpw w Hw) as [_ Hpage].
    + eapply sublist_NoDup; [|exact Hpsub]. rewrite Hpfil.
      apply NoDup_filter, capped_NoDup.
    + intros w Hw. by apply Hwritten.
    + done.
  - exists Raised, (extend (after_seed self st) tr_loop),
      ([Log (StartingScrape (base_url self)); Get (base_url self)] ++ tr_loop).
    destruct Ho as (Hsl & tr0 & page & html' & Htr0 & _).
    specialize (Hreqd (find_pagination_links_on_domain self _ _ Hpl)).
    assert (Hpos : exists m, length (requests tr_loop) = S m).
    { rewrite Htr0, requests_app, length_app. simpl.
      exists (length (requests tr0)). lia. }
    destruct Hpos as [m Hm].
    rewrite !writes_app, !requests_app, !sleeps_app, !announced_app, Hwr, Hsl, Hann.
    simpl. rewrite Hm. simpl. rewrite Nat.sub_0_r.
    split_and!; try done.
    + cbn [extend after_seed trace]. by rewrite <- !app_assoc.
    + by rewrite (right_id_L ∅ (∪)).
    + intros u Hu. apply elem_of_cons in Hu as [->|Hu]; [by left|]. right.
      rewrite Forall_forall in Hreqd. by apply Hreqd.
    + intros w Hw. by apply elem_of_nil in Hw.
    + constructor.
    + intros w Hw. by apply elem_of_nil in Hw.
    + intros _. split_and!; [done|done|].
      intros n Hin. rewrite !elem_of_cons in Hin.
      destruct Hin as [Hin|[Hin|Hin]]; try discriminate.
      rewrite Forall_forall in Hev. apply (Hev _ Hin).
  - exists Raised, (after_seed self st),
      [Log (StartingScrape (base_url self)); Get (base_url self)].
    simpl. split_and!; try done.
    + by rewrite (right_id_L ∅ (∪)).
    + intros u Hu. apply list_elem_of_singleton in Hu. by left.
    + intros w Hw. by apply elem_of_nil in Hw.
    + constructor.
    + intros w Hw. by apply elem_of_nil in Hw.
    + intros _. split_and!; [done|done|].
      intros n Hin. rewrite !elem_of_cons in Hin.
      destruct Hin as [Hin|[Hin|Hin]]; try discriminate. by apply elem_of_nil in Hin.
  - exists Raised, (after_seed self st),
      [Log (StartingScrape (base_url self)); Get (base_url self)].
    simpl. split_and!; try done.
    + by rewrite (right_id_L ∅ (∪)).
    + intros u Hu. apply list_elem_of_singleton in Hu. by left.
    + intros w Hw. by apply elem_of_nil in Hw.
    + constructor.
    + intros w Hw. by apply elem_of_nil in Hw.
    + intros _. split_and!; [done|done|].
      intros n Hin. rewrite !elem_of_cons in Hin.
      destruct Hin as [Hin|[Hin|Hin]]; try discriminate. by apply elem_of_nil in Hin.
  - eexists (Returned tt), _, _. split; [exact Hrun|]. split; [reflexivity|].
    rewrite !writes_app, !requests_app, !sleeps_app, fetch_events_writes,
      fetch_events_requests, fetch_events_sleeps.
    simpl. split_and!; try done.
    + by rewrite (right_id_L ∅ (∪)).
    + intros u Hu. apply list_elem_of_singleton in Hu. by left.
    + intros w Hw. by apply elem_of_nil in Hw.
    + constructor.
    + intros w Hw. by apply elem_of_nil in Hw.
Qed.

End RunEffects.



(** X17: after a run, however it ends, [scraped_urls] is what it was before
    together with the URLs of the records the run has written: a link is
    marked as scraped when, and only when, its record is saved. *)
Theorem scraped_urls_are_the_saved_ones `{UnicodeData} `{UrlLib} `{HtmlLib}
    (net : network) (self : BlogScraper) (fuel : nat) (max_posts max_pages : Z)
    (st : state) :
  Z.to_nat (max_pages - 1) <= fuel ->
  exists o st' tr,
    scrape net self fuel max_posts max_pages st = Some (o, st')
    /\ trace st' = trace st ++ tr
    /\ scraped_urls st'
       = scraped_urls st ∪ list_to_set (map (fun w => url w.2) (writes tr)).
Proof.
  intros Hfuel.
  destruct (scrape_effects net self fuel max_posts max_pages st Hfuel)
    as (o & st' & tr & Hrun & Htr & Hs & _).
  by exists o, st', tr.
Qed.

Lemma scraped_urls_are_the_saved_ones_witness :
  exists o st' tr,
    site_run = Some (o, st')
    /\ trace st' = trace fresh ++ tr
    /\ scraped_urls st'
       = scraped_urls fresh ∪ list_to_set (map (fun w => url w.2) (writes tr)).
Proof.
  apply (@scraped_urls_are_the_saved_ones ascii_tables urllib_parse.cpython site_lib
           site_net example_scraper 4 50 5 fresh).
  simpl. lia.
Defined.

(** X18: a run that returns has slept [delay] seconds once for every
    request it made after the one for the seed page, and not at all when the
    seed page is its only request; a run that ends on the exception of a
    classifier has missed the sleep of the request whose page raised it. *)
Theorem one_sleep_per_later_request `{UnicodeData} `{UrlLib} `{HtmlLib}
    (net : network) (self : BlogScraper) (fuel : nat) (max_posts max_pages : Z)
    (st : state) :
  Z.to_nat (max_pages - 1) <= fuel ->
  exists o st' tr,
    scrape net self fuel max_posts max_pages st = Some (o, st')
    /\ trace st' = trace st ++ tr
    /\ sleeps tr
       = replicate (length (requests tr) - match o with Returned _ => 1 | Raised => 2 end)
           (delay self).
Proof.
  intros Hfuel.
  destruct (scrape_effects net self fuel max_posts max_pages st Hfuel)
    as (o & st' & tr & Hrun & Htr & _ & Hsl & _).
  by exists o, st', tr.
Qed.

Lemma one_sleep_per_later_request_witness :
  exists o st' tr,
    site_run = Some (o, st')
    /\ trace st' = trace fresh ++ tr
    /\ sleeps tr
       = replicate (length (requests tr) - match o with Returned _ => 1 | Raised => 2 end)
           (delay example_scraper).
Proof.
  apply (@one_sleep_per_later_request ascii_tables urllib_parse.cpython site_lib
           site_net example_scraper 4 50 5 fresh).
  simpl. lia.
Defined.

(** X19: a run stays on the site: every URL it requests is the seed URL or
    has the scraper's domain as its network location. *)
Theorem requests_stay_on_domain `{UnicodeData} `{UrlLib} `{HtmlLib}
    (net : network) (self : BlogScraper) (fuel : nat) (max_posts max_pages : Z)
    (st : state) :
  Z.to_nat (max_pages - 1) <= fuel ->
  exists o st' tr,
    scrape net self fuel max_posts max_pages st = Some (o, st')
    /\ trace st' = trace st ++ tr
    /\ forall u, u ∈ requests tr -> u = base_url self \/ netloc u = Some (domain self).
Proof.
  intros Hfuel.
  destruct (scrape_effects net self fuel max_posts max_pages st Hfuel)
    as (o & st' & tr & Hrun & Htr & _ & _ & Hdom & _).
  by exists o, st', tr.
Qed.

Lemma requests_stay_on_domain_witness :
  exists o st' tr,
    site_run = Some (o, st')
    /\ trace st' = trace fresh ++ tr
    /\ forall u, u ∈ requests tr ->
         u = base_url example_scraper
         \/ @netloc urllib_parse.cpython u = Some (domain example_scraper).
Proof.
  apply (@requests_stay_on_domain ascii_tables urllib_parse.cpython site_lib
           site_net example_scraper 4 50 5 fresh).
  simpl. lia.
Defined.

(** X20: the frontier loop ends, and when it returns it has only appended
    to the accumulated post links, and a queue without duplicates has stayed
    without duplicates: a pagination link is queued only when it is not
    waiting in the queue already. *)
Theorem frontier_loop_queue `{UnicodeData} `{UrlLib} `{HtmlLib}
    (net : network) (self : BlogScraper) (fuel : nat) (max_pages : Z)
    (blog_links pagination_links : list str) (pages_scraped : Z) (st : state) :
  Z.to_nat (max_pages - pages_scraped) <= fuel ->
  NoDup pagination_links ->
  exists o st',
    frontier_loop net self fuel max_pages blog_links pagination_links pages_scraped st
    = Some (o, st')
    /\ match o with
       | Returned (blog_links', pagination_links', _) =>
           blog_links `prefix_of` blog_links' /\ NoDup pagination_links'
       | Raised => True
       end.
Proof.
  intros Hfuel Hnd.
  destruct (frontier_loop_run net self max_pages fuel blog_links pagination_links
              pages_scraped st Hfuel)
    as (o & tr & Hrun & _ & _ & _ & _ & _ & Ho).
  exists o, (extend st tr). split; [done|].
  destruct o as [[[bl pl] ps]|]; [|done].
  destruct Ho as (_ & _ & Hpre & Hq & _). split; [done|by apply Hq].
Qed.

Lemma frontier_loop_queue_witness :
  exists o st',
    @frontier_loop ascii_tables urllib_parse.cpython site_lib site_net example_scraper
      4 5 [py "https://www.example.com/blog/a"]
      [py "https://www.example.com/blog/page/2"] 1 fresh
    = Some (o, st')
    /\ match o with
       | Returned (blog_links', pagination_links', _) =>
           [py "https://www.example.com/blog/a"] `prefix_of` blog_links'
           /\ NoDup pagination_links'
       | Raised => True
       end.
Proof.
  apply (@frontier_loop_queue ascii_tables urllib_parse.cpython site_lib site_net
           example_scraper 4 5 [py "https://www.example.com/blog/a"]
           [py "https://www.example.com/blog/page/2"] 1 fresh).
  - simpl. lia.
  - apply NoDup_singleton.
Defined.

(** X21: every record a run writes is the record extracted from a
    non-empty page that the network returned for the record's URL, written
    under the path [save_post] derives from it. *)
Theorem written_records_are_extracted `{UnicodeData} `{UrlLib} `{HtmlLib}
    (net : network) (self : BlogScraper) (fuel : nat) (max_posts max_pages : Z)
    (st : state) :
  Z.to_nat (max_pages - 1) <= fuel ->
  exists o st' tr,
    scrape net self fuel max_posts max_pages st = Some (o, st')
    /\ trace st' = trace st ++ tr
    /\ forall w, w ∈ writes tr ->
         exists k html,
           net k (url w.2) = Some html /\ html <> []
           /\ w.2 = extract_blog_content html (url w.2)
           /\ w.1 = save_filepath self w.2.
Proof.
  intros Hfuel.
  destruct (scrape_effects net self fuel max_posts max_pages st Hfuel)
    as (o & st' & tr & Hrun & Htr & _ & _ & _ & Hw & _).
  by exists o, st', tr.
Qed.

Lemma written_records_are_extracted_witness :
  exists o st' tr,
    site_run = Some (o, st')
    /\ trace st' = trace fresh ++ tr
    /\ forall w, w ∈ writes tr ->
         exists k html,
           site_net k (url w.2) = Some html /\ html <> []
           /\ w.2 = @extract_blog_content site_lib html (url w.2)
           /\ w.1 = @save_filepath ascii_tables example_scraper w.2.
Proof.
  apply (@written_records_are_extracted ascii_tables urllib_parse.cpython site_lib
           site_net example_scraper 4 50 5 fresh).
  simpl. lia.
Defined.

(** X22: a run saves no URL twice, and saves no URL that was in
    [scraped_urls] when it started. *)
Theorem no_post_saved_twice `{UnicodeData} `{UrlLib} `{HtmlLib}
    (net : network) (self : BlogScraper) (fuel : nat) (max_posts max_pages : Z)
    (st : state) :
  Z.to_nat (max_pages - 1) <= fuel ->
  exists o st' tr,
    scrape net self fuel max_posts max_pages st = Some (o, st')
    /\ trace st' = trace st ++ tr
    /\ NoDup (map (fun w => url w.2) (writes tr))
    /\ forall w, w ∈ writes tr -> url w.2 ∉ scraped_urls st.
Proof.
  intros Hfuel.
  destruct (scrape_effects net self fuel max_posts max_pages st Hfuel)
    as (o & st' & tr & Hrun & Htr & _ & _ & _ & _ & Hnd & Hnew & _).
  by exists o, st', tr.
Qed.

Lemma no_post_saved_twice_witness :
  exists o st' tr,
    @scrape ascii_tables urllib_parse.cpython site_lib site_net example_scraper
      4 50 5 seen_a = Some (o, st')
    /\ trace st' = trace seen_a ++ tr
    /\ NoDup (map (fun w => url w.2) (writes tr))
    /\ forall w, w ∈ writes tr -> url w.2 ∉ scraped_urls seen_a.
Proof.
  apply (@no_post_saved_twice ascii_tables urllib_parse.cpython site_lib site_net
           example_scraper 4 50 5 seen_a).
  simpl. lia.
Defined.

(** ** What the URL library's exception does *)

(** X23: [find_blog_links] raises exactly when the URL library rejects an
    [href] the selector phase resolves, or, the selector phase having
    produced no link, the [href] of any anchor of the page: the fallback
    resolves every anchor before it looks at the pattern. *)
Theorem find_blog_links_raises `{UnicodeData} `{UrlLib} `{HtmlLib}
    (self : BlogScraper) (html_content : str) :
  find_blog_links self html_content = None
  <-> (exists selector link href,
         selector ∈ post_selectors
         /\ link ∈ select (BeautifulSoup html_content) selector
         /\ Bs4.get link (py "href") = Some href
         /\ href <> []
         /\ Str.startswith href (py "#") = false
         /\ Str.startswith href (py "javascript:") = false
         /\ rejected self href = true)
      \/ (selector_links self (BeautifulSoup html_content) = Some []
          /\ exists link href,
               link ∈ Bs4.find_all (BeautifulSoup html_content) (py "a") (py "href")
               /\ Bs4.get link (py "href") = Some href
               /\ rejected self href = true).
Proof.
  rewrite find_blog_links_None, selector_links_None, fallback_links_None.
  unfold resolvable. split.
  - intros [(selector & link & href & ? & ? & ? & (? & ? & ?) & ?)|?]; [left|by right].
    exists selector, link, href. by split_and!.
  - intros [(selector & link & href & ? & ? & ? & ? & ? & ? & ?)|?]; [left|by right].
    exists selector, link, href. by split_and!.
Qed.

(** X24: [find_pagination_links] raises exactly when the URL library
    rejects the [href] of an element one of its selectors selects, the
    [href] being non-empty and not starting with [#]. *)
Theorem find_pagination_links_raises `{UrlLib} `{HtmlLib}
    (self : BlogScraper) (html_content : str) :
  find_pagination_links self html_content = None
  <-> exists selector link href,
        selector ∈ pagination_selectors
        /\ link ∈ select (BeautifulSoup html_content) selector
        /\ Bs4.get link (py "href") = Some href
        /\ href <> []
        /\ Str.startswith href (py "#") = false
        /\ rejected self href = true.
Proof. by rewrite find_pagination_links_None, pagination_links_of_None. Qed.

(** X25: a run that a classifier's exception ends has saved nothing and has
    not reached the posts: it has written no file, [scraped_urls] is as it
    was, its requests are the seed page and the pagination pages it
    announced, and the line that reports the posts found is not in its
    log. *)
Theorem raising_run_saves_nothing `{UnicodeData} `{UrlLib} `{HtmlLib}
    (net : network) (self : BlogScraper) (fuel : nat) (max_posts max_pages : Z)
    (st : state) :
  Z.to_nat (max_pages - 1) <= fuel ->
  exists o st' tr,
    scrape net self fuel max_posts max_pages st = Some (o, st')
    /\ trace st' = trace st ++ tr
    /\ (o = Raised ->
        writes tr = []
        /\ scraped_urls st' = scraped_urls st
        /\ requests tr = base_url self :: announced tr
        /\ forall n, Log (FoundPosts n) ∉ tr).
Proof.
  intros Hfuel.
  destruct (scrape_effects net self fuel max_posts max_pages st Hfuel)
    as (o & st' & tr & Hrun & Htr & Hs & _ & _ & _ & _ & _ & Hraised).
  exists o, st', tr. split_and!; [done|done|].
  intros Ho. destruct (Hraised Ho) as (Hw & Hreq & Hfound). split_and!; try done.
  rewrite Hs, Hw. simpl. by rewrite (right_id_L ∅ (∪)).
Qed.

Lemma raising_run_saves_nothing_witness :
  exists o st' tr,
    @scrape ascii_tables urllib_parse.cpython bracket_lib bracket_net example_scraper
      4 50 5 fresh = Some (o, st')
    /\ trace st' = trace fresh ++ tr
    /\ (o = Raised ->
        writes tr = []
        /\ scraped_urls st' = scraped_urls fresh
        /\ requests tr = base_url example_scraper :: announced tr
        /\ forall n, Log (FoundPosts n) ∉ tr).
Proof.
  apply (@raising_run_saves_nothing ascii_tables urllib_parse.cpython bracket_lib
           bracket_net example_scraper 4 50 5 fresh).
  simpl. lia.
Defined.

(** The run on the page with the open bracket: the seed page is fetched, and
    the exception of [urljoin] ends the run before any post is looked for. *)
Example bracket_run_raises :
  @scrape ascii_tables urllib_parse.cpython bracket_lib bracket_net example_scraper
    4 50 5 fresh
  = Some (Raised, extend fresh [ Log (StartingScrape (base_url example_scraper));
                                 Get (base_url example_scraper) ]).
Proof. vm_compute. reflexivity. Qed.

(** The scraper of the examples is the one [__init__] builds. *)
Example example_scraper_built :
  @new_BlogScraper urllib_parse.cpython (py "https://www.example.com/blog") (py "posts") 1
  = Some example_scraper.
Proof. vm_compute. reflexivity. Qed.
